(** * ft5x06-tool: firmware read/write engine for FT5x06/FT5x16/FT5x26

    A shallow embedding of [ft5x06-tool.c].  The I2C bus is an abstract
    transport (a state machine answering write and write-then-read
    transactions); every function of the tool is a computation in a small
    state monad over a [world] holding the transport state and the
    chronological trace of everything the tool did: bus transactions,
    sleeps, bytes written to the dump file, and console messages. *)

From Stdlib Require Import ZArith List String Ascii Bool Lia Permutation.
Import ListNotations.
Local Open Scope Z_scope.

(** ** Machine integers *)

(** [(uint8_t) x] *)
Definition u8 (x : Z) : Z := x mod 256.

(** [(uint16_t) x] *)
Definition u16 (x : Z) : Z := x mod 65536.

(** [(uint32_t) x] *)
Definition u32 (x : Z) : Z := x mod 4294967296.

(** a [long] converted to [int] (two's complement, 32 bits) *)
Definition to_int (x : Z) : Z := (x + 2147483648) mod 4294967296 - 2147483648.

(** ** Constants ([#define]s of the source) *)

Definition ID_G_CIPHER : Z := 0xa3.
Definition ID_G_FIRMID : Z := 0xa6.

Definition FT_FW_READ_REG : Z := 0x03.
Definition FT_REG_RESET_FW : Z := 0x07.
Definition FT_ERASE_APP_REG : Z := 0x61.
Definition FT_ERASE_PANEL_REG : Z := 0x63.
Definition FT_FLASH_STATUS : Z := 0x6a.
Definition FT_READ_ID_REG : Z := 0x90.
Definition FT_FW_START_REG : Z := 0xbf.
Definition FT_REG_ECC : Z := 0xcc.
Definition FT_RST_CMD_REG1 : Z := 0xfc.

Definition FT_UPGRADE_AA : Z := 0xAA.
Definition FT_UPGRADE_55 : Z := 0x55.
Definition FT_UPGRADE_LOOP : Z := 30.
Definition FT_FW_MIN_SIZE : Z := 8.
Definition FT_FW_MAX_SIZE : Z := 64 * 1024.
Definition FT_FW_PKT_LEN : Z := 128.
Definition FT_FW_PKT_READ_LEN : Z := 256.

Definition FT5x06_ID : Z := 0x55.
Definition FT5x16_ID : Z := 0x0a.
Definition FT5x26_ID : Z := 0x54.

Definition INT_MAX : Z := 2147483647.

Definition EIO : Z := 5.
Definition ENODEV : Z := 19.

(** ** Variant registry *)

Record ft5x06_fw_update_info := {
  chip_id : Z;
  fts_name : string;
  tpd_max_points : Z;
  auto_clb : Z;
  delay_aa : Z;
  delay_55 : Z;
  upgrade_id_1 : Z;
  upgrade_id_2 : Z;
  delay_readid : Z;
  delay_erase_flash : Z;
  flash_offset : Z
}.

Definition ft5x06_fwu_info : list ft5x06_fw_update_info :=
  [ Build_ft5x06_fw_update_info FT5x06_ID "ft5x06" 5 1 50 30 0x79 0x03 10 2000 0x0000;
    Build_ft5x06_fw_update_info FT5x16_ID "ft5x16" 5 1 50 30 0x79 0x07 10 1500 0x0000;
    Build_ft5x06_fw_update_info FT5x26_ID "ft5x26" 5 0 4 250 0x54 0x2c 10 3000 0x1800 ].

(** [ft5x06_get_info]: linear search; [None] is the C [NULL].  The [int]
    argument is compared as [unsigned] in C; a negative [int] never equals
    a table byte either way. *)
Definition ft5x06_get_info (id : Z) : option ft5x06_fw_update_info :=
  find (fun e => id =? chip_id e) ft5x06_fwu_info.

Definition ft5x06_get_name (id : Z) : option string :=
  match find (fun e => id =? chip_id e) ft5x06_fwu_info with
  | Some e => Some (fts_name e)
  | None => None
  end.

(** ** Observable events *)

(** Console messages, one constructor per [LOG]/[ERR]/[printf] call site
    ([DBG] expands to nothing since [DEBUG] is not defined). *)
Inductive msg :=
| M_i2c_read_error (ret : Z)
| M_i2c_write_error (ret : Z)
| M_read_id_not_ok (b0 b1 : Z)
| M_reset_ctpm
| M_enter_upgrade_mode
| M_enter_upgrade_failed (ret : Z)
| M_check_read_id
| M_write_pkt (command offset length : Z)
| M_read_pkt (command offset length : Z)
| M_read_fw_from_flash
| M_reset_new_fw
| M_erase_current_app
| M_write_fw_to_flash
| M_verify_checksum
| M_ecc_error (reg_val ecc : Z)
| M_usage (name : string)
| M_opening (bus : Z)
| M_open_failed (bus : Z)
| M_setting_addr (addr : Z)
| M_slave_addr_failed
| M_get_id_failed (ret : Z)
| M_unsupported_chip (id : Z)
| M_chip_id (id : Z) (name : string)
| M_fw_version (v : Z)
| M_nothing_to_do
| M_unable_to_open (path : string)
| M_read_fw_failed
| M_flashing (path : string)
| M_fw_length (n : Z)
| M_map_failed
| M_flash_fw_failed.

Inductive event :=
| I2cWrite (buf : list Z) (r : Z)
    (* one write message and the ioctl's result *)
| I2cRead (wrbuf : list Z) (rdlen : Z) (r : Z) (rdbuf : list Z)
    (* write message (if any) then read message; the ioctl's result and the
       [rdlen] bytes of the caller's read buffer after the call *)
| Msleep (ms : Z)
| FileWrite (bytes : list Z)              (* write(outfd, ...) *)
| Log (m : msg)                           (* stdout *)
| Err (m : msg).                          (* stderr *)

(** ** The injected transport *)

(** The bus answers a write with the ioctl's return value, and a
    write-then-read with the return value and the bytes it delivers. *)
Record transport := {
  tstate : Type;
  xfer_write : tstate -> Z -> list Z -> Z * tstate;
  xfer_read : tstate -> Z -> list Z -> Z -> Z * list Z * tstate
}.

Record world (T : transport) := mkWorld {
  dev : tstate T;
  trace : list event
}.
Arguments mkWorld {T} _ _.
Arguments dev {T} _.
Arguments trace {T} _.

(** A computation either has no defined result ([None]: the C program
    dereferences [NULL], or a loop of the model ran out of fuel) or returns
    a value and the next world. *)
Definition M (T : transport) (A : Type) : Type := world T -> option (A * world T).

Definition ret {T A} (a : A) : M T A := fun w => Some (a, w).

Definition bind {T A B} (c : M T A) (k : A -> M T B) : M T B :=
  fun w => match c w with
           | Some (a, w') => k a w'
           | None => None
           end.

Definition undefined {T A} : M T A := fun _ => None.

Declare Scope ft_scope.
Delimit Scope ft_scope with ft.
Notation "x <- c ;; k" := (bind c (fun x => k))
  (at level 61, c at next level, right associativity) : ft_scope.
Notation "c ;;; k" := (bind c (fun _ => k))
  (at level 61, right associativity) : ft_scope.
Local Open Scope ft_scope.

Definition emit {T} (e : event) : M T unit :=
  fun w => Some (tt, mkWorld (dev w) (trace w ++ [e])).

Definition LOG {T} (m : msg) : M T unit := emit (Log m).
Definition ERR {T} (m : msg) : M T unit := emit (Err m).
Definition msleep {T} (delay : Z) : M T unit := emit (Msleep delay).

(** The kernel copies a read message back to the caller's buffer only when
    the transfer succeeded, and then copies all [rdlen] bytes. *)
Definition received (rdlen : Z) (data : list Z) : list Z :=
  firstn (Z.to_nat rdlen) (map u8 data ++ repeat 0 (Z.to_nat rdlen)).

Definition fill (rdbuf : list Z) (rdlen : Z) (data : list Z) : list Z :=
  received rdlen data ++ skipn (Z.to_nat rdlen) rdbuf.

Section Engine.

Context {T : transport}.

(** ** I2C primitives *)

(** Returns the ioctl result and the contents of [rdbuf] after the call.
    The [int addr] is stored in the 16-bit [addr] field of [struct i2c_msg]. *)
Definition ft5x06_i2c_read (addr : Z) (wrbuf : list Z) (wrlen : Z)
           (rdbuf : list Z) (rdlen : Z) : M T (Z * list Z) :=
  fun w =>
    let wr := if 0 <? wrlen then firstn (Z.to_nat wrlen) wrbuf else [] in
    let '(r, data, d') := xfer_read T (dev w) (u16 addr) wr rdlen in
    let rdbuf' := if r <? 0 then rdbuf else fill rdbuf rdlen data in
    let w1 := mkWorld d' (trace w ++ [I2cRead wr rdlen r
                                        (firstn (Z.to_nat rdlen) rdbuf')]) in
    if r <? 0
    then (ERR (M_i2c_read_error r) ;;; ret (r, rdbuf')) w1
    else ret (r, rdbuf') w1.

Definition ft5x06_i2c_write (addr : Z) (buf : list Z) (len : Z) : M T Z :=
  fun w =>
    let wr := firstn (Z.to_nat len) buf in
    let '(r, d') := xfer_write T (dev w) (u16 addr) wr in
    let w1 := mkWorld d' (trace w ++ [I2cWrite wr r]) in
    if r <? 0
    then (ERR (M_i2c_write_error r) ;;; ret r) w1
    else ret r w1.

Definition ft5x06_write_reg (addr regnum value : Z) : M T unit :=
  ft5x06_i2c_write addr [regnum; value] 2 ;;; ret tt.

(** ** Low-level operations *)

(** The reply comparison only feeds [DBG], which is compiled out. *)
Definition ft5x26_hid_to_i2c (addr : Z) : M T unit :=
  ft5x06_i2c_write addr [0xeb; 0xaa; 0x09] 3 ;;;
  let packet_buf := [0; 0; 0] in
  ft5x06_i2c_read addr packet_buf 0 packet_buf 3 ;;;
  msleep 10.

Definition ft5x06_read_id (addr id : Z) : M T Z :=
  match ft5x06_get_info id with
  | None => undefined
  | Some info =>
    let reg_val := [0; 0] in
    msleep (delay_readid info) ;;;
    let packet_buf := [FT_READ_ID_REG; 0x00; 0x00; 0x00] in
    rr <- ft5x06_i2c_read addr packet_buf 4 reg_val 2 ;;
    let reg_val := snd rr in
    if negb (nth 0 reg_val 0 =? upgrade_id_1 info)
       || negb (nth 1 reg_val 0 =? upgrade_id_2 info)
    then ERR (M_read_id_not_ok (nth 0 reg_val 0) (nth 1 reg_val 0)) ;;; ret (-1)
    else ret 0
  end.

Definition ft5x06_reset_ctpm (addr id : Z) : M T unit :=
  match ft5x06_get_info id with
  | None => undefined
  | Some info =>
    ft5x06_write_reg addr FT_RST_CMD_REG1 FT_UPGRADE_AA ;;;
    msleep (delay_aa info) ;;;
    ft5x06_write_reg addr FT_RST_CMD_REG1 FT_UPGRADE_55 ;;;
    msleep (delay_55 info)
  end.

Definition ft5x06_reset_fw (addr : Z) : M T unit :=
  ft5x06_i2c_write addr [FT_REG_RESET_FW] 1 ;;;
  msleep 100.

(** ** Bootloader entry *)

(** One pass through the body of the [for] loop of [ft5x06_init_upgrade];
    [true] is [break], [false] falls to [i++] (also after [continue]). *)
Definition init_upgrade_iter (addr id : Z) : M T bool :=
  LOG M_reset_ctpm ;;;
  ft5x06_reset_ctpm addr id ;;;
  LOG M_enter_upgrade_mode ;;;
  (if id =? FT5x26_ID then ft5x26_hid_to_i2c addr else ret tt) ;;;
  let packet_buf := [FT_UPGRADE_55; FT_UPGRADE_AA; 0; 0] in
  r <- ft5x06_i2c_write addr packet_buf 2 ;;
  if r <? 0 then
    ERR (M_enter_upgrade_failed r) ;;; ret false
  else
    LOG M_check_read_id ;;;
    rid <- ft5x06_read_id addr id ;;
    ret (rid =? 0).

(** [for (i = ...; i < FT_UPGRADE_LOOP; i++)], returning the final [i]. *)
Fixpoint init_upgrade_loop (fuel : nat) (addr id i : Z) : M T Z :=
  if i <? FT_UPGRADE_LOOP then
    match fuel with
    | O => undefined
    | S fuel' =>
      brk <- init_upgrade_iter addr id ;;
      if brk then ret i else init_upgrade_loop fuel' addr id (i + 1)
    end
  else ret i.

Definition ft5x06_init_upgrade (addr id : Z) : M T Z :=
  i <- init_upgrade_loop (Z.to_nat FT_UPGRADE_LOOP) addr id 0 ;;
  if i >=? FT_UPGRADE_LOOP then ret (- EIO) else ret 0.

(** ** Bootloader packets *)

(** The copy loop of [ft5x06_fw_send_packet]: [n] bytes remain, [i] is the
    loop index; returns the payload placed at [packet_buf[6 + i ..]] and
    the updated [*ecc]. *)
Fixpoint copy_payload (n : nat) (i offset : Z) (data : list Z) (ecc : Z)
  : list Z * Z :=
  match n with
  | O => ([], ecc)
  | S n' =>
    let b := u8 (nth (Z.to_nat (offset + i)) data 0) in
    let '(rest, ecc') := copy_payload n' (i + 1) offset data (Z.lxor ecc b) in
    (b :: rest, ecc')
  end.

(** The status poll [for (i = 0; i < 5; i++)] with [n] iterations left;
    only [packet_buf[0]], set to [FT_FLASH_STATUS], is sent. *)
Fixpoint flash_status_poll (n : nat) (addr offset : Z) : M T unit :=
  match n with
  | O => ret tt
  | S n' =>
    let reg_val := [0; 0] in
    let pkt_num := offset / FT_FW_PKT_LEN in
    msleep 5 ;;;
    rr <- ft5x06_i2c_read addr [FT_FLASH_STATUS] 1 reg_val 2 ;;
    let reg_val := snd rr in
    if pkt_num + 0x1000 =? Z.lor (Z.shiftl (nth 0 reg_val 0) 8) (nth 1 reg_val 0)
    then ret tt
    else flash_status_poll n' addr offset
  end.

(** Returns the new value of [*ecc]. *)
Definition ft5x06_fw_send_packet (addr command offset length : Z)
           (data : list Z) (ecc : Z) : M T Z :=
  LOG (M_write_pkt command offset length) ;;;
  let header := [command; 0x00;
                 u8 (Z.shiftr offset 8); u8 offset;
                 u8 (Z.shiftr length 8); u8 length] in
  let '(payload, ecc') := copy_payload (Z.to_nat length) 0 offset data ecc in
  let packet_buf := header ++ payload in
  ft5x06_i2c_write addr packet_buf (length + 6) ;;;
  flash_status_poll 5 addr offset ;;;
  ret ecc'.

(** Returns the ioctl result and the contents of [data] after the call. *)
Definition ft5x06_fw_receive_packet (addr command offset length : Z)
           (data : list Z) : M T (Z * list Z) :=
  LOG (M_read_pkt command offset length) ;;;
  let packet_buf := [command; 0x00; u8 (Z.shiftr offset 8); u8 offset] in
  ft5x06_i2c_read addr packet_buf 4 data length.

(** ** Read engine *)

(** [for (i = ...; i < size; i += FT_FW_PKT_READ_LEN)]; [inl r] is the early
    [return ret], [inr data] is normal loop exit. *)
Fixpoint fw_read_loop (fuel : nat) (addr size i : Z) (data : list Z)
  : M T (Z + list Z) :=
  if i <? size then
    match fuel with
    | O => undefined
    | S fuel' =>
      let length := if size - i <? FT_FW_PKT_READ_LEN
                    then size - i else FT_FW_PKT_READ_LEN in
      msleep 10 ;;;
      rr <- ft5x06_fw_receive_packet addr FT_FW_READ_REG i length data ;;
      let '(r, data') := rr in
      if r <? 0 then ret (inl r)
      else
        emit (FileWrite (firstn (Z.to_nat FT_FW_PKT_READ_LEN) data')) ;;;
        fw_read_loop fuel' addr size (i + FT_FW_PKT_READ_LEN) data'
    end
  else ret (inr data).

(** The local [data] array is uninitialised in C; it is only written to the
    file after a successful transfer has overwritten all of it, so its
    initial contents (zeros here) are never observed. *)
Definition ft5x06_fw_read (addr id : Z) : M T Z :=
  let size := FT_FW_MAX_SIZE in
  r <- ft5x06_init_upgrade addr id ;;
  if r <? 0 then ret r
  else
    LOG M_read_fw_from_flash ;;;
    res <- fw_read_loop (Z.to_nat (size / FT_FW_PKT_READ_LEN + 1)) addr size 0
                        (repeat 0 (Z.to_nat FT_FW_PKT_READ_LEN)) ;;
    match res with
    | inl r => ret r
    | inr _ =>
      LOG M_reset_new_fw ;;;
      ft5x06_i2c_write addr [FT_REG_RESET_FW; 0; 0; 0] 1 ;;;
      msleep 100 ;;;
      ret 0
    end.

(** ** Write engine *)

(** [for (i = ...; i < data_len; i += FT_FW_PKT_LEN)], threading [ecc].
    [i] is an [int]: incrementing it past [INT_MAX] is undefined in C.
    [fuel] bounds the iterations of the model; the caller passes more than
    the loop can use. *)
Fixpoint fw_upgrade_loop (fuel : nat) (addr data_len i : Z) (data : list Z)
         (ecc : Z) : M T Z :=
  if i <? data_len then
    match fuel with
    | O => undefined
    | S fuel' =>
      let length := if data_len - i <? FT_FW_PKT_LEN
                    then data_len - i else FT_FW_PKT_LEN in
      ecc' <- ft5x06_fw_send_packet addr FT_FW_START_REG i length data ecc ;;
      if i + FT_FW_PKT_LEN >? INT_MAX then undefined
      else fw_upgrade_loop fuel' addr data_len (i + FT_FW_PKT_LEN) data ecc'
    end
  else ret ecc.

Definition ft5x06_fw_upgrade (addr id : Z) (data : list Z) (data_len : Z)
  : M T Z :=
  match ft5x06_get_info id with
  | None => ret (- ENODEV)
  | Some info =>
    r <- ft5x06_init_upgrade addr id ;;
    if r <? 0 then ret r
    else
      LOG M_erase_current_app ;;;
      ft5x06_i2c_write addr [FT_ERASE_APP_REG; 0; 0; 0; 0; 0] 1 ;;;
      (if negb (id =? FT5x26_ID)
       then ft5x06_i2c_write addr [FT_ERASE_PANEL_REG; 0; 0; 0; 0; 0] 1 ;;; ret tt
       else ret tt) ;;;
      msleep (delay_erase_flash info) ;;;
      let packet_buf := [0xB0;
                         u8 (Z.land (Z.shiftr data_len 16) 0xFF);
                         u8 (Z.land (Z.shiftr data_len 8) 0xFF);
                         u8 (Z.land data_len 0xFF); 0; 0] in
      ft5x06_i2c_write addr packet_buf 4 ;;;
      LOG M_write_fw_to_flash ;;;
      ecc <- fw_upgrade_loop (Z.to_nat (data_len / FT_FW_PKT_LEN + 1))
                             addr data_len 0 data 0 ;;
      msleep 50 ;;;
      LOG M_verify_checksum ;;;
      rr <- ft5x06_i2c_read addr [FT_REG_ECC] 1 [0; 0; 0; 0] 1 ;;
      let reg_val := snd rr in
      if negb (nth 0 reg_val 0 =? ecc) then
        ERR (M_ecc_error (nth 0 reg_val 0) ecc) ;;; ret (- EIO)
      else
        LOG M_reset_new_fw ;;;
        ft5x06_reset_fw addr ;;;
        ret 0
  end.

End Engine.

(** ** Command line *)

(** *** A model of libc's [strtol] (value only; [endptr] is [NULL]) *)

Definition isspace (c : ascii) : bool :=
  let n := Z.of_nat (nat_of_ascii c) in
  (n =? 32) || ((9 <=? n) && (n <=? 13)).

Definition digit_val (c : ascii) : option Z :=
  let n := Z.of_nat (nat_of_ascii c) in
  if (48 <=? n) && (n <=? 57) then Some (n - 48)
  else if (97 <=? n) && (n <=? 122) then Some (n - 87)
  else if (65 <=? n) && (n <=? 90) then Some (n - 55)
  else None.

Fixpoint skip_space (s : string) : string :=
  match s with
  | String c r => if isspace c then skip_space r else s
  | EmptyString => s
  end.

Fixpoint accumulate (base : Z) (s : string) (acc : Z) : Z :=
  match s with
  | String c r =>
    match digit_val c with
    | Some d => if d <? base then accumulate base r (acc * base + d) else acc
    | None => acc
    end
  | EmptyString => acc
  end.

Definition strip_sign (s : string) : bool * string :=
  match s with
  | String "-" r => (true, r)
  | String "+" r => (false, r)
  | _ => (false, s)
  end.

Definition strip_0x (s : string) : string :=
  match s with
  | String "0" (String "x" r) => r
  | String "0" (String "X" r) => r
  | _ => s
  end.

Definition LONG_MAX : Z := 9223372036854775807.
Definition LONG_MIN : Z := -9223372036854775808.

Definition strtol (s : string) (base : Z) : Z :=
  let '(neg, s1) := strip_sign (skip_space s) in
  let s2 := if base =? 16 then strip_0x s1 else s1 in
  let v := accumulate base s2 0 in
  if neg then Z.max (- v) LONG_MIN else Z.min v LONG_MAX.

(** *** Option parsing *)

Record options := mkOptions {
  o_input : option string;
  o_output : option string;
  o_bus : Z;
  o_addr : Z;
  o_chip_id : Z
}.

Definition default_options : options := mkOptions None None 2 0x38 (-1).

Inductive parsed :=
| Parsed (o : options)
| Usage                (* show_help(argv[0]); exit(1) *)
| BadArg.              (* strtol(NULL, ...): the flag was the last argument *)

Definition is_flag (a short long : string) : bool :=
  String.eqb a short || String.eqb a long.

(** The [while (arg_count < argc)] loop over [argv[1..]].  [argv[argc]] is
    [NULL], so a trailing [-i]/[-o] stores [NULL]. *)
Fixpoint parse_args (args : list string) (o : options) : parsed :=
  match args with
  | [] => Parsed o
  | a :: rest =>
    if is_flag a "-a" "--address" then
      match rest with
      | v :: rest' =>
        parse_args rest' (mkOptions (o_input o) (o_output o) (o_bus o)
                                    (to_int (strtol v 16)) (o_chip_id o))
      | [] => BadArg
      end
    else if is_flag a "-b" "--bus" then
      match rest with
      | v :: rest' =>
        parse_args rest' (mkOptions (o_input o) (o_output o)
                                    (to_int (strtol v 10)) (o_addr o) (o_chip_id o))
      | [] => BadArg
      end
    else if is_flag a "-c" "--chipid" then
      match rest with
      | v :: rest' =>
        parse_args rest' (mkOptions (o_input o) (o_output o) (o_bus o)
                                    (o_addr o) (to_int (strtol v 16)))
      | [] => BadArg
      end
    else if is_flag a "-i" "--input" then
      match rest with
      | v :: rest' =>
        parse_args rest' (mkOptions (Some v) (o_output o) (o_bus o)
                                    (o_addr o) (o_chip_id o))
      | [] => Parsed (mkOptions None (o_output o) (o_bus o) (o_addr o) (o_chip_id o))
      end
    else if is_flag a "-o" "--ouput" then
      match rest with
      | v :: rest' =>
        parse_args rest' (mkOptions (o_input o) (Some v) (o_bus o)
                                    (o_addr o) (o_chip_id o))
      | [] => Parsed (mkOptions (o_input o) None (o_bus o) (o_addr o) (o_chip_id o))
      end
    else Usage
  end.

(** ** The host around the tool: device nodes and files *)

Record host := {
  open_i2c : Z -> Z;              (* open("/dev/i2c-<bus>", O_RDWR) *)
  set_slave : Z -> Z;             (* ioctl(fd, I2C_SLAVE_FORCE, addr) *)
  open_output : string -> Z;      (* open(output, O_RDWR | O_CREAT) *)
  open_input : string -> Z;       (* open(input, O_RDONLY) *)
  input_bytes : string -> list Z; (* contents of the input file *)
  mmap_fails : string -> bool     (* mmap(...) == MAP_FAILED *)
}.

Section Main.

Context {T : transport}.
Variable H : host.

(** "If chip ID isn't forced, detect it": [None] is the [goto end] after a
    failed read, [Some id] the value of [chip_id] afterwards. *)
Definition identify (o : options) : M T (option Z) :=
  if o_chip_id o <? 0 then
    rr <- ft5x06_i2c_read (o_addr o) [ID_G_CIPHER] 1 [0] 1 ;;
    if fst rr <? 0 then ERR (M_get_id_failed (fst rr)) ;;; ret None
    else ret (Some (nth 0 (snd rr) 0))
  else ret (Some (o_chip_id o)).

(** [main] from "If chip ID isn't forced" down to the [end:] label. *)
Definition main_session (o : options) : M T unit :=
  let addr := o_addr o in
  det <- identify o ;;
  match det with
  | None => ret tt
  | Some id =>
    match ft5x06_get_name id with
    | None => ERR (M_unsupported_chip id)
    | Some name =>
      LOG (M_chip_id id name) ;;;
      rr <- ft5x06_i2c_read addr [ID_G_FIRMID] 1 [0] 1 ;;
      if fst rr <? 0 then ERR (M_get_id_failed (fst rr))
      else
        LOG (M_fw_version (nth 0 (snd rr) 0)) ;;;
        match o_input o, o_output o with
        | None, None => LOG M_nothing_to_do
        | _, _ =>
          (* First read the firmware if asked for *)
          go_on <- match o_output o with
                   | None => ret true
                   | Some output =>
                     if open_output H output <? 0
                     then ERR (M_unable_to_open output) ;;; ret false
                     else
                       r <- ft5x06_fw_read addr id ;;
                       (if r <? 0 then ERR M_read_fw_failed else ret tt) ;;;
                       ret true
                   end ;;
          if negb go_on then ret tt
          else
            (* Then flash a new firmware if available *)
            match o_input o with
            | None => ret tt
            | Some input =>
              if open_input H input <? 0
              then ERR (M_unable_to_open input)
              else
                let buffer := input_bytes H input in
                let st_size := Z.of_nat (List.length buffer) in
                LOG (M_flashing input) ;;;
                LOG (M_fw_length st_size) ;;;
                if mmap_fails H input then ERR M_map_failed
                else
                  r <- ft5x06_fw_upgrade addr id buffer (u32 st_size) ;;
                  if r <? 0 then ERR M_flash_fw_failed else ret tt
            end
        end
    end
  end.

(** The value [main] returns, or the argument of [exit]. *)
Definition main (argv : list string) : M T Z :=
  match parse_args (tl argv) default_options with
  | BadArg => undefined
  | Usage => LOG (M_usage (hd EmptyString argv)) ;;; ret 1
  | Parsed o =>
    (* sprintf into char dev[16] *)
    if (o_bus o <? -99999) || (999999 <? o_bus o) then undefined
    else
      LOG (M_opening (o_bus o)) ;;;
      let fd := open_i2c H (o_bus o) in
      if fd <? 0 then LOG (M_open_failed (o_bus o)) ;;; ret fd
      else
        LOG (M_setting_addr (o_addr o)) ;;;
        if negb (set_slave H (o_addr o) =? 0)
        then LOG M_slave_addr_failed ;;; ret (-1)
        else main_session o ;;; ret 0
  end.

End Main.

(** The status the parent process sees. *)
Definition exit_status (code : Z) : Z := code mod 256.

(** ** Test transports *)

(** A stateless fake chip: fixed register contents, and the ioctl results
    chosen per transaction. *)
Record fake_cfg := {
  f_chip : Z;                  (* register 0xA3 *)
  f_fw : Z;                    (* register 0xA6 *)
  f_id : list Z;               (* reply to the bootloader read-ID command *)
  f_ecc : Z;                   (* register 0xCC *)
  f_status : list Z;           (* register 0x6A *)
  f_wret : list Z -> Z;        (* result of a write of these bytes *)
  f_rret : list Z -> Z         (* result of a read after these bytes *)
}.

Definition fake_reply (c : fake_cfg) (wr : list Z) (rdlen : Z) : list Z :=
  match wr with
  | r :: _ =>
    if r =? ID_G_CIPHER then [f_chip c]
    else if r =? ID_G_FIRMID then [f_fw c]
    else if r =? FT_READ_ID_REG then f_id c
    else if r =? FT_REG_ECC then [f_ecc c]
    else if r =? FT_FLASH_STATUS then f_status c
    else []
  | [] => []
  end.

Definition fake_chip (c : fake_cfg) : transport :=
  {| tstate := unit;
     xfer_write := fun s _ buf => (f_wret c buf, s);
     xfer_read := fun s _ wr rdlen => (f_rret c wr, fake_reply c wr rdlen, s) |}.

Definition boot (c : fake_cfg) : world (fake_chip c) := mkWorld (tt : tstate (fake_chip c)) [].

(** An FT5x06 that always works and reports ECC [e]. *)
Definition good_ft5x06 (e : Z) : fake_cfg :=
  {| f_chip := 0x55; f_fw := 3; f_id := [0x79; 0x03]; f_ecc := e;
     f_status := [0x10; 0x00];
     f_wret := fun _ => 1; f_rret := fun _ => 2 |}.

(** An FT5x26 that always works and reports ECC [e]. *)
Definition good_ft5x26 (e : Z) : fake_cfg :=
  {| f_chip := 0x54; f_fw := 3; f_id := [0x54; 0x2c]; f_ecc := e;
     f_status := [0x10; 0x00];
     f_wret := fun _ => 1; f_rret := fun _ => 2 |}.

(** A chip that never answers the bootloader read-ID command correctly. *)
Definition wrong_id_chip : fake_cfg :=
  {| f_chip := 0x55; f_fw := 3; f_id := [0x12; 0x34]; f_ecc := 0;
     f_status := [0; 0];
     f_wret := fun _ => 1; f_rret := fun _ => 2 |}.

(** An FT5x06 on a bus where every transaction of the erase, announce,
    program and verify phases fails, while bootloader entry works. *)
Definition flaky_ft5x06 (e : Z) : fake_cfg :=
  {| f_chip := 0x55; f_fw := 3; f_id := [0x79; 0x03]; f_ecc := e;
     f_status := [0; 0];
     f_wret := fun buf => match buf with
                          | [a; b] => 1
                          | _ => -1
                          end;
     f_rret := fun wr => match wr with
                         | [a; b; c; d] => 2
                         | _ => -1
                         end |}.

(** A host on which every [open], [ioctl] and [mmap] succeeds and every
    input file holds [image]. *)
Definition plain_host (image : list Z) : host :=
  {| open_i2c := fun _ => 3;
     set_slave := fun _ => 0;
     open_output := fun _ => 4;
     open_input := fun _ => 5;
     input_bytes := fun _ => image;
     mmap_fails := fun _ => false |}.

(** A host on which the bus device cannot be opened. *)
Definition no_bus_host : host :=
  {| open_i2c := fun _ => -1;
     set_slave := fun _ => 0;
     open_output := fun _ => 4;
     open_input := fun _ => 5;
     input_bytes := fun _ => [];
     mmap_fails := fun _ => false |}.

Definition image_S1 : list Z := [0x01; 0x02; 0x04; 0x08; 0x10; 0x20; 0x40; 0x80].

(** ** Reading traces *)

(** What the bus, the clock and the dump file see of an event: the request
    without its reply; console messages are dropped. *)
Inductive op :=
| OpWrite (buf : list Z)
| OpRead (wrbuf : list Z) (rdlen : Z)
| OpSleep (ms : Z)
| OpFile (bytes : list Z).

Definition op_of (e : event) : list op :=
  match e with
  | I2cWrite buf _ => [OpWrite buf]
  | I2cRead wr n _ _ => [OpRead wr n]
  | Msleep ms => [OpSleep ms]
  | FileWrite bs => [OpFile bs]
  | Log _ | Err _ => []
  end.

Definition ops (tr : list event) : list op := flat_map op_of tr.

(** The buffers of the write transactions, in order. *)
Definition op_writes (l : list op) : list (list Z) :=
  flat_map (fun o => match o with OpWrite buf => [buf] | _ => [] end) l.

Definition writes (tr : list event) : list (list Z) := op_writes (ops tr).

(** The bytes handed to [write(outfd, ...)], in order. *)
Definition op_dumped (l : list op) : list Z :=
  flat_map (fun o => match o with OpFile bs => bs | _ => [] end) l.

Definition dumped (tr : list event) : list Z := op_dumped (ops tr).

Definition bytes_eqb (a b : list Z) : bool :=
  if list_eq_dec Z.eq_dec a b then true else false.

(** How many write transactions carry exactly [buf]. *)
Definition op_count (buf : list Z) (l : list op) : nat :=
  List.length (filter (bytes_eqb buf) (op_writes l)).

Definition count_write (buf : list Z) (tr : list event) : nat :=
  op_count buf (ops tr).

(** A bootloader read-ID transaction whose reply is the variant's pair. *)
Definition id_match (info : ft5x06_fw_update_info) (e : event) : bool :=
  match e with
  | I2cRead wr _ _ buf =>
    bytes_eqb wr [FT_READ_ID_REG; 0; 0; 0]
    && bytes_eqb buf [upgrade_id_1 info; upgrade_id_2 info]
  | _ => false
  end.

Definition no_match (info : ft5x06_fw_update_info) (tr : list event) : Prop :=
  existsb (id_match info) tr = false.

(** The bus and clock operations of one bootloader-entry attempt;
    [checked] tells whether the attempt got as far as the read-ID. *)
Definition iter_ops (info : ft5x06_fw_update_info) (id : Z) (checked : bool)
  : list op :=
  [OpWrite [FT_RST_CMD_REG1; FT_UPGRADE_AA]; OpSleep (delay_aa info);
   OpWrite [FT_RST_CMD_REG1; FT_UPGRADE_55]; OpSleep (delay_55 info)]
  ++ (if id =? FT5x26_ID
      then [OpWrite [0xeb; 0xaa; 0x09]; OpRead [] 3; OpSleep 10] else [])
  ++ [OpWrite [FT_UPGRADE_55; FT_UPGRADE_AA]]
  ++ (if checked
      then [OpSleep (delay_readid info); OpRead [FT_READ_ID_REG; 0; 0; 0] 2]
      else []).

(** The read-ID transaction among the operations on the bus. *)
Definition id_read_op (o : op) : bool :=
  match o with
  | OpRead wr n => bytes_eqb wr [FT_READ_ID_REG; 0; 0; 0] && (n =? 2)
  | _ => false
  end.

(** How many read-ID transactions a trace holds. *)
Definition id_reads (tr : list event) : nat :=
  List.length (filter id_read_op (ops tr)).

(** An entry write [{0x55, 0xAA}] that the bus accepted. *)
Definition enter_ok (e : event) : bool :=
  match e with
  | I2cWrite buf r => bytes_eqb [FT_UPGRADE_55; FT_UPGRADE_AA] buf && (0 <=? r)
  | _ => false
  end.

Definition accepted_enters (tr : list event) : nat :=
  List.length (filter enter_ok tr).

(** A transport that never answers read-ID with the variant's pair. *)
Definition never_id (T : transport) (info : ft5x06_fw_update_info) : Prop :=
  forall (d : tstate T) (addr : Z),
    let '(r, data, _) := xfer_read T d addr [FT_READ_ID_REG; 0; 0; 0] 2 in
    r < 0 \/ received 2 data <> [upgrade_id_1 info; upgrade_id_2 info].

(** No attempt of bootloader entry breaks out of the retry loop. *)
Definition no_break {T : transport} (addr id : Z) : Prop :=
  forall (w : world T) (brk : bool) (w' : world T),
    init_upgrade_iter addr id w = Some (brk, w') -> brk = false.


Definition is_byte (b : Z) : Prop := 0 <= b < 256.

Definition xor_all (l : list Z) : Z := fold_left Z.lxor l 0.

(** [c] started in [w] returns [a] in world [w'], having appended [tr]. *)
Definition runs {T A} (c : M T A) (w : world T) (a : A) (tr : list event)
           (w' : world T) : Prop :=
  c w = Some (a, w') /\ trace w' = trace w ++ tr.

(** ** What the write engine is expected to put on the bus *)

(** Number of programming packets for an image of [L] bytes. *)
Definition packet_count (L : Z) : nat := Z.to_nat ((L + 127) / 128).

(** The six header bytes; each 16-bit field is sent high byte first, the
    high byte being what remains of [x >> 8] in eight bits. *)
Definition pkt_header (off n : Z) : list Z :=
  [FT_FW_START_REG; 0;
   (off / 256) mod 256; off mod 256; (n / 256) mod 256; n mod 256].

(** Payload of the [k]-th packet: the image bytes from [128 k], at most 128. *)
Definition payload_at (data : list Z) (k : nat) : list Z :=
  firstn 128 (skipn (128 * k) data).

Definition packet_at (data : list Z) (k : nat) : list Z :=
  let L := Z.of_nat (List.length data) in
  let off := 128 * Z.of_nat k in
  pkt_header off (Z.min 128 (L - off)) ++ payload_at data k.

Definition expected_packets (data : list Z) : list (list Z) :=
  map (packet_at data) (seq 0 (packet_count (Z.of_nat (List.length data)))).

(** [k] status polls: each a 5 ms sleep then a two-byte read of 0x6A. *)
Fixpoint poll_ops (k : nat) : list op :=
  match k with
  | O => []
  | S k' => OpSleep 5 :: OpRead [FT_FLASH_STATUS] 2 :: poll_ops k'
  end.

(** Packets interleaved with their polls; [ks] gives the polls per packet. *)
Fixpoint program_ops (pkts : list (list Z)) (ks : list nat) : list op :=
  match pkts, ks with
  | p :: pkts', k :: ks' => OpWrite p :: poll_ops k ++ program_ops pkts' ks'
  | _, _ => []
  end.

(** The test of the status poll on the two bytes read. *)
Definition status_match (offset : Z) (reg_val : list Z) : bool :=
  offset / FT_FW_PKT_LEN + 0x1000
  =? Z.lor (Z.shiftl (nth 0 reg_val 0) 8) (nth 1 reg_val 0).

(** The read buffers of the read transactions of a trace, in order. *)
Definition read_replies (tr : list event) : list (list Z) :=
  flat_map (fun e => match e with I2cRead _ _ _ buf => [buf] | _ => [] end) tr.

Definition erase_ops (info : ft5x06_fw_update_info) (id : Z) : list op :=
  OpWrite [FT_ERASE_APP_REG]
  :: (if id =? FT5x26_ID then [] else [OpWrite [FT_ERASE_PANEL_REG]])
  ++ [OpSleep (delay_erase_flash info)].

Definition announce (L : Z) : list Z :=
  [0xB0; (L / 65536) mod 256; (L / 256) mod 256; L mod 256].

(** ** What the read engine is expected to put on the bus *)

(** The four command bytes of the [k]-th read packet, at offset [256 k]. *)
Definition read_cmd (k : nat) : list Z :=
  let off := 256 * Z.of_nat k in
  [FT_FW_READ_REG; 0x00; off / 256; off mod 256].

(** Read packets from index [k] on, each followed by the dump of its
    buffer: sleep, write-then-read of 256 bytes, write to the file. *)
Fixpoint read_ops (k : nat) (bufs : list (list Z)) : list op :=
  match bufs with
  | [] => []
  | b :: bs =>
    OpSleep 10 :: OpRead (read_cmd k) FT_FW_PKT_READ_LEN :: OpFile b
    :: read_ops (S k) bs
  end.

(** A transport on which no write-then-read transaction fails. *)
Definition reads_succeed (T : transport) : Prop :=
  forall (d : tstate T) (addr : Z) (wr : list Z) (n : Z),
    0 <= fst (fst (xfer_read T d addr wr n)).

(** The verify transaction: a one-byte read of the ECC register leaving
    [actual] in [reg_val[0]]. *)
Definition verify_trace (io actual : Z) : list event :=
  I2cRead [FT_REG_ECC] 1 io [actual]
  :: (if io <? 0 then [Err (M_i2c_read_error io)] else []).

(** The trace a write transaction leaves. *)
Definition write_trace (wr : list Z) (r : Z) : list event :=
  I2cWrite wr r :: (if r <? 0 then [Err (M_i2c_write_error r)] else []).

(** The trace a read transaction leaves. *)
Definition read_trace (wr : list Z) (rdlen r : Z) (buf : list Z) : list event :=
  I2cRead wr rdlen r (firstn (Z.to_nat rdlen) buf)
  :: (if r <? 0 then [Err (M_i2c_read_error r)] else []).

(** ** Reading the command line *)

(** The option a command-line word selects, by the tests of [main] in
    their order. *)
Inductive flag := FAddress | FBus | FChipid | FInput | FOutput.

Definition flag_of (a : string) : option flag :=
  if is_flag a "-a" "--address" then Some FAddress
  else if is_flag a "-b" "--bus" then Some FBus
  else if is_flag a "-c" "--chipid" then Some FChipid
  else if is_flag a "-i" "--input" then Some FInput
  else if is_flag a "-o" "--ouput" then Some FOutput
  else None.

(** A command line made of complete flag/value pairs. *)
Definition flatten_pairs (ps : list (string * string)) : list string :=
  flat_map (fun p => [fst p; snd p]) ps.

(** The length the chip reads back from the three bytes after [0xB0]. *)
Definition announced_length (buf : list Z) : Z :=
  nth 1 buf 0 * 65536 + nth 2 buf 0 * 256 + nth 3 buf 0.

(** The 16-bit address a packet header carries. *)
Definition header_offset (pkt : list Z) : Z :=
  nth 2 pkt 0 * 256 + nth 3 pkt 0.

(** What the branch of [main]'s parser for option [k] stores. *)
Definition set_flag (k : flag) (v : string) (o : options) : options :=
  match k with
  | FAddress => mkOptions (o_input o) (o_output o) (o_bus o)
                          (to_int (strtol v 16)) (o_chip_id o)
  | FBus => mkOptions (o_input o) (o_output o) (to_int (strtol v 10))
                      (o_addr o) (o_chip_id o)
  | FChipid => mkOptions (o_input o) (o_output o) (o_bus o) (o_addr o)
                         (to_int (strtol v 16))
  | FInput => mkOptions (Some v) (o_output o) (o_bus o) (o_addr o) (o_chip_id o)
  | FOutput => mkOptions (o_input o) (Some v) (o_bus o) (o_addr o) (o_chip_id o)
  end.


(** The reads [main] makes to identify the chip and its firmware. *)
Definition identify_ops (o : options) : list op :=
  (if o_chip_id o <? 0 then [OpRead [ID_G_CIPHER] 1] else [])
  ++ [OpRead [ID_G_FIRMID] 1].

(** ** Chips described by what they answer *)

(** A transport that always accepts the [{0x55, 0xAA}] write. *)
Definition enter_accepted (T : transport) : Prop :=
  forall (d : tstate T) (addr : Z),
    0 <= fst (xfer_write T d addr [FT_UPGRADE_55; FT_UPGRADE_AA]).

(** A transport that always answers read-ID with the variant's pair. *)
Definition always_id (T : transport) (info : ft5x06_fw_update_info) : Prop :=
  forall (d : tstate T) (addr : Z),
    let '(r, data, _) := xfer_read T d addr [FT_READ_ID_REG; 0; 0; 0] 2 in
    0 <= r /\ received 2 data = [upgrade_id_1 info; upgrade_id_2 info].

(** The test [ft5x06_read_id] makes, on the transport's answer. *)
Definition id_answer (info : ft5x06_fw_update_info) (x : Z * list Z) : bool :=
  negb (fst x <? 0)
  && bytes_eqb (received 2 (snd x)) [upgrade_id_1 info; upgrade_id_2 info].

(** A chip whose ECC register 0xCC reads as [e]. *)
Definition ecc_register (T : transport) (e : Z) : Prop :=
  forall (d : tstate T) (addr : Z),
    let '(r, data, _) := xfer_read T d addr [FT_REG_ECC] 1 in
    0 <= r /\ received 1 data = [e].

(** A bus on which the read of register 0xCC always fails. *)
Definition verify_fails (T : transport) : Prop :=
  forall (d : tstate T) (addr : Z),
    fst (fst (xfer_read T d addr [FT_REG_ECC] 1)) < 0.

(** The [k]-th 256-byte block of a flash image. *)
Definition chunk (F : list Z) (k : nat) : list Z :=
  firstn 256 (skipn (256 * k) F).

(** A chip whose bootloader serves the flash image [F] to read packets. *)
Definition serves (T : transport) (F : list Z) : Prop :=
  forall (d : tstate T) (addr : Z) (k : nat),
    (k < 256)%nat ->
    let '(r, data, _) := xfer_read T d addr (read_cmd k) FT_FW_PKT_READ_LEN in
    0 <= r /\ received FT_FW_PKT_READ_LEN data = chunk F k.

(** ** The events of a dump *)

(** The trace of the read packets from index [k] on that succeeded, given
    the ioctl result and the 256 bytes delivered for each: sleep, message,
    transaction, write to the file. *)
Fixpoint read_events (k : nat) (oks : list (Z * list Z)) : list event :=
  match oks with
  | [] => []
  | p :: rest =>
    Msleep 10
    :: Log (M_read_pkt FT_FW_READ_REG (256 * Z.of_nat k) FT_FW_PKT_READ_LEN)
    :: I2cRead (read_cmd k) FT_FW_PKT_READ_LEN (fst p) (snd p)
    :: FileWrite (snd p)
    :: read_events (S k) rest
  end.

(** The trace of read packet [k] when its transaction fails with [io],
    leaving [stale] in the buffer. *)
Definition failed_read (k : nat) (io : Z) (stale : list Z) : list event :=
  [Msleep 10;
   Log (M_read_pkt FT_FW_READ_REG (256 * Z.of_nat k) FT_FW_PKT_READ_LEN);
   I2cRead (read_cmd k) FT_FW_PKT_READ_LEN io stale;
   Err (M_i2c_read_error io)].

(** The messages printed on stderr, in order. *)
Definition errors (tr : list event) : list msg :=
  flat_map (fun e => match e with Err m => [m] | _ => [] end) tr.

(** ** The dump file *)

(** The buffers handed to [write(outfd, ...)], call by call. *)
Definition file_writes (tr : list event) : list (list Z) :=
  flat_map (fun e => match e with FileWrite bs => [bs] | _ => [] end) tr.

(** What a [write] that returns [r] stored of its buffer. *)
Definition accepted (r : Z) (bytes : list Z) : list Z :=
  if r <? 0 then [] else firstn (Z.to_nat r) bytes.

(** The bytes stored by successive [write] calls, [results] giving what
    each call returned; calls beyond [results] are complete. *)
Fixpoint accepted_bytes (chunks : list (list Z)) (results : list Z) : list Z :=
  match chunks with
  | [] => []
  | c :: cs =>
    accepted (hd (Z.of_nat (List.length c)) results) c
    ++ accepted_bytes cs (tl results)
  end.

(** The dump file after the run.  [main] opens it with
    [O_RDWR | O_CREAT], without [O_TRUNC]: it starts as [pre] (empty if it
    did not exist), the descriptor at offset 0, and each [write] stores the
    bytes it accepted at the current offset, over what was there. *)
Definition file_after (pre : list Z) (results : list Z) (tr : list event)
  : list Z :=
  let stored := accepted_bytes (file_writes tr) results in
  stored ++ skipn (List.length stored) pre.

(** ** More test transports *)

(** An FT5x06 on which only the read of the ECC register fails. *)
Definition deaf_verify (e : Z) : fake_cfg :=
  {| f_chip := 0x55; f_fw := 3; f_id := [0x79; 0x03]; f_ecc := e;
     f_status := [0x10; 0x00];
     f_wret := fun _ => 1;
     f_rret := fun wr => if bytes_eqb wr [FT_REG_ECC] then -1 else 2 |}.

(** An image whose XOR is 0. *)
Definition image_even : list Z :=
  [0x11; 0x11; 0x22; 0x22; 0x44; 0x44; 0x88; 0x88].

(** An FT5x06 that answers read-ID with a wrong pair [k] times, and with
    its own pair from then on; the state counts the read-IDs. *)
Definition late_chip (k : nat) : transport :=
  {| tstate := nat;
     xfer_write := fun s _ _ => (1, s);
     xfer_read := fun s _ wr _ =>
       if bytes_eqb wr [FT_READ_ID_REG; 0; 0; 0]
       then (2, if (k <=? s)%nat then [0x79; 0x03] else [0x12; 0x34], S s)
       else (2, [], s) |}.

Definition boot_late (k : nat) : world (late_chip k) :=
  mkWorld (0%nat : tstate (late_chip k)) [].

(** A chip like [fake_chip c] whose bootloader serves the flash image
    [F]: a read packet at offset [256 hi + lo] is answered with the bytes of
    [F] from there. *)
Definition flash_chip (c : fake_cfg) (F : list Z) : transport :=
  {| tstate := unit;
     xfer_write := fun s _ buf => (f_wret c buf, s);
     xfer_read := fun s _ wr rdlen =>
       (f_rret c wr,
        match wr with
        | [cmd; _; hi; lo] =>
          if cmd =? FT_FW_READ_REG
          then firstn (Z.to_nat rdlen) (skipn (Z.to_nat (256 * hi + lo)) F)
          else fake_reply c wr rdlen
        | _ => fake_reply c wr rdlen
        end, s) |}.

Definition boot_flash (c : fake_cfg) (F : list Z) : world (flash_chip c F) :=
  mkWorld (tt : tstate (flash_chip c F)) [].

(** A flash image of 65536 bytes, byte [i] being [i mod 251]. *)
Definition flash_image : list Z :=
  map (fun i => Z.of_nat i mod 251) (seq 0 (Z.to_nat 65536)).

(** An FT5x06 on which the third read packet of a dump fails. *)
Definition short_read_chip : fake_cfg :=
  {| f_chip := 0x55; f_fw := 3; f_id := [0x79; 0x03]; f_ecc := 0xff;
     f_status := [0x10; 0x00];
     f_wret := fun _ => 1;
     f_rret := fun wr => if bytes_eqb wr [FT_FW_READ_REG; 0; 2; 0]
                         then -1 else 2 |}.

(** The chip id [main] works with: the one forced on the command line, or
    the byte read from register 0xA3 in transport state [d], if that read
    succeeded. *)
Definition detected_id {T : transport} (o : options) (d : tstate T)
  : option Z :=
  if o_chip_id o <? 0 then
    let x := xfer_read T d (u16 (o_addr o)) [ID_G_CIPHER] 1 in
    if fst (fst x) <? 0 then None
    else Some (nth 0 (received 1 (snd (fst x))) 0)
  else Some (o_chip_id o).

(** * Properties *)

Lemma ops_app (a b : list event) : ops (a ++ b) = ops a ++ ops b.
Proof. apply flat_map_app. Qed.

Lemma writes_app (a b : list event) : writes (a ++ b) = writes a ++ writes b.
Proof. unfold writes, op_writes. now rewrite ops_app, flat_map_app. Qed.

Lemma dumped_app (a b : list event) : dumped (a ++ b) = dumped a ++ dumped b.
Proof. unfold dumped, op_dumped. now rewrite ops_app, flat_map_app. Qed.

Lemma count_write_app (buf : list Z) (a b : list event) :
  count_write buf (a ++ b) = (count_write buf a + count_write buf b)%nat.
Proof.
  unfold count_write, op_count, op_writes.
  now rewrite ops_app, flat_map_app, filter_app, length_app.
Qed.

Lemma no_match_app info (a b : list event) :
  no_match info a -> no_match info b -> no_match info (a ++ b).
Proof. unfold no_match. intros Ha Hb. now rewrite existsb_app, Ha, Hb. Qed.

Lemma no_match_write_trace info wr r : no_match info (write_trace wr r).
Proof. unfold no_match, write_trace. now destruct (r <? 0). Qed.

Lemma no_match_read_trace info wr n r buf :
  bytes_eqb wr [FT_READ_ID_REG; 0; 0; 0]
  && bytes_eqb (firstn (Z.to_nat n) buf) [upgrade_id_1 info; upgrade_id_2 info]
  = false ->
  no_match info (read_trace wr n r buf).
Proof.
  unfold no_match, read_trace. intros Hne.
  destruct (r <? 0); simpl; now rewrite Hne.
Qed.

Lemma bytes_eqb_eq (a b : list Z) : bytes_eqb a b = true <-> a = b.
Proof. unfold bytes_eqb. destruct (list_eq_dec Z.eq_dec a b); intuition congruence. Qed.

Lemma get_info_cases (id : Z) (info : ft5x06_fw_update_info) :
  ft5x06_get_info id = Some info ->
  (id = FT5x06_ID \/ id = FT5x16_ID \/ id = FT5x26_ID) /\
  chip_id info = id /\ In info ft5x06_fwu_info.
Proof.
  unfold ft5x06_get_info. intros Hf.
  apply find_some in Hf. destruct Hf as [Hin Heq].
  apply Z.eqb_eq in Heq. subst id.
  repeat split; auto.
  simpl in Hin. intuition (subst; simpl; auto).
Qed.

Lemma info_ids_nonzero (info : ft5x06_fw_update_info) :
  In info ft5x06_fwu_info -> upgrade_id_1 info <> 0.
Proof.
  simpl. intuition (subst; simpl; discriminate).
Qed.

Lemma received_length (n : Z) (data : list Z) :
  List.length (received n data) = Z.to_nat n.
Proof.
  unfold received. rewrite length_firstn, length_app, repeat_length. lia.
Qed.

Section RunLemmas.

Context {T : transport}.

Lemma runs_ret {A} (a : A) (w : world T) : runs (ret a) w a [] w.
Proof. split; [reflexivity | now rewrite app_nil_r]. Qed.

Lemma runs_bind {A B} (c : M T A) (k : A -> M T B) w a t1 w1 b t2 w2 :
  runs c w a t1 w1 -> runs (k a) w1 b t2 w2 ->
  runs (bind c k) w b (t1 ++ t2) w2.
Proof.
  intros [Hc Ht1] [Hk Ht2]. split.
  - unfold bind. now rewrite Hc.
  - now rewrite Ht2, Ht1, app_assoc.
Qed.

Lemma runs_emit (e : event) (w : world T) :
  runs (emit e) w tt [e] (mkWorld (dev w) (trace w ++ [e])).
Proof. split; reflexivity. Qed.

Lemma runs_trace_eq {A} (c : M T A) w a tr tr' w' :
  runs c w a tr w' -> tr = tr' -> runs c w a tr' w'.
Proof. now intros Hr <-. Qed.

Lemma runs_fun {A} (c : M T A) w a tr w' a' w'' :
  runs c w a tr w' -> c w = Some (a', w'') -> a' = a /\ w'' = w'.
Proof. intros [Hc _] Hc'. rewrite Hc in Hc'. now inversion Hc'. Qed.

Lemma runs_i2c_write (addr : Z) (buf : list Z) (len : Z) (w : world T) :
  exists r w',
    runs (ft5x06_i2c_write addr buf len) w r
         (write_trace (firstn (Z.to_nat len) buf) r) w'.
Proof.
  unfold ft5x06_i2c_write, runs, write_trace.
  destruct (xfer_write T (dev w) (u16 addr) (firstn (Z.to_nat len) buf)) as [r d'].
  exists r. destruct (r <? 0); eexists; split; try reflexivity.
  simpl. now rewrite <- app_assoc.
Qed.

Lemma runs_i2c_read (addr : Z) (wrbuf : list Z) (wrlen : Z) (rdbuf : list Z)
      (rdlen : Z) (w : world T) :
  let wr := if 0 <? wrlen then firstn (Z.to_nat wrlen) wrbuf else [] in
  let x := xfer_read T (dev w) (u16 addr) wr rdlen in
  let r := fst (fst x) in
  let buf := if r <? 0 then rdbuf else fill rdbuf rdlen (snd (fst x)) in
  exists w',
    runs (ft5x06_i2c_read addr wrbuf wrlen rdbuf rdlen) w (r, buf)
         (read_trace wr rdlen r buf) w'.
Proof.
  unfold ft5x06_i2c_read, runs, read_trace. cbv zeta.
  destruct (xfer_read T (dev w) (u16 addr)
              (if 0 <? wrlen then firstn (Z.to_nat wrlen) wrbuf else []) rdlen)
    as [[r data] d'].
  simpl fst; simpl snd.
  destruct (r <? 0); eexists; split; try reflexivity.
  simpl. now rewrite <- app_assoc.
Qed.

(** Two runs of one computation from one world are the same run. *)
Lemma runs_same {A} (c : M T A) w a tr w' a' tr' w'' :
  runs c w a tr w' -> runs c w a' tr' w'' -> a' = a /\ tr' = tr /\ w'' = w'.
Proof.
  intros [Hc Ht] [Hc' Ht']. rewrite Hc in Hc'. inversion Hc'; subst.
  repeat split. rewrite Ht in Ht'. now apply app_inv_head in Ht'.
Qed.

(** A write, by what the transport answers. *)
Lemma runs_i2c_write_io (addr : Z) (buf : list Z) (len : Z) (w : world T) :
  let wr := firstn (Z.to_nat len) buf in
  let r := fst (xfer_write T (dev w) (u16 addr) wr) in
  exists w', runs (ft5x06_i2c_write addr buf len) w r (write_trace wr r) w'.
Proof.
  unfold ft5x06_i2c_write, runs, write_trace. cbv zeta.
  destruct (xfer_write T (dev w) (u16 addr) (firstn (Z.to_nat len) buf))
    as [r d'].
  simpl fst. destruct (r <? 0); eexists; split; try reflexivity.
  simpl. now rewrite <- app_assoc.
Qed.

Lemma ops_write_trace wr r : ops (write_trace wr r) = [OpWrite wr].
Proof. unfold write_trace. now destruct (r <? 0). Qed.

Lemma ops_read_trace wr n r buf : ops (read_trace wr n r buf) = [OpRead wr n].
Proof. unfold read_trace. now destruct (r <? 0). Qed.

End RunLemmas.

(** ** Bootloader entry *)

Section Bootloader.

Context {T : transport}.
Variables (addr id : Z) (info : ft5x06_fw_update_info).
Hypothesis Hinfo : ft5x06_get_info id = Some info.

Lemma runs_write_reg (regnum value : Z) (w : world T) :
  exists r w',
    runs (ft5x06_write_reg addr regnum value) w tt
         (write_trace [regnum; value] r) w'.
Proof.
  destruct (runs_i2c_write addr [regnum; value] 2 w) as (r & w' & Hw).
  exists r, w'. unfold ft5x06_write_reg.
  rewrite <- (app_nil_r (write_trace _ _)).
  eapply runs_bind; [exact Hw | apply runs_ret].
Qed.

Lemma runs_reset_ctpm (w : world T) :
  exists w' tr,
    runs (ft5x06_reset_ctpm addr id) w tt tr w' /\
    ops tr = [OpWrite [FT_RST_CMD_REG1; FT_UPGRADE_AA]; OpSleep (delay_aa info);
              OpWrite [FT_RST_CMD_REG1; FT_UPGRADE_55]; OpSleep (delay_55 info)] /\
    no_match info tr.
Proof.
  unfold ft5x06_reset_ctpm. rewrite Hinfo.
  destruct (runs_write_reg FT_RST_CMD_REG1 FT_UPGRADE_AA w) as (r1 & w1 & H1).
  pose proof (runs_emit (Msleep (delay_aa info)) w1) as H2.
  destruct (runs_write_reg FT_RST_CMD_REG1 FT_UPGRADE_55
              (mkWorld (dev w1) (trace w1 ++ [Msleep (delay_aa info)])))
    as (r3 & w3 & H3).
  pose proof (runs_emit (Msleep (delay_55 info)) w3) as H4.
  eexists _, _. split; [| split].
  - eapply runs_bind; [exact H1 |].
    eapply runs_bind; [exact H2 |].
    eapply runs_bind; [exact H3 | exact H4].
  - rewrite !ops_app, !ops_write_trace. reflexivity.
  - repeat apply no_match_app; try apply no_match_write_trace; reflexivity.
Qed.

Lemma runs_hid_to_i2c (w : world T) :
  exists w' tr,
    runs (ft5x26_hid_to_i2c addr) w tt tr w' /\
    ops tr = [OpWrite [0xeb; 0xaa; 0x09]; OpRead [] 3; OpSleep 10] /\
    no_match info tr.
Proof.
  unfold ft5x26_hid_to_i2c.
  destruct (runs_i2c_write addr [0xeb; 0xaa; 0x09] 3 w) as (r1 & w1 & H1).
  destruct (runs_i2c_read addr [0; 0; 0] 0 [0; 0; 0] 3 w1) as (w2 & H2).
  pose proof (runs_emit (Msleep 10) w2) as H3.
  eexists _, _. split; [| split].
  - eapply runs_bind; [exact H1 |].
    eapply runs_bind; [exact H2 | exact H3].
  - rewrite !ops_app, ops_write_trace, ops_read_trace. reflexivity.
  - repeat apply no_match_app;
      [apply no_match_write_trace | now apply no_match_read_trace | reflexivity].
Qed.

(** The ID pair [ft5x06_read_id] finds in [reg_val] after its transaction. *)
Lemma read_id_buffer (r : Z) (data : list Z) :
  let buf := if r <? 0 then [0; 0] else fill [0; 0] 2 data in
  firstn (Z.to_nat 2) buf = buf /\ List.length buf = 2%nat.
Proof.
  cbv zeta. destruct (r <? 0); [split; reflexivity |].
  unfold fill. simpl skipn. rewrite app_nil_r.
  pose proof (received_length 2 data) as Hl.
  split; [| exact Hl].
  apply firstn_all2. rewrite Hl. reflexivity.
Qed.

Lemma runs_read_id (w : world T) :
  exists r w' tr,
    runs (ft5x06_read_id addr id) w r tr w' /\
    ops tr = [OpSleep (delay_readid info); OpRead [FT_READ_ID_REG; 0; 0; 0] 2] /\
    ((r = 0 /\ exists io,
         tr = [Msleep (delay_readid info);
               I2cRead [FT_READ_ID_REG; 0; 0; 0] 2 io
                       [upgrade_id_1 info; upgrade_id_2 info]])
     \/ (r = -1 /\ no_match info tr)).
Proof.
  unfold ft5x06_read_id. rewrite Hinfo.
  pose proof (runs_emit (Msleep (delay_readid info)) w) as H1.
  set (w1 := mkWorld (dev w) (trace w ++ [Msleep (delay_readid info)])) in *.
  destruct (runs_i2c_read addr [FT_READ_ID_REG; 0; 0; 0] 4 [0; 0] 2 w1)
    as (w2 & H2).
  cbv zeta in H2. simpl (if 0 <? 4 then _ else _) in H2.
  set (x := xfer_read T (dev w1) (u16 addr) [FT_READ_ID_REG; 0; 0; 0] 2) in *.
  set (io := fst (fst x)) in *.
  set (buf := if io <? 0 then [0; 0] else fill [0; 0] 2 (snd (fst x))) in *.
  destruct (read_id_buffer io (snd (fst x))) as [Hfirst Hlen].
  fold buf in Hfirst, Hlen.
  destruct buf as [| b0 [| b1 [| ? ?]]] eqn:Hbuf; try discriminate Hlen.
  destruct (negb (b0 =? upgrade_id_1 info) || negb (b1 =? upgrade_id_2 info))
    eqn:Hcmp.
  - (* mismatch *)
    pose proof (runs_emit (Err (M_read_id_not_ok b0 b1)) w2) as H3.
    eexists _, _, _. split; [| split].
    + eapply runs_bind; [exact H1 |].
      eapply runs_bind; [exact H2 |].
      simpl snd. simpl nth. rewrite Hcmp.
      eapply runs_bind; [exact H3 | apply runs_ret].
    + rewrite !ops_app, ops_read_trace. reflexivity.
    + right. split; [reflexivity |].
      repeat apply no_match_app; try reflexivity.
      apply no_match_read_trace. rewrite Hfirst.
      apply andb_false_iff. right.
      destruct (bytes_eqb [b0; b1] _) eqn:He; [| reflexivity].
      apply bytes_eqb_eq in He. injection He as -> ->.
      now rewrite !Z.eqb_refl in Hcmp.
  - (* match *)
    apply orb_false_iff in Hcmp. destruct Hcmp as [Hc0 Hc1].
    apply negb_false_iff, Z.eqb_eq in Hc0, Hc1. subst b0 b1.
    assert (Hio : (io <? 0) = false).
    { destruct (io <? 0) eqn:Hneg; [| reflexivity].
      subst buf. injection Hbuf as Hz _. symmetry in Hz.
      destruct (get_info_cases _ _ Hinfo) as (_ & _ & Hin).
      now apply info_ids_nonzero in Hin. }
    eexists _, _, _. split; [| split].
    + eapply runs_bind; [exact H1 |].
      eapply runs_bind; [exact H2 |].
      simpl snd. simpl nth. rewrite !Z.eqb_refl. simpl. apply runs_ret.
    + rewrite !ops_app, ops_read_trace. reflexivity.
    + left. split; [reflexivity |]. exists io.
      unfold read_trace. rewrite Hio, Hfirst. reflexivity.
Qed.

Lemma runs_init_upgrade_iter (w : world T) :
  exists brk w' tr checked,
    runs (init_upgrade_iter addr id) w brk tr w' /\
    ops tr = iter_ops info id checked /\
    if brk
    then exists pre io,
        tr = pre ++ [I2cRead [FT_READ_ID_REG; 0; 0; 0] 2 io
                             [upgrade_id_1 info; upgrade_id_2 info]]
        /\ no_match info pre
    else no_match info tr.
Proof.
  unfold init_upgrade_iter.
  pose proof (runs_emit (Log M_reset_ctpm) w) as H1.
  set (w1 := mkWorld (dev w) (trace w ++ [Log M_reset_ctpm])) in *.
  destruct (runs_reset_ctpm w1) as (w2 & t2 & H2 & Ho2 & Hn2).
  pose proof (runs_emit (Log M_enter_upgrade_mode) w2) as H3.
  set (w3 := mkWorld (dev w2) (trace w2 ++ [Log M_enter_upgrade_mode])) in *.
  assert (H4 : exists w4 t4,
             runs (if id =? FT5x26_ID then ft5x26_hid_to_i2c addr else ret tt)
                  w3 tt t4 w4 /\
             ops t4 = (if id =? FT5x26_ID
                       then [OpWrite [0xeb; 0xaa; 0x09]; OpRead [] 3; OpSleep 10]
                       else []) /\
             no_match info t4).
  { destruct (id =? FT5x26_ID).
    - apply runs_hid_to_i2c.
    - exists w3, []. repeat split. now rewrite app_nil_r. }
  destruct H4 as (w4 & t4 & H4 & Ho4 & Hn4).
  destruct (runs_i2c_write addr [FT_UPGRADE_55; FT_UPGRADE_AA; 0; 0] 2 w4)
    as (r & w5 & H5).
  simpl firstn in H5.
  destruct (r <? 0) eqn:Hr.
  - (* continue *)
    pose proof (runs_emit (Err (M_enter_upgrade_failed r)) w5) as H6.
    exists false. eexists _, _, false. split; [| split].
    + eapply runs_bind; [exact H1 |]. eapply runs_bind; [exact H2 |].
      eapply runs_bind; [exact H3 |]. eapply runs_bind; [exact H4 |].
      eapply runs_bind; [exact H5 |]. rewrite Hr.
      eapply runs_bind; [exact H6 | apply runs_ret].
    + rewrite !ops_app, Ho2, Ho4, ops_write_trace. unfold iter_ops.
      destruct (id =? FT5x26_ID); reflexivity.
    + repeat apply no_match_app; try assumption; try reflexivity.
      apply no_match_write_trace.
  - pose proof (runs_emit (Log M_check_read_id) w5) as H6.
    set (w6 := mkWorld (dev w5) (trace w5 ++ [Log M_check_read_id])) in *.
    destruct (runs_read_id w6) as (rid & w7 & t7 & H7 & Ho7 & Hm7).
    exists (rid =? 0). eexists _, _, true. split; [| split].
    + eapply runs_bind; [exact H1 |]. eapply runs_bind; [exact H2 |].
      eapply runs_bind; [exact H3 |]. eapply runs_bind; [exact H4 |].
      eapply runs_bind; [exact H5 |]. rewrite Hr.
      eapply runs_bind; [exact H6 |].
      eapply runs_bind; [exact H7 | apply runs_ret].
    + rewrite !ops_app, Ho2, Ho4, Ho7, ops_write_trace. unfold iter_ops.
      destruct (id =? FT5x26_ID); reflexivity.
    + destruct Hm7 as [(-> & io & ->) | (-> & Hn7)]; simpl (_ =? _).
      * eexists _, io. split.
        -- rewrite app_nil_r.
           change [Msleep (delay_readid info);
                   I2cRead [FT_READ_ID_REG; 0; 0; 0] 2 io
                           [upgrade_id_1 info; upgrade_id_2 info]]
             with ([Msleep (delay_readid info)] ++
                   [I2cRead [FT_READ_ID_REG; 0; 0; 0] 2 io
                            [upgrade_id_1 info; upgrade_id_2 info]]).
           rewrite !app_assoc. reflexivity.
        -- repeat apply no_match_app; try assumption; try reflexivity.
           apply no_match_write_trace.
      * repeat apply no_match_app; try assumption; try reflexivity.
        apply no_match_write_trace.
Qed.

Lemma id_reads_app (a b : list event) :
  id_reads (a ++ b) = (id_reads a + id_reads b)%nat.
Proof. unfold id_reads. now rewrite ops_app, filter_app, length_app. Qed.

Lemma accepted_enters_app (a b : list event) :
  accepted_enters (a ++ b) = (accepted_enters a + accepted_enters b)%nat.
Proof. unfold accepted_enters. now rewrite filter_app, length_app. Qed.

(** Accepted entry writes are entry writes. *)
Lemma accepted_enters_le (tr : list event) :
  (accepted_enters tr <= count_write [FT_UPGRADE_55; FT_UPGRADE_AA] tr)%nat.
Proof.
  induction tr as [| e tr IH]; [apply Nat.le_refl |].
  change (e :: tr) with ([e] ++ tr).
  rewrite accepted_enters_app, count_write_app.
  apply Nat.add_le_mono; [| exact IH].
  destruct e; try (apply Nat.le_0_l).
  unfold accepted_enters, count_write, op_count.
  cbn [filter enter_ok ops flat_map op_of app op_writes].
  destruct (bytes_eqb [FT_UPGRADE_55; FT_UPGRADE_AA] buf); [| apply Nat.le_0_l].
  cbn [andb]. destruct (0 <=? r); cbn [List.length]; lia.
Qed.

Lemma accepted_enters_none (tr : list event) :
  count_write [FT_UPGRADE_55; FT_UPGRADE_AA] tr = 0%nat ->
  accepted_enters tr = 0%nat.
Proof. intros Hc. pose proof (accepted_enters_le tr). lia. Qed.

Lemma accepted_enters_write_trace (r : Z) :
  accepted_enters (write_trace [FT_UPGRADE_55; FT_UPGRADE_AA] r)
  = if r <? 0 then 0%nat else 1%nat.
Proof.
  unfold write_trace, accepted_enters.
  destruct (r <? 0) eqn:Hr; cbn [filter enter_ok].
  - assert (Hle : (0 <=? r) = false)
      by (apply Z.leb_gt; now apply Z.ltb_lt).
    now rewrite Hle, andb_false_r.
  - assert (Hle : (0 <=? r) = true)
      by (apply Z.leb_le; now apply Z.ltb_ge).
    rewrite Hle. reflexivity.
Qed.

(** [ft5x06_read_id], by what the transport answers. *)
Lemma runs_read_id_io (w : world T) :
  let x := xfer_read T (dev w) (u16 addr) [FT_READ_ID_REG; 0; 0; 0] 2 in
  exists w' tr,
    runs (ft5x06_read_id addr id) w
         (if id_answer info (fst x) then 0 else -1) tr w' /\
    ops tr = [OpSleep (delay_readid info); OpRead [FT_READ_ID_REG; 0; 0; 0] 2].
Proof.
  cbv zeta. unfold ft5x06_read_id. rewrite Hinfo.
  pose proof (runs_emit (Msleep (delay_readid info)) w) as H1.
  set (w1 := mkWorld (dev w) (trace w ++ [Msleep (delay_readid info)])) in *.
  destruct (runs_i2c_read addr [FT_READ_ID_REG; 0; 0; 0] 4 [0; 0] 2 w1)
    as (w2 & H2).
  cbv zeta in H2. simpl (if 0 <? 4 then _ else _) in H2.
  change (dev w1) with (dev w) in H2.
  set (x := xfer_read T (dev w) (u16 addr) [FT_READ_ID_REG; 0; 0; 0] 2) in *.
  set (io := fst (fst x)) in *.
  set (buf := if io <? 0 then [0; 0] else fill [0; 0] 2 (snd (fst x))) in *.
  assert (Hcmp : negb (nth 0 buf 0 =? upgrade_id_1 info)
                 || negb (nth 1 buf 0 =? upgrade_id_2 info)
                 = negb (id_answer info (fst x))).
  { unfold id_answer. fold io. unfold buf. destruct (io <? 0) eqn:Hio.
    - cbn [nth negb andb]. destruct (get_info_cases _ _ Hinfo) as (_ & _ & Hin).
      apply info_ids_nonzero in Hin.
      destruct (Z.eqb_spec 0 (upgrade_id_1 info)) as [E | _];
        [now elim Hin | reflexivity].
    - unfold fill. simpl skipn. rewrite app_nil_r.
      pose proof (received_length 2 (snd (fst x))) as Hl.
      destruct (received 2 (snd (fst x))) as [| b0 [| b1 [| ? ?]]];
        try discriminate Hl.
      simpl nth. simpl negb at 3.
      destruct (bytes_eqb [b0; b1] [upgrade_id_1 info; upgrade_id_2 info])
        eqn:E.
      + apply bytes_eqb_eq in E. injection E as -> ->.
        now rewrite !Z.eqb_refl.
      + destruct (Z.eqb_spec b0 (upgrade_id_1 info)) as [-> |];
          [| reflexivity].
        destruct (Z.eqb_spec b1 (upgrade_id_2 info)) as [-> |];
          [| reflexivity].
        assert (Habs : bytes_eqb [upgrade_id_1 info; upgrade_id_2 info]
                                 [upgrade_id_1 info; upgrade_id_2 info] = true)
          by now apply bytes_eqb_eq.
        rewrite Habs in E. discriminate E. }
  destruct (id_answer info (fst x)) eqn:Hans; simpl negb in Hcmp.
  - eexists _, _. split.
    + eapply runs_bind; [exact H1 |].
      eapply runs_bind; [exact H2 |].
      simpl snd. fold buf. rewrite Hcmp. apply runs_ret.
    + rewrite !ops_app, ops_read_trace. reflexivity.
  - eexists _, _. split.
    + eapply runs_bind; [exact H1 |].
      eapply runs_bind; [exact H2 |].
      simpl snd. fold buf. rewrite Hcmp.
      eapply runs_bind; [apply runs_emit | apply runs_ret].
    + rewrite !ops_app, ops_read_trace. reflexivity.
Qed.

(** One attempt, by what the transport answers: the read-ID is made
    exactly when the [{0x55, 0xAA}] write was accepted, and the attempt ends
    the loop exactly when that read delivered the variant's pair. *)
Lemma runs_init_upgrade_iter_io (w : world T) :
  exists brk w' tr d5 d7,
    let r := fst (xfer_write T d5 (u16 addr) [FT_UPGRADE_55; FT_UPGRADE_AA]) in
    let x := xfer_read T d7 (u16 addr) [FT_READ_ID_REG; 0; 0; 0] 2 in
    runs (init_upgrade_iter addr id) w brk tr w' /\
    ops tr = iter_ops info id (negb (r <? 0)) /\
    brk = negb (r <? 0) && id_answer info (fst x) /\
    accepted_enters tr = (if r <? 0 then 0%nat else 1%nat).
Proof.
  unfold init_upgrade_iter.
  pose proof (runs_emit (Log M_reset_ctpm) w) as H1.
  set (w1 := mkWorld (dev w) (trace w ++ [Log M_reset_ctpm])) in *.
  destruct (runs_reset_ctpm w1) as (w2 & t2 & H2 & Ho2 & _).
  pose proof (runs_emit (Log M_enter_upgrade_mode) w2) as H3.
  set (w3 := mkWorld (dev w2) (trace w2 ++ [Log M_enter_upgrade_mode])) in *.
  assert (H4 : exists w4 t4,
             runs (if id =? FT5x26_ID then ft5x26_hid_to_i2c addr else ret tt)
                  w3 tt t4 w4 /\
             ops t4 = (if id =? FT5x26_ID
                       then [OpWrite [0xeb; 0xaa; 0x09]; OpRead [] 3; OpSleep 10]
                       else [])).
  { destruct (id =? FT5x26_ID).
    - destruct (runs_hid_to_i2c w3) as (w4 & t4 & H4 & Ho4 & _).
      now exists w4, t4.
    - exists w3, []. split; [apply runs_ret | reflexivity]. }
  destruct H4 as (w4 & t4 & H4 & Ho4).
  destruct (runs_i2c_write_io addr [FT_UPGRADE_55; FT_UPGRADE_AA; 0; 0] 2 w4)
    as (w5 & H5).
  simpl firstn in H5.
  set (r := fst (xfer_write T (dev w4) (u16 addr)
                   [FT_UPGRADE_55; FT_UPGRADE_AA])) in *.
  assert (Ha2 : accepted_enters t2 = 0%nat)
    by (apply accepted_enters_none; unfold count_write; now rewrite Ho2).
  assert (Ha4 : accepted_enters t4 = 0%nat).
  { apply accepted_enters_none. unfold count_write. rewrite Ho4.
    now destruct (id =? FT5x26_ID). }
  destruct (r <? 0) eqn:Hr.
  - exists false. eexists _, _, (dev w4), (dev w4). cbv zeta. fold r.
    rewrite Hr. split; [| split; [| split; [reflexivity |]]].
    + eapply runs_bind; [exact H1 |]. eapply runs_bind; [exact H2 |].
      eapply runs_bind; [exact H3 |]. eapply runs_bind; [exact H4 |].
      eapply runs_bind; [exact H5 |]. rewrite Hr.
      eapply runs_bind; [apply runs_emit | apply runs_ret].
    + rewrite !ops_app, Ho2, Ho4, ops_write_trace. unfold iter_ops.
      destruct (id =? FT5x26_ID); reflexivity.
    + rewrite !accepted_enters_app, Ha2, Ha4, accepted_enters_write_trace, Hr.
      reflexivity.
  - pose proof (runs_emit (Log M_check_read_id) w5) as H6.
    set (w6 := mkWorld (dev w5) (trace w5 ++ [Log M_check_read_id])) in *.
    destruct (runs_read_id_io w6) as (w7 & t7 & H7 & Ho7).
    set (x := xfer_read T (dev w6) (u16 addr) [FT_READ_ID_REG; 0; 0; 0] 2) in *.
    exists (id_answer info (fst x)). eexists w7, _, (dev w4), (dev w6).
    cbv zeta. fold r. fold x. rewrite Hr.
    split; [| split; [| split; [reflexivity |]]].
    + eapply runs_bind; [exact H1 |]. eapply runs_bind; [exact H2 |].
      eapply runs_bind; [exact H3 |]. eapply runs_bind; [exact H4 |].
      eapply runs_bind; [exact H5 |]. rewrite Hr.
      eapply runs_bind; [exact H6 |].
      eapply runs_bind; [exact H7 |].
      destruct (id_answer info (fst x)); apply runs_ret.
    + rewrite !ops_app, Ho2, Ho4, Ho7, ops_write_trace. unfold iter_ops.
      destruct (id =? FT5x26_ID); reflexivity.
    + assert (Ha7 : accepted_enters t7 = 0%nat)
        by (apply accepted_enters_none; unfold count_write; now rewrite Ho7).
      rewrite !accepted_enters_app, Ha2, Ha4, accepted_enters_write_trace, Hr,
        Ha7.
      reflexivity.
Qed.

(** In every attempt the ID is read exactly when the entry write was
    accepted. *)
Lemma iter_reads_id (w : world T) (brk : bool) (w' : world T) :
  init_upgrade_iter addr id w = Some (brk, w') ->
  exists tr, trace w' = trace w ++ tr /\ id_reads tr = accepted_enters tr.
Proof.
  intros Hit.
  destruct (runs_init_upgrade_iter_io w)
    as (brk1 & w1 & tr & d5 & d7 & [Hc Ht] & Hops & _ & Hacc).
  cbv zeta in Hops, Hacc. rewrite Hc in Hit. inversion Hit; subst.
  exists tr. split; [exact Ht |].
  unfold id_reads. rewrite Hops, Hacc. unfold iter_ops.
  destruct (_ <? 0), (id =? FT5x26_ID); reflexivity.
Qed.

Lemma init_upgrade_loop_reads_id (fuel : nat) :
  forall (i : Z) (w : world T) (i' : Z) (w' : world T),
    init_upgrade_loop fuel addr id i w = Some (i', w') ->
    exists tr, trace w' = trace w ++ tr /\ id_reads tr = accepted_enters tr.
Proof.
  induction fuel as [| fuel IH]; intros i w i' w' Hrun; simpl in Hrun;
    destruct (i <? FT_UPGRADE_LOOP);
    try discriminate;
    try (inversion Hrun; subst; exists [];
         split; [now rewrite app_nil_r | reflexivity]).
  unfold bind at 1 in Hrun.
  destruct (init_upgrade_iter addr id w) as [[brk w1] |] eqn:Hit;
    [| discriminate].
  destruct (iter_reads_id _ _ _ Hit) as (t1 & Ht1 & Hr1).
  destruct brk.
  - inversion Hrun; subst. now exists t1.
  - destruct (IH _ _ _ _ Hrun) as (t2 & Ht2 & Hr2).
    exists (t1 ++ t2). split.
    + now rewrite Ht2, Ht1, app_assoc.
    + now rewrite id_reads_app, accepted_enters_app, Hr1, Hr2.
Qed.

Lemma init_upgrade_reads_id (w : world T) (r : Z) (tr : list event)
      (w' : world T) :
  runs (ft5x06_init_upgrade addr id) w r tr w' ->
  id_reads tr = accepted_enters tr.
Proof.
  intros [Hrun Htr]. unfold ft5x06_init_upgrade in Hrun.
  unfold bind at 1 in Hrun.
  destruct (init_upgrade_loop _ addr id 0 w) as [[i' w1] |] eqn:Hloop;
    [| discriminate].
  destruct (init_upgrade_loop_reads_id _ _ _ _ _ Hloop) as (t & Ht & Hr).
  assert (w1 = w') as ->
    by (destruct (i' >=? FT_UPGRADE_LOOP); now inversion Hrun).
  rewrite Htr in Ht. apply app_inv_head in Ht. now subst t.
Qed.

Lemma iter_ops_counts (checked : bool) :
  op_count [FT_RST_CMD_REG1; FT_UPGRADE_AA] (iter_ops info id checked) = 1%nat /\
  op_count [FT_UPGRADE_55; FT_UPGRADE_AA] (iter_ops info id checked) = 1%nat.
Proof.
  unfold iter_ops. destruct (id =? FT5x26_ID), checked; split; reflexivity.
Qed.

(** The loop from index [i]: it stops at the first attempt whose read-ID
    matches, and otherwise runs every remaining attempt. *)
Lemma runs_init_upgrade_loop (fuel : nat) :
  forall (i : Z) (w : world T),
    0 <= i <= FT_UPGRADE_LOOP ->
    FT_UPGRADE_LOOP - i <= Z.of_nat fuel ->
    exists i' w' tr,
      runs (init_upgrade_loop fuel addr id i) w i' tr w' /\
      ((i <= i' < FT_UPGRADE_LOOP /\
        Z.of_nat (count_write [FT_RST_CMD_REG1; FT_UPGRADE_AA] tr) = i' - i + 1 /\
        Z.of_nat (count_write [FT_UPGRADE_55; FT_UPGRADE_AA] tr) = i' - i + 1 /\
        exists pre io,
          tr = pre ++ [I2cRead [FT_READ_ID_REG; 0; 0; 0] 2 io
                               [upgrade_id_1 info; upgrade_id_2 info]]
          /\ no_match info pre)
       \/
       (i' = FT_UPGRADE_LOOP /\
        Z.of_nat (count_write [FT_RST_CMD_REG1; FT_UPGRADE_AA] tr)
        = FT_UPGRADE_LOOP - i /\
        Z.of_nat (count_write [FT_UPGRADE_55; FT_UPGRADE_AA] tr)
        = FT_UPGRADE_LOOP - i /\
        no_match info tr)).
Proof.
  induction fuel as [| fuel IH]; intros i w Hi Hfuel.
  - assert (i = FT_UPGRADE_LOOP) as -> by lia.
    exists FT_UPGRADE_LOOP, w, []. split; [apply runs_ret |].
    right. repeat split.
  - destruct (i <? FT_UPGRADE_LOOP) eqn:Hlt.
    + apply Z.ltb_lt in Hlt.
      destruct (runs_init_upgrade_iter w)
        as (brk & w1 & t1 & checked & H1 & Ho1 & Hb1).
      destruct (iter_ops_counts checked) as [Hc1 Hc2].
      assert (Hk1 : count_write [FT_RST_CMD_REG1; FT_UPGRADE_AA] t1 = 1%nat)
        by (unfold count_write; now rewrite Ho1).
      assert (Hk2 : count_write [FT_UPGRADE_55; FT_UPGRADE_AA] t1 = 1%nat)
        by (unfold count_write; now rewrite Ho1).
      destruct brk.
      * exists i, w1, t1. split.
        -- simpl. apply Z.ltb_lt in Hlt. rewrite Hlt.
           rewrite <- (app_nil_r t1).
           eapply runs_bind; [exact H1 | apply runs_ret].
        -- left. rewrite Hk1, Hk2. repeat split; try lia. exact Hb1.
      * destruct (IH (i + 1) w1) as (i' & w2 & t2 & H2 & Hcase); try lia.
        exists i', w2, (t1 ++ t2). split.
        -- simpl. apply Z.ltb_lt in Hlt. rewrite Hlt.
           eapply runs_bind; [exact H1 | exact H2].
        -- rewrite !count_write_app, Hk1, Hk2.
           destruct Hcase as [(Hr & Ha & Hb & pre & io & -> & Hn)
                             | (-> & Ha & Hb & Hn)].
           ++ left. repeat split; try lia.
              exists (t1 ++ pre), io. split; [now rewrite app_assoc |].
              now apply no_match_app.
           ++ right. repeat split; try lia. now apply no_match_app.
    + apply Z.ltb_ge in Hlt. assert (i = FT_UPGRADE_LOOP) as -> by lia.
      exists FT_UPGRADE_LOOP, w, []. split; [apply runs_ret |].
      right. repeat split.
Qed.

(** Against a transport that never answers with the variant's ID pair, no
    attempt breaks out of the loop. *)
Lemma read_id_never (w : world T) (r : Z) (w' : world T) :
  never_id T info ->
  ft5x06_read_id addr id w = Some (r, w') -> r = -1.
Proof.
  intros Hnever Hrun.
  destruct (runs_read_id w) as (r0 & w0 & tr & H0 & _ & Hcase).
  destruct (runs_fun _ _ _ _ _ _ _ H0 Hrun) as [-> ->].
  destruct Hcase as [(-> & io & ->) | (-> & _)]; [exfalso | reflexivity].
  (* a matching pair was read: the transport delivered it *)
  unfold ft5x06_read_id in Hrun. rewrite Hinfo in Hrun.
  unfold bind, msleep, emit, ft5x06_i2c_read in Hrun. simpl in Hrun.
  specialize (Hnever (dev w) (u16 addr)).
  destruct (xfer_read T (dev w) (u16 addr) [FT_READ_ID_REG; 0; 0; 0] 2)
    as [[r data] d'].
  destruct (get_info_cases _ _ Hinfo) as (_ & _ & Hin).
  apply info_ids_nonzero in Hin.
  destruct (r <? 0) eqn:Hr.
  - unfold bind, ERR, emit, ret in Hrun. simpl in Hrun.
    destruct (upgrade_id_1 info) eqn:E1; try contradiction; simpl in Hrun;
      unfold bind, ERR, emit, ret in Hrun; simpl in Hrun; discriminate.
  - apply Z.ltb_ge in Hr. destruct Hnever as [Hneg | Hne]; [lia |].
    unfold ret in Hrun. simpl in Hrun.
    pose proof (read_id_buffer 0 data) as Hb. simpl in Hb.
    destruct Hb as [_ Hlen].
    unfold fill in *. simpl skipn in *. rewrite app_nil_r in *.
    destruct (received 2 data) as [| b0 [| b1 [| ? ?]]]; try discriminate Hlen.
    simpl in Hrun.
    destruct (negb (b0 =? upgrade_id_1 info) || negb (b1 =? upgrade_id_2 info))
      eqn:Hcmp.
    + unfold bind, ERR, emit, ret in Hrun. simpl in Hrun. discriminate.
    + apply orb_false_iff in Hcmp. destruct Hcmp as [Hc0 Hc1].
      apply negb_false_iff, Z.eqb_eq in Hc0, Hc1. congruence.
Qed.

End Bootloader.

(** An attempt during which the transport refuses read-ID's pair, or
    refuses the [{0x55, 0xAA}] write, does not break out of the loop. *)
Lemma iter_never_id {T : transport} (addr id : Z)
      (info : ft5x06_fw_update_info) :
  ft5x06_get_info id = Some info ->
  never_id T info ->
  no_break (T := T) addr id.
Proof.
  intros Hinfo Hnever w brk w' Hit.
  destruct brk; [exfalso | reflexivity].
  unfold init_upgrade_iter in Hit.
  repeat (unfold bind at 1 in Hit;
          match type of Hit with
          | match ?c ?x with _ => _ end = _ =>
            destruct (c x) as [[? ?] |]; [| discriminate]
          end).
  destruct (_ <? 0).
  - unfold bind, ERR, emit, ret in Hit. simpl in Hit. discriminate.
  - unfold bind at 1 in Hit. simpl in Hit.
    unfold bind at 1 in Hit.
    destruct (ft5x06_read_id addr id _) as [[rid wid] |] eqn:Hrid;
      [| discriminate].
    apply (read_id_never addr id info Hinfo _ _ _ Hnever) in Hrid. subst rid.
    inversion Hit.
Qed.


Lemma init_upgrade_loop_no_break {T : transport} (addr id : Z) (fuel : nat) :
  no_break (T := T) addr id ->
  forall (i : Z) (w : world T) (i' : Z) (w' : world T),
    init_upgrade_loop fuel addr id i w = Some (i', w') ->
    FT_UPGRADE_LOOP <= i'.
Proof.
  intros Hnb.
  induction fuel as [| fuel IH]; intros i w i' w' Hrun; simpl in Hrun;
    destruct (i <? FT_UPGRADE_LOOP) eqn:Hlt;
    try (apply Z.ltb_ge in Hlt; inversion Hrun; subst; exact Hlt);
    try discriminate.
  unfold bind at 1 in Hrun.
  destruct (init_upgrade_iter addr id w) as [[brk w1] |] eqn:Hit;
    [| discriminate].
  apply Hnb in Hit. subst brk. now apply IH in Hrun.
Qed.

(** The whole of [ft5x06_init_upgrade]. *)
Lemma runs_init_upgrade (T : transport) (addr id : Z)
      (info : ft5x06_fw_update_info) (w : world T) :
  ft5x06_get_info id = Some info ->
  exists r w' tr n,
    runs (ft5x06_init_upgrade addr id) w r tr w' /\
    count_write [FT_RST_CMD_REG1; FT_UPGRADE_AA] tr = n /\
    count_write [FT_UPGRADE_55; FT_UPGRADE_AA] tr = n /\
    (1 <= n <= 30)%nat /\
    ((r = 0 /\
      exists pre io,
        tr = pre ++ [I2cRead [FT_READ_ID_REG; 0; 0; 0] 2 io
                             [upgrade_id_1 info; upgrade_id_2 info]]
        /\ no_match info pre)
     \/ (r = - EIO /\ n = 30%nat /\ no_match info tr)) /\
    (no_break (T := T) addr id -> r = - EIO /\ n = 30%nat).
Proof.
  intros Hinfo.
  destruct (runs_init_upgrade_loop addr id info Hinfo
              (Z.to_nat FT_UPGRADE_LOOP) 0 w)
    as (i' & w' & tr & Hloop & Hcase);
    [unfold FT_UPGRADE_LOOP; lia | unfold FT_UPGRADE_LOOP; lia |].
  assert (Hrun : runs (ft5x06_init_upgrade addr id) w
                      (if i' >=? FT_UPGRADE_LOOP then - EIO else 0) tr w').
  { unfold ft5x06_init_upgrade. rewrite <- (app_nil_r tr).
    eapply runs_bind; [exact Hloop |].
    destruct (i' >=? FT_UPGRADE_LOOP); apply runs_ret. }
  assert (Hnev : no_break (T := T) addr id -> FT_UPGRADE_LOOP <= i').
  { intros Hnb. destruct Hloop as [Hloop _].
    exact (init_upgrade_loop_no_break addr id _ Hnb _ _ _ _ Hloop). }
  unfold FT_UPGRADE_LOOP in *.
  destruct Hcase as [(Hr & Ha & Hb & Hlast) | (-> & Ha & Hb & Hn)].
  - assert (Hge : (i' >=? 30) = false)
      by (rewrite Z.geb_leb; apply Z.leb_gt; lia).
    rewrite Hge in Hrun.
    exists 0, w', tr, (Z.to_nat (i' + 1)).
    split; [exact Hrun |]. repeat (split; [lia |]).
    split; [left; split; [reflexivity | exact Hlast] |].
    intros Hnb. apply Hnev in Hnb. lia.
  - simpl in Hrun. exists (- EIO), w', tr, 30%nat.
    split; [exact Hrun |]. repeat (split; [lia |]).
    split; [right; repeat split; exact Hn |].
    intros _. split; reflexivity.
Qed.

(** ** The handshake on the bus *)

Lemma op_count_app (buf : list Z) (a b : list op) :
  op_count buf (a ++ b) = (op_count buf a + op_count buf b)%nat.
Proof.
  unfold op_count, op_writes. now rewrite flat_map_app, filter_app, length_app.
Qed.

Lemma op_count_attempts (info : ft5x06_fw_update_info) (id : Z)
      (flags : list bool) :
  op_count [FT_RST_CMD_REG1; FT_UPGRADE_AA] (flat_map (iter_ops info id) flags)
  = List.length flags.
Proof.
  induction flags as [| c flags IH]; [reflexivity |].
  cbn [flat_map]. rewrite op_count_app, IH.
  now rewrite (proj1 (iter_ops_counts id info c)).
Qed.

Lemma init_upgrade_loop_ops {T : transport} (addr id : Z)
      (info : ft5x06_fw_update_info) (fuel : nat) :
  ft5x06_get_info id = Some info ->
  forall (i : Z) (w : world T) (i' : Z) (w' : world T),
    init_upgrade_loop fuel addr id i w = Some (i', w') ->
    exists tr flags,
      trace w' = trace w ++ tr /\
      ops tr = flat_map (iter_ops info id) flags.
Proof.
  intros Hinfo.
  induction fuel as [| fuel IH]; intros i w i' w' Hrun; simpl in Hrun;
    destruct (i <? FT_UPGRADE_LOOP);
    try discriminate;
    try (inversion Hrun; subst; exists [], [];
         split; [now rewrite app_nil_r | reflexivity]).
  unfold bind at 1 in Hrun.
  destruct (runs_init_upgrade_iter addr id info Hinfo w)
    as (brk & w1 & t1 & checked & [H1 Ht1] & Ho1 & _).
  rewrite H1 in Hrun. destruct brk.
  - inversion Hrun; subst. exists t1, [checked]. split; [exact Ht1 |].
    simpl. now rewrite app_nil_r.
  - destruct (IH _ _ _ _ Hrun) as (t2 & flags & Ht2 & Ho2).
    exists (t1 ++ t2), (checked :: flags). split.
    + now rewrite Ht2, Ht1, app_assoc.
    + rewrite ops_app, Ho1, Ho2. reflexivity.
Qed.

Lemma file_writes_app (a b : list event) :
  file_writes (a ++ b) = file_writes a ++ file_writes b.
Proof. apply flat_map_app. Qed.

(** The operations of a whole bootloader entry: one to thirty attempts. *)
Lemma init_upgrade_ops {T : transport} (addr id : Z)
      (info : ft5x06_fw_update_info) (w : world T) (r : Z) (tr : list event)
      (w' : world T) :
  ft5x06_get_info id = Some info ->
  runs (ft5x06_init_upgrade addr id) w r tr w' ->
  exists flags,
    ops tr = flat_map (iter_ops info id) flags /\
    (1 <= List.length flags <= 30)%nat.
Proof.
  intros Hinfo Hrun.
  destruct (runs_init_upgrade T addr id info w Hinfo)
    as (r1 & w1 & t1 & n & Hrun1 & Ha & _ & Hn & _).
  destruct (runs_same _ _ _ _ _ _ _ _ Hrun Hrun1) as (-> & -> & ->).
  destruct Hrun as [Hc Htr]. unfold ft5x06_init_upgrade in Hc.
  unfold bind at 1 in Hc.
  destruct (init_upgrade_loop _ addr id 0 w) as [[i' w2] |] eqn:Hl;
    [| discriminate].
  destruct (init_upgrade_loop_ops addr id info _ Hinfo _ _ _ _ Hl)
    as (tr' & flags & Ht & Ho).
  assert (w2 = w') as ->
    by (destruct (i' >=? FT_UPGRADE_LOOP); now inversion Hc).
  rewrite Htr in Ht. apply app_inv_head in Ht. subst tr'.
  exists flags. split; [exact Ho |].
  unfold count_write in Ha. rewrite Ho, op_count_attempts in Ha. lia.
Qed.

(** What is written to the file, read off the operations. *)
Lemma file_writes_ops (tr : list event) :
  file_writes tr
  = flat_map (fun o => match o with OpFile bs => [bs] | _ => [] end) (ops tr).
Proof.
  induction tr as [| e tr IH]; [reflexivity |].
  change (e :: tr) with ([e] ++ tr).
  rewrite file_writes_app, ops_app, flat_map_app, IH. f_equal.
  destruct e; reflexivity.
Qed.

(** Bootloader entry writes nothing to the file. *)
Lemma init_upgrade_no_file {T : transport} (addr id : Z)
      (info : ft5x06_fw_update_info) (w : world T) (r : Z) (tr : list event)
      (w' : world T) :
  ft5x06_get_info id = Some info ->
  runs (ft5x06_init_upgrade addr id) w r tr w' ->
  file_writes tr = [].
Proof.
  intros Hinfo Hrun.
  destruct (init_upgrade_ops addr id info w r tr w' Hinfo Hrun)
    as (flags & Ho & _).
  rewrite file_writes_ops, Ho. clear Ho.
  induction flags as [| c flags IH]; [reflexivity |].
  cbn [flat_map]. rewrite flat_map_app, IH, app_nil_r.
  unfold iter_ops. destruct (id =? FT5x26_ID), c; reflexivity.
Qed.

(** The first thing bootloader entry puts on the bus is the reset write. *)
Lemma init_upgrade_first_op {T : transport} (addr id : Z)
      (info : ft5x06_fw_update_info) (w : world T) (r : Z) (tr : list event)
      (w' : world T) :
  ft5x06_get_info id = Some info ->
  runs (ft5x06_init_upgrade addr id) w r tr w' ->
  exists rest, ops tr = OpWrite [FT_RST_CMD_REG1; FT_UPGRADE_AA] :: rest.
Proof.
  intros Hinfo Hrun.
  destruct (init_upgrade_ops addr id info w r tr w' Hinfo Hrun)
    as (flags & Ho & Hn).
  destruct flags as [| c flags]; [simpl in Hn; lia |].
  rewrite Ho. cbn [flat_map]. unfold iter_ops. cbn [app]. eauto.
Qed.

(** ** Bootloader entry against chips described by their answers *)

Section EntryByTransport.

Context {T : transport}.
Variables (addr id : Z) (info : ft5x06_fw_update_info).
Hypothesis Hinfo : ft5x06_get_info id = Some info.

Lemma id_answer_always (d : tstate T) (a : Z) :
  always_id T info ->
  id_answer info (fst (xfer_read T d a [FT_READ_ID_REG; 0; 0; 0] 2)) = true.
Proof.
  intros Hid. specialize (Hid d a).
  destruct (xfer_read T d a [FT_READ_ID_REG; 0; 0; 0] 2) as [[io data] d'].
  destruct Hid as [Hio Hdata]. unfold id_answer. simpl fst. simpl snd.
  rewrite Hdata. apply andb_true_iff. split.
  - apply negb_true_iff, Z.ltb_ge. exact Hio.
  - now apply bytes_eqb_eq.
Qed.

Lemma id_answer_never (d : tstate T) (a : Z) :
  never_id T info ->
  id_answer info (fst (xfer_read T d a [FT_READ_ID_REG; 0; 0; 0] 2)) = false.
Proof.
  intros Hn. specialize (Hn d a).
  destruct (xfer_read T d a [FT_READ_ID_REG; 0; 0; 0] 2) as [[io data] d'].
  unfold id_answer. simpl fst. simpl snd. apply andb_false_iff.
  destruct Hn as [Hneg | Hne].
  - left. apply negb_false_iff, Z.ltb_lt. exact Hneg.
  - right. destruct (bytes_eqb _ _) eqn:E; [| reflexivity].
    apply bytes_eqb_eq in E. contradiction.
Qed.

(** A chip that accepts the entry write and answers read-ID with its pair
    is in its bootloader after one attempt. *)
Lemma init_upgrade_at_once (w : world T) :
  enter_accepted T -> always_id T info ->
  exists w' tr,
    runs (ft5x06_init_upgrade addr id) w 0 tr w' /\
    ops tr = iter_ops info id true.
Proof.
  intros Hacc Hid.
  destruct (runs_init_upgrade_iter_io addr id info Hinfo w)
    as (brk & w' & tr & d5 & d7 & Hrun & Hops & Hbrk & _).
  cbv zeta in Hrun, Hops, Hbrk.
  assert (Hr : (fst (xfer_write T d5 (u16 addr) [FT_UPGRADE_55; FT_UPGRADE_AA])
                <? 0) = false) by (apply Z.ltb_ge; apply Hacc).
  rewrite Hr in Hops, Hbrk. rewrite id_answer_always in Hbrk by assumption.
  cbn [negb andb] in Hops, Hbrk. subst brk.
  exists w', tr. split; [| exact Hops].
  unfold ft5x06_init_upgrade. rewrite <- (app_nil_r tr).
  eapply runs_bind with (a := 0); [| apply runs_ret].
  change (Z.to_nat FT_UPGRADE_LOOP) with (S 29). cbn [init_upgrade_loop].
  change (0 <? FT_UPGRADE_LOOP) with true. cbv iota.
  rewrite <- (app_nil_r tr).
  eapply runs_bind; [exact Hrun | apply runs_ret].
Qed.

(** Against a chip that accepts the entry write and never answers read-ID
    with its pair, every remaining attempt is made, each with its
    read-ID. *)
Lemma init_upgrade_loop_all_checked (fuel : nat) :
  enter_accepted T -> never_id T info ->
  forall (i : Z) (w : world T),
    0 <= i <= FT_UPGRADE_LOOP ->
    FT_UPGRADE_LOOP - i <= Z.of_nat fuel ->
    exists w' tr,
      runs (init_upgrade_loop fuel addr id i) w FT_UPGRADE_LOOP tr w' /\
      ops tr = flat_map (iter_ops info id)
                        (repeat true (Z.to_nat (FT_UPGRADE_LOOP - i))).
Proof.
  intros Hacc Hnever.
  assert (Hend : forall fuel (w : world T),
             exists w' tr,
               runs (init_upgrade_loop fuel addr id FT_UPGRADE_LOOP) w
                    FT_UPGRADE_LOOP tr w' /\
               ops tr = flat_map (iter_ops info id)
                          (repeat true
                             (Z.to_nat (FT_UPGRADE_LOOP - FT_UPGRADE_LOOP)))).
  { intros f w. exists w, []. split; [| reflexivity].
    destruct f; apply runs_ret. }
  induction fuel as [| fuel IH]; intros i w Hi Hfuel.
  - assert (i = FT_UPGRADE_LOOP) as -> by lia. apply Hend.
  - destruct (i <? FT_UPGRADE_LOOP) eqn:Hlt.
    2:{ apply Z.ltb_ge in Hlt. assert (i = FT_UPGRADE_LOOP) as -> by lia.
        apply Hend. }
    destruct (runs_init_upgrade_iter_io addr id info Hinfo w)
      as (brk & w1 & t1 & d5 & d7 & H1 & Ho1 & Hbrk & _).
    cbv zeta in H1, Ho1, Hbrk.
    assert (Hr : (fst (xfer_write T d5 (u16 addr)
                         [FT_UPGRADE_55; FT_UPGRADE_AA]) <? 0) = false)
      by (apply Z.ltb_ge; apply Hacc).
    rewrite Hr in Ho1, Hbrk. rewrite id_answer_never in Hbrk by assumption.
    cbn [negb andb] in Ho1, Hbrk. subst brk.
    apply Z.ltb_lt in Hlt.
    destruct (IH (i + 1) w1) as (w2 & t2 & H2 & Ho2); try lia.
    exists w2, (t1 ++ t2). split.
    + cbn [init_upgrade_loop]. apply Z.ltb_lt in Hlt. rewrite Hlt.
      eapply runs_bind; [exact H1 | exact H2].
    + rewrite ops_app, Ho1, Ho2.
      replace (Z.to_nat (FT_UPGRADE_LOOP - i))
        with (S (Z.to_nat (FT_UPGRADE_LOOP - (i + 1)))) by lia.
      reflexivity.
Qed.

Lemma init_upgrade_all_checked (w : world T) :
  enter_accepted T -> never_id T info ->
  exists w' tr,
    runs (ft5x06_init_upgrade addr id) w (- EIO) tr w' /\
    ops tr = flat_map (iter_ops info id) (repeat true 30).
Proof.
  intros Hacc Hnever.
  destruct (init_upgrade_loop_all_checked (Z.to_nat FT_UPGRADE_LOOP)
              Hacc Hnever 0 w)
    as (w' & tr & Hrun & Hops);
    [unfold FT_UPGRADE_LOOP; lia | unfold FT_UPGRADE_LOOP; lia |].
  exists w', tr. split; [| exact Hops].
  unfold ft5x06_init_upgrade. rewrite <- (app_nil_r tr).
  eapply runs_bind; [exact Hrun | apply runs_ret].
Qed.

(** Whatever run of bootloader entry one looks at, against a chip that
    enters at once it returned 0. *)
Lemma init_upgrade_at_once_result (w : world T) (r : Z) (tr : list event)
      (w' : world T) :
  enter_accepted T -> always_id T info ->
  runs (ft5x06_init_upgrade addr id) w r tr w' ->
  r = 0 /\ ops tr = iter_ops info id true.
Proof.
  intros Hacc Hid Hrun.
  destruct (init_upgrade_at_once w Hacc Hid) as (w1 & t1 & H1 & Ho1).
  destruct (runs_same _ _ _ _ _ _ _ _ H1 Hrun) as (-> & -> & _).
  now split.
Qed.

End EntryByTransport.

(** C5.  Bootloader entry runs between one and thirty reset/enter/ID-check
    attempts, each with one CTPM reset and one [{0x55, 0xAA}] write, the ID
    being read once for every such write that the bus accepted.  It
    returns 0 exactly when its last bus transaction is the first read-ID
    that delivered the variant's pair, so a match ends it at once; it
    returns [-EIO] only after thirty attempts without a match.  Against a
    transport that never delivers the pair it makes the thirty attempts and
    returns [-EIO], each attempt reading the ID when the entry write is
    accepted; against one that accepts the entry write and delivers the
    pair it returns 0 after a single attempt, whose last operation is the
    read-ID. *)
Theorem init_upgrade_retry_bound (T : transport) (addr id : Z)
        (info : ft5x06_fw_update_info) (w : world T) :
  ft5x06_get_info id = Some info ->
  exists r w' tr n,
    runs (ft5x06_init_upgrade addr id) w r tr w' /\
    count_write [FT_RST_CMD_REG1; FT_UPGRADE_AA] tr = n /\
    count_write [FT_UPGRADE_55; FT_UPGRADE_AA] tr = n /\
    (1 <= n <= 30)%nat /\
    ((r = 0 /\
      exists pre io,
        tr = pre ++ [I2cRead [FT_READ_ID_REG; 0; 0; 0] 2 io
                             [upgrade_id_1 info; upgrade_id_2 info]]
        /\ no_match info pre)
     \/ (r = - EIO /\ n = 30%nat /\ no_match info tr)) /\
    id_reads tr = accepted_enters tr /\
    (never_id T info -> r = - EIO /\ n = 30%nat) /\
    (never_id T info -> enter_accepted T ->
     ops tr = flat_map (iter_ops info id) (repeat true 30)) /\
    (always_id T info -> enter_accepted T ->
     r = 0 /\ n = 1%nat /\ ops tr = iter_ops info id true).
Proof.
  intros Hinfo.
  destruct (runs_init_upgrade T addr id info w Hinfo)
    as (r & w' & tr & n & Hrun & Ha & Hb & Hn & Hcase & Hnb).
  exists r, w', tr, n. repeat (split; [assumption |]).
  split; [exact (init_upgrade_reads_id addr id info Hinfo w r tr w' Hrun) |].
  split; [| split].
  - intros Hnever. apply Hnb. exact (iter_never_id addr id info Hinfo Hnever).
  - intros Hnever Hacc.
    destruct (init_upgrade_all_checked addr id info Hinfo w Hacc Hnever)
      as (w1 & t1 & H1 & Ho1).
    now destruct (runs_same _ _ _ _ _ _ _ _ H1 Hrun) as (_ & -> & _).
  - intros Hid Hacc.
    destruct (init_upgrade_at_once_result addr id info Hinfo w r tr w'
                Hacc Hid Hrun) as [-> Hops].
    split; [reflexivity |]. split; [| exact Hops].
    rewrite <- Ha. unfold count_write. rewrite Hops.
    apply (iter_ops_counts id info true).
Qed.

(** C5 at a chip that always answers read-ID with a wrong pair (thirty
    attempts, then [-EIO]), at one that answers with its pair (one attempt,
    then 0), and at one that answers with its pair at the third attempt. *)
Lemma init_upgrade_retry_bound_witness :
  (exists w' tr,
      runs (ft5x06_init_upgrade 0x38 FT5x06_ID) (boot wrong_id_chip)
           (- EIO) tr w' /\
      count_write [FT_RST_CMD_REG1; FT_UPGRADE_AA] tr = 30%nat /\
      count_write [FT_UPGRADE_55; FT_UPGRADE_AA] tr = 30%nat /\
      List.length (filter (id_read_op) (ops tr)) = 30%nat) /\
  (exists w' tr,
      runs (ft5x06_init_upgrade 0x38 FT5x06_ID) (boot (good_ft5x06 0))
           0 tr w' /\
      count_write [FT_UPGRADE_55; FT_UPGRADE_AA] tr = 1%nat /\
      last tr (Log M_reset_ctpm)
      = I2cRead [FT_READ_ID_REG; 0; 0; 0] 2 2 [0x79; 0x03]) /\
  (exists w' tr,
      runs (ft5x06_init_upgrade 0x38 FT5x06_ID) (boot_late 2) 0 tr w' /\
      count_write [FT_UPGRADE_55; FT_UPGRADE_AA] tr = 3%nat /\
      last tr (Log M_reset_ctpm)
      = I2cRead [FT_READ_ID_REG; 0; 0; 0] 2 2 [0x79; 0x03]).
Proof.
  split; [| split].
  - destruct (init_upgrade_retry_bound (fake_chip wrong_id_chip) 0x38
                FT5x06_ID _ (boot wrong_id_chip) eq_refl)
      as (r & w' & tr & n & Hrun & Ha & Hb & _ & _ & _ & Hnever & Hall & _).
    assert (Hn : never_id (fake_chip wrong_id_chip)
                   (Build_ft5x06_fw_update_info FT5x06_ID "ft5x06" 5 1 50 30
                                                0x79 0x03 10 2000 0x0000)).
    { intros d a. simpl. right. vm_compute. discriminate. }
    destruct (Hnever Hn) as [-> ->].
    exists w', tr. repeat (split; [assumption |]).
    rewrite (Hall Hn); [reflexivity |].
    intros d a. simpl. lia.
  - destruct (init_upgrade_retry_bound (fake_chip (good_ft5x06 0)) 0x38
                FT5x06_ID _ (boot (good_ft5x06 0)) eq_refl)
      as (r & w' & tr & n & Hrun & _ & Hb & _ & Hcase & _ & _ & _ & Hid).
    destruct Hid as (-> & -> & _).
    + intros d a. simpl. split; [lia | reflexivity].
    + intros d a. simpl. lia.
    + exists w', tr. split; [exact Hrun |]. split; [exact Hb |].
      destruct Hrun as [Hc Ht]. vm_compute in Hc. inversion Hc; subst w'.
      simpl in Ht. subst tr. reflexivity.
  - destruct (init_upgrade_retry_bound (late_chip 2) 0x38 FT5x06_ID _
                (boot_late 2) eq_refl)
      as (r & w' & tr & n & Hrun & _ & Hb & _).
    destruct Hrun as [Hc Ht]. vm_compute in Hc. inversion Hc; subst r w'.
    simpl in Ht. subst tr n.
    eexists _, _. split; [split; [vm_compute; reflexivity | reflexivity] |].
    split; reflexivity.
Defined.

(** ** Programming packets *)

Lemma skipn_nth_cons {A} (d : A) (l : list A) :
  forall m, (m < List.length l)%nat -> skipn m l = nth m l d :: skipn (S m) l.
Proof.
  induction l as [| a l IH]; intros m Hm; simpl in Hm; [lia |].
  destruct m; [reflexivity |]. simpl. apply IH. lia.
Qed.

Lemma u8_byte (b : Z) : is_byte b -> u8 b = b.
Proof. intros Hb. apply Z.mod_small. exact Hb. Qed.

Lemma u8_shiftr8 (x : Z) : u8 (Z.shiftr x 8) = (x / 256) mod 256.
Proof. unfold u8. now rewrite Z.shiftr_div_pow2 by lia. Qed.

Lemma u8_land_shiftr (x n : Z) :
  0 <= n -> u8 (Z.land (Z.shiftr x n) 0xFF) = (x / 2 ^ n) mod 256.
Proof.
  intros Hn. unfold u8. change 0xFF with (Z.ones 8).
  rewrite Z.land_ones by lia. rewrite Z.shiftr_div_pow2 by lia.
  change (2 ^ 8) with 256. apply Z.mod_mod. lia.
Qed.

(** The copy loop takes the next [n] image bytes and folds them into the
    ECC, each exactly once. *)
Lemma copy_payload_spec (data : list Z) (offset : Z) :
  Forall is_byte data ->
  forall (n : nat) (i ecc : Z),
    0 <= offset + i ->
    (Z.to_nat (offset + i) + n <= List.length data)%nat ->
    copy_payload n i offset data ecc
    = (firstn n (skipn (Z.to_nat (offset + i)) data),
       fold_left Z.lxor (firstn n (skipn (Z.to_nat (offset + i)) data)) ecc).
Proof.
  intros Hbytes. induction n as [| n IH]; intros i ecc Hi Hlen.
  - reflexivity.
  - simpl copy_payload.
    rewrite (skipn_nth_cons 0 data (Z.to_nat (offset + i))) by lia.
    rewrite IH by lia.
    replace (Z.to_nat (offset + (i + 1))) with (S (Z.to_nat (offset + i)))
      by lia.
    assert (Hb : is_byte (nth (Z.to_nat (offset + i)) data 0)).
    { rewrite Forall_forall in Hbytes. apply Hbytes, nth_In. lia. }
    rewrite (u8_byte _ Hb). reflexivity.
Qed.

Lemma copy_payload_length (data : list Z) (offset : Z) (n : nat) :
  forall (i ecc : Z), List.length (fst (copy_payload n i offset data ecc)) = n.
Proof.
  induction n as [| n IH]; intros i ecc; [reflexivity |].
  simpl. specialize (IH (i + 1) (Z.lxor ecc (u8 (nth (Z.to_nat (offset + i)) data 0)))).
  destruct (copy_payload n (i + 1) offset data _). simpl in *. now rewrite IH.
Qed.

Section Packets.

Context {T : transport}.
Variable addr : Z.

Lemma flash_status_poll_S (offset : Z) (n : nat) :
  flash_status_poll (T := T) (S n) addr offset
  = (msleep 5 ;;;
     rr <- ft5x06_i2c_read addr [FT_FLASH_STATUS] 1 [0; 0] 2 ;;
     if status_match offset (snd rr) then ret tt
     else flash_status_poll n addr offset).
Proof. reflexivity. Qed.

(** The status poll makes between one and [n] reads; every read but the
    last missed, and it stops short of [n] only on a match. *)
Lemma runs_flash_status_poll (offset : Z) (n : nat) :
  forall (w : world T),
    exists w' tr k misses final,
      runs (flash_status_poll (S n) addr offset) w tt tr w' /\
      ops tr = poll_ops k /\
      (1 <= k <= S n)%nat /\
      read_replies tr = misses ++ [final] /\
      List.length misses = (k - 1)%nat /\
      Forall (fun b => status_match offset b = false) misses /\
      (status_match offset final = true \/ k = S n).
Proof.
  induction n as [| n IH]; intros w.
  - (* the last poll *)
    pose proof (runs_emit (Msleep 5) w) as H1.
    set (w1 := mkWorld (dev w) (trace w ++ [Msleep 5])) in *.
    destruct (runs_i2c_read addr [FT_FLASH_STATUS] 1 [0; 0] 2 w1) as (w2 & H2).
    cbv zeta in H2. simpl (if 0 <? 1 then _ else _) in H2.
    set (x := xfer_read T (dev w1) (u16 addr) [FT_FLASH_STATUS] 2) in *.
    destruct (read_id_buffer (fst (fst x)) (snd (fst x))) as [Hfirst _].
    set (buf := if fst (fst x) <? 0 then [0; 0] else fill [0; 0] 2 (snd (fst x))) in *.
    exists w2. eexists. exists 1%nat, [], buf.
    split; [| split; [| split; [| split; [| split; [| split]]]]].
    + rewrite flash_status_poll_S.
      eapply runs_bind; [exact H1 |].
      eapply runs_bind; [exact H2 |].
      simpl snd. destruct (status_match offset buf); apply runs_ret.
    + rewrite !ops_app, ops_read_trace. reflexivity.
    + lia.
    + rewrite app_nil_r. unfold read_trace. rewrite Hfirst.
      now destruct (_ <? 0).
    + reflexivity.
    + constructor.
    + now right.
  - pose proof (runs_emit (Msleep 5) w) as H1.
    set (w1 := mkWorld (dev w) (trace w ++ [Msleep 5])) in *.
    destruct (runs_i2c_read addr [FT_FLASH_STATUS] 1 [0; 0] 2 w1) as (w2 & H2).
    cbv zeta in H2. simpl (if 0 <? 1 then _ else _) in H2.
    set (x := xfer_read T (dev w1) (u16 addr) [FT_FLASH_STATUS] 2) in *.
    destruct (read_id_buffer (fst (fst x)) (snd (fst x))) as [Hfirst _].
    set (buf := if fst (fst x) <? 0 then [0; 0] else fill [0; 0] 2 (snd (fst x))) in *.
    assert (Hrep : read_replies (Msleep 5 :: read_trace [FT_FLASH_STATUS] 2
                                        (fst (fst x)) buf) = [buf]).
    { unfold read_trace. rewrite Hfirst. now destruct (_ <? 0). }
    destruct (status_match offset buf) eqn:Hm.
    + (* match: stop *)
      exists w2. eexists. exists 1%nat, [], buf.
      split; [| split; [| split; [| split; [| split; [| split]]]]].
      * rewrite flash_status_poll_S.
        eapply runs_bind; [exact H1 |].
          eapply runs_bind; [exact H2 |].
        simpl snd. rewrite Hm. apply runs_ret.
      * rewrite !ops_app, ops_read_trace. reflexivity.
      * lia.
      * rewrite app_nil_r. exact Hrep.
      * reflexivity.
      * constructor.
      * now left.
    + destruct (IH w2) as (w3 & t3 & k & misses & final & H3 & Ho3 & Hk
                           & Hr3 & Hl3 & Hf3 & Hlast).
      exists w3. eexists. exists (S k), (buf :: misses), final.
      split; [| split; [| split; [| split; [| split; [| split]]]]].
      * rewrite flash_status_poll_S.
        eapply runs_bind; [exact H1 |].
        eapply runs_bind; [exact H2 |].
        simpl snd. rewrite Hm. exact H3.
      * rewrite !ops_app, ops_read_trace, Ho3. reflexivity.
      * lia.
      * change (read_replies ([Msleep 5] ++ read_trace [FT_FLASH_STATUS] 2
                                (fst (fst x)) buf ++ t3)
                = (buf :: misses) ++ [final]).
        change ([Msleep 5] ++ read_trace [FT_FLASH_STATUS] 2 (fst (fst x)) buf ++ t3)
          with ((Msleep 5 :: read_trace [FT_FLASH_STATUS] 2 (fst (fst x)) buf) ++ t3).
        unfold read_replies in *. rewrite flat_map_app, Hrep, Hr3. reflexivity.
      * simpl. lia.
      * constructor; assumption.
      * destruct Hlast as [Hl | ->]; [now left | now right].
Qed.

Lemma read_replies_app (a b : list event) :
  read_replies (a ++ b) = read_replies a ++ read_replies b.
Proof. apply flat_map_app. Qed.

Lemma read_replies_write_trace wr r : read_replies (write_trace wr r) = [].
Proof. unfold write_trace. now destruct (r <? 0). Qed.

(** One packet: the header and the next [length] image bytes in a single
    write, the ECC folded over exactly those bytes, then the status poll. *)
Lemma runs_fw_send_packet (command offset length : Z) (data : list Z)
      (ecc : Z) (w : world T) :
  Forall is_byte data ->
  0 <= offset -> 0 <= length ->
  (Z.to_nat offset + Z.to_nat length <= List.length data)%nat ->
  let payload := firstn (Z.to_nat length) (skipn (Z.to_nat offset) data) in
  exists w' tr k misses final,
    runs (ft5x06_fw_send_packet addr command offset length data ecc) w
         (fold_left Z.lxor payload ecc) tr w' /\
    ops tr = OpWrite ([command; 0; (offset / 256) mod 256; offset mod 256;
                       (length / 256) mod 256; length mod 256] ++ payload)
             :: poll_ops k /\
    (1 <= k <= 5)%nat /\
    read_replies tr = misses ++ [final] /\
    List.length misses = (k - 1)%nat /\
    Forall (fun b => status_match offset b = false) misses /\
    (status_match offset final = true \/ k = 5%nat).
Proof.
  intros Hbytes Hoff Hlen Hfit payload.
  unfold ft5x06_fw_send_packet.
  rewrite (copy_payload_spec data offset Hbytes) by (rewrite ?Z.add_0_r; lia).
  rewrite Z.add_0_r. fold payload. cbv iota beta.
  pose proof (runs_emit (Log (M_write_pkt command offset length)) w) as H1.
  set (w1 := mkWorld (dev w) (trace w ++ [Log (M_write_pkt command offset length)]))
    in *.
  set (pkt := [command; 0; u8 (Z.shiftr offset 8); u8 offset;
               u8 (Z.shiftr length 8); u8 length] ++ payload).
  destruct (runs_i2c_write addr pkt (length + 6) w1) as (r & w2 & H2).
  assert (Hpkt : firstn (Z.to_nat (length + 6)) pkt
                 = [command; 0; (offset / 256) mod 256; offset mod 256;
                    (length / 256) mod 256; length mod 256] ++ payload).
  { rewrite firstn_all2.
    - unfold pkt. now rewrite !u8_shiftr8.
    - unfold pkt, payload. rewrite length_app, length_firstn, length_skipn.
      simpl List.length. lia. }
  rewrite Hpkt in H2.
  destruct (runs_flash_status_poll offset 4 w2)
    as (w3 & t3 & k & misses & final & H3 & Ho3 & Hk & Hr3 & Hl3 & Hf3 & Hlast).
  exists w3. eexists. exists k, misses, final.
  split; [| split; [| split; [| split; [| split; [| split]]]]];
    try assumption.
  - eapply runs_bind; [exact H1 |].
    eapply runs_bind; [exact H2 |].
    eapply runs_bind; [exact H3 | apply runs_ret].
  - rewrite !ops_app, ops_write_trace, Ho3. simpl. now rewrite app_nil_r.
  - rewrite !read_replies_app, read_replies_write_trace, Hr3. simpl.
    now rewrite app_nil_r.
Qed.

End Packets.

(** ** The programming loop *)

Lemma packet_count_gt (L : Z) (j : nat) :
  128 * Z.of_nat j < L -> (j < packet_count L)%nat.
Proof.
  unfold packet_count. intros Hlt.
  pose proof (Z.div_mod (L + 127) 128 ltac:(lia)).
  pose proof (Z.mod_pos_bound (L + 127) 128 ltac:(lia)). lia.
Qed.

Lemma packet_count_le (L : Z) (j : nat) :
  L <= 128 * Z.of_nat j -> (packet_count L <= j)%nat.
Proof.
  unfold packet_count. intros Hle.
  pose proof (Z.div_mod (L + 127) 128 ltac:(lia)).
  pose proof (Z.mod_pos_bound (L + 127) 128 ltac:(lia)). lia.
Qed.

(** The [j]-th payload as the loop cuts it: [length] bytes from [128 j]. *)
Lemma payload_at_loop (data : list Z) (j : nat) :
  let L := Z.of_nat (List.length data) in
  let i := 128 * Z.of_nat j in
  i < L ->
  firstn (Z.to_nat (if L - i <? FT_FW_PKT_LEN then L - i else FT_FW_PKT_LEN))
         (skipn (Z.to_nat i) data)
  = payload_at data j.
Proof.
  intros L i Hlt. unfold payload_at, FT_FW_PKT_LEN.
  replace (Z.to_nat i) with (128 * j)%nat by (unfold i; lia).
  destruct (L - i <? 128) eqn:Hshort.
  - apply Z.ltb_lt in Hshort.
    rewrite !firstn_all2; [reflexivity | |];
      rewrite length_skipn; unfold L, i in *; lia.
  - reflexivity.
Qed.

Lemma skipn_next_packet (data : list Z) (j : nat) :
  skipn (128 * j) data = payload_at data j ++ skipn (128 * S j) data.
Proof.
  unfold payload_at.
  rewrite <- (firstn_skipn 128 (skipn (128 * j) data)) at 1.
  f_equal. rewrite skipn_skipn. f_equal. lia.
Qed.

Section ProgramLoop.

Context {T : transport}.
Variables (addr : Z) (data : list Z).
Hypothesis Hbytes : Forall is_byte data.
Let L := Z.of_nat (List.length data).
Hypothesis HL : L <= INT_MAX - 127.

Lemma fw_upgrade_loop_done (fuel : nat) (i ecc : Z) :
  (i <? L) = false ->
  fw_upgrade_loop (T := T) fuel addr L i data ecc = ret ecc.
Proof. intros Hlt. destruct fuel; simpl; now rewrite Hlt. Qed.

Lemma fw_upgrade_loop_step (fuel : nat) (i ecc : Z) :
  (i <? L) = true ->
  fw_upgrade_loop (T := T) (S fuel) addr L i data ecc
  = (ecc' <- ft5x06_fw_send_packet addr FT_FW_START_REG i
               (if L - i <? FT_FW_PKT_LEN then L - i else FT_FW_PKT_LEN)
               data ecc ;;
     if i + FT_FW_PKT_LEN >? INT_MAX then undefined
     else fw_upgrade_loop fuel addr L (i + FT_FW_PKT_LEN) data ecc').
Proof. intros Hlt. simpl. now rewrite Hlt. Qed.

Lemma runs_fw_upgrade_loop (fuel : nat) :
  forall (j : nat) (ecc : Z) (w : world T),
    (packet_count L - j <= fuel)%nat ->
    exists w' tr ks,
      runs (fw_upgrade_loop fuel addr L (128 * Z.of_nat j) data ecc) w
           (fold_left Z.lxor (skipn (128 * j) data) ecc) tr w' /\
      ops tr = program_ops (map (packet_at data) (seq j (packet_count L - j))) ks /\
      List.length ks = (packet_count L - j)%nat /\
      Forall (fun k => (1 <= k <= 5)%nat) ks.
Proof.
  assert (Hdone : forall fuel j ecc (w : world T),
             (128 * Z.of_nat j <? L) = false ->
             exists w' tr ks,
               runs (fw_upgrade_loop fuel addr L (128 * Z.of_nat j) data ecc) w
                    (fold_left Z.lxor (skipn (128 * j) data) ecc) tr w' /\
               ops tr = program_ops
                          (map (packet_at data) (seq j (packet_count L - j))) ks /\
               List.length ks = (packet_count L - j)%nat /\
               Forall (fun k => (1 <= k <= 5)%nat) ks).
  { intros f j ecc w Hlt. pose proof Hlt as Hge. apply Z.ltb_ge in Hge.
    pose proof (packet_count_le _ _ Hge) as Hj.
    exists w, [], []. rewrite (fw_upgrade_loop_done _ _ _ Hlt).
    replace (packet_count L - j)%nat with 0%nat by lia.
    rewrite skipn_all2 by (unfold L in Hge; lia).
    split; [apply runs_ret | repeat split; constructor]. }
  induction fuel as [| fuel IH]; intros j ecc w Hfuel;
    destruct (128 * Z.of_nat j <? L) eqn:Hlt; try (now apply Hdone).
  - apply Z.ltb_lt, packet_count_gt in Hlt. lia.
  - pose proof Hlt as Hlt'. apply Z.ltb_lt in Hlt'.
    pose proof (packet_count_gt _ _ Hlt') as Hj.
    rewrite (fw_upgrade_loop_step _ _ _ Hlt).
    set (i := 128 * Z.of_nat j) in *.
    set (n := if L - i <? FT_FW_PKT_LEN then L - i else FT_FW_PKT_LEN).
    assert (Hn : 0 <= n <= 128 /\ n = Z.min 128 (L - i)).
    { unfold n, FT_FW_PKT_LEN.
      destruct (L - i <? 128) eqn:E;
        [apply Z.ltb_lt in E | apply Z.ltb_ge in E]; lia. }
    destruct (runs_fw_send_packet addr FT_FW_START_REG i n data ecc w Hbytes)
      as (w1 & t1 & k & _ & _ & H1 & Ho1 & Hk & _); try (unfold L, i in *; lia).
    pose proof (payload_at_loop data j Hlt') as Hpay.
    fold L i n in Hpay. rewrite Hpay in H1, Ho1.
    destruct (IH (S j) (fold_left Z.lxor (payload_at data j) ecc) w1)
      as (w2 & t2 & ks & H2 & Ho2 & Hlk & Hfk); [lia |].
    exists w2, (t1 ++ t2), (k :: ks).
    split; [| split; [| split]].
    + rewrite (skipn_next_packet data j), fold_left_app.
      eapply runs_bind; [exact H1 |].
      assert (Hov : (i + FT_FW_PKT_LEN >? INT_MAX) = false).
      { rewrite Z.gtb_ltb. apply Z.ltb_ge.
        unfold FT_FW_PKT_LEN, INT_MAX in *. lia. }
      rewrite Hov.
      replace (i + FT_FW_PKT_LEN) with (128 * Z.of_nat (S j))
        by (unfold i, FT_FW_PKT_LEN; lia).
      exact H2.
    + replace (packet_count L - j)%nat with (S (packet_count L - S j)) by lia.
      simpl seq. simpl map. simpl program_ops.
      rewrite ops_app, Ho1, Ho2. simpl. f_equal.
      unfold packet_at, pkt_header. fold L. fold i.
      destruct Hn as [_ <-]. reflexivity.
    + simpl. lia.
    + constructor; assumption.
Qed.

End ProgramLoop.

(** ** The write engine as a whole *)

Lemma u8_land (x : Z) : u8 (Z.land x 0xFF) = x mod 256.
Proof.
  unfold u8. change 0xFF with (Z.ones 8). rewrite Z.land_ones by lia.
  change (2 ^ 8) with 256. apply Z.mod_mod. lia.
Qed.

Lemma ecc_buffer (io : Z) (d : list Z) :
  let buf := if io <? 0 then [0; 0; 0; 0] else fill [0; 0; 0; 0] 1 d in
  exists actual,
    firstn (Z.to_nat 1) buf = [actual] /\ nth 0 buf 0 = actual /\
    (io < 0 -> actual = 0) /\
    (0 <= io -> received 1 d = [actual]).
Proof.
  cbv zeta. destruct (io <? 0) eqn:Hio.
  - exists 0. repeat split. apply Z.ltb_lt in Hio. lia.
  - apply Z.ltb_ge in Hio. unfold fill.
    pose proof (received_length 1 d) as Hl.
    destruct (received 1 d) as [| a [| ? ?]]; try discriminate Hl.
    exists a. repeat split. lia.
Qed.

Section WriteEngine.

Context {T : transport}.
Variables (addr id : Z) (info : ft5x06_fw_update_info) (data : list Z).
Hypothesis Hinfo : ft5x06_get_info id = Some info.

Lemma init_upgrade_total (w : world T) :
  exists r w' tr,
    runs (ft5x06_init_upgrade addr id) w r tr w' /\ (r = 0 \/ r = - EIO) /\
    (1 <= count_write [FT_RST_CMD_REG1; FT_UPGRADE_AA] tr)%nat.
Proof.
  destruct (runs_init_upgrade T addr id info w Hinfo)
    as (r & w' & tr & n & Hrun & Ha & _ & Hn & Hcase & _).
  exists r, w', tr. split; [exact Hrun |]. split; [| lia].
  destruct Hcase as [[-> _] | [-> _]]; auto.
Qed.

Hypothesis Hbytes : Forall is_byte data.
Let L := Z.of_nat (List.length data).
Hypothesis HL : L <= INT_MAX - 127.

(** The whole run of [ft5x06_fw_upgrade], with the transport's answer to
    the verify read: [io] is the ioctl's result and, if the read succeeded,
    [actual] the byte delivered in state [d9]. *)
Lemma runs_fw_upgrade_io (w : world T) :
  exists r0 w0 t0,
    runs (ft5x06_init_upgrade addr id) w r0 t0 w0 /\
    (1 <= count_write [FT_RST_CMD_REG1; FT_UPGRADE_AA] t0)%nat /\
    ((r0 = - EIO /\ runs (ft5x06_fw_upgrade addr id data L) w (- EIO) t0 w0)
     \/
     (r0 = 0 /\
      exists r w' t1 ks io actual t2,
        runs (ft5x06_fw_upgrade addr id data L) w r
             (t0 ++ t1 ++ verify_trace io actual ++ t2) w' /\
        ops t1 = erase_ops info id
                 ++ OpWrite (announce L)
                 :: program_ops (expected_packets data) ks ++ [OpSleep 50] /\
        List.length ks = packet_count L /\
        Forall (fun k => (1 <= k <= 5)%nat) ks /\
        (io < 0 -> actual = 0) /\
        ((actual = xor_all data /\ r = 0 /\
          ops t2 = [OpWrite [FT_REG_RESET_FW]; OpSleep 100])
         \/
         (actual <> xor_all data /\ r = - EIO /\
          t2 = [Err (M_ecc_error actual (xor_all data))])) /\
        exists d9,
          let x := xfer_read T d9 (u16 addr) [FT_REG_ECC] 1 in
          io = fst (fst x) /\ (0 <= io -> received 1 (snd (fst x)) = [actual]))).
Proof.
  destruct (init_upgrade_total w) as (r0 & w0 & t0 & H0 & Hr0 & Hc0).
  exists r0, w0, t0. split; [exact H0 |]. split; [exact Hc0 |].
  unfold ft5x06_fw_upgrade. rewrite Hinfo.
  destruct Hr0 as [-> | ->].
  2:{ left. split; [reflexivity |]. rewrite <- (app_nil_r t0).
      eapply runs_bind; [exact H0 | apply runs_ret]. }
  right. split; [reflexivity |].
  (* erase *)
  pose proof (runs_emit (Log M_erase_current_app) w0) as H1.
  set (w1 := mkWorld (dev w0) (trace w0 ++ [Log M_erase_current_app])) in *.
  destruct (runs_i2c_write addr [FT_ERASE_APP_REG; 0; 0; 0; 0; 0] 1 w1)
    as (r2 & w2 & H2).
  simpl firstn in H2.
  assert (H3 : exists w3 t3,
             runs (if negb (id =? FT5x26_ID)
                   then ft5x06_i2c_write addr [FT_ERASE_PANEL_REG; 0; 0; 0; 0; 0] 1
                        ;;; ret tt
                   else ret tt) w2 tt t3 w3 /\
             ops t3 = if id =? FT5x26_ID then []
                      else [OpWrite [FT_ERASE_PANEL_REG]]).
  { destruct (id =? FT5x26_ID); simpl negb.
    - exists w2, []. split; [apply runs_ret | reflexivity].
    - destruct (runs_i2c_write addr [FT_ERASE_PANEL_REG; 0; 0; 0; 0; 0] 1 w2)
        as (r3 & w3 & H3).
      simpl firstn in H3. eexists w3, _. split.
      + eapply runs_bind; [exact H3 | apply runs_ret].
      + now rewrite ops_app, ops_write_trace. }
  destruct H3 as (w3 & t3 & H3 & Ho3).
  pose proof (runs_emit (Msleep (delay_erase_flash info)) w3) as H4.
  set (w4 := mkWorld (dev w3) (trace w3 ++ [Msleep (delay_erase_flash info)]))
    in *.
  (* announce *)
  destruct (runs_i2c_write addr
              [0xB0; u8 (Z.land (Z.shiftr L 16) 0xFF);
               u8 (Z.land (Z.shiftr L 8) 0xFF); u8 (Z.land L 0xFF); 0; 0] 4 w4)
    as (r5 & w5 & H5).
  assert (Hann : firstn (Z.to_nat 4)
                   [0xB0; u8 (Z.land (Z.shiftr L 16) 0xFF);
                    u8 (Z.land (Z.shiftr L 8) 0xFF); u8 (Z.land L 0xFF); 0; 0]
                 = announce L).
  { simpl firstn. rewrite !u8_land_shiftr, u8_land by lia. reflexivity. }
  rewrite Hann in H5.
  pose proof (runs_emit (Log M_write_fw_to_flash) w5) as H6.
  set (w6 := mkWorld (dev w5) (trace w5 ++ [Log M_write_fw_to_flash])) in *.
  (* program *)
  destruct (runs_fw_upgrade_loop addr data Hbytes HL
              (Z.to_nat (L / FT_FW_PKT_LEN + 1)) 0 0 w6)
    as (w7 & t7 & ks & H7 & Ho7 & Hlk & Hfk).
  { unfold packet_count, FT_FW_PKT_LEN. fold L.
    pose proof (Z.div_mod (L + 127) 128 ltac:(lia)).
    pose proof (Z.mod_pos_bound (L + 127) 128 ltac:(lia)).
    pose proof (Z.div_mod L 128 ltac:(lia)).
    pose proof (Z.mod_pos_bound L 128 ltac:(lia)). lia. }
  fold L in H7, Ho7, Hlk.
  rewrite Nat.sub_0_r in Ho7, Hlk.
  simpl (128 * Z.of_nat 0) in H7. simpl (skipn (128 * 0) data) in H7.
  fold (xor_all data) in H7. fold (expected_packets data) in Ho7.
  pose proof (runs_emit (Msleep 50) w7) as H8.
  set (w8 := mkWorld (dev w7) (trace w7 ++ [Msleep 50])) in *.
  pose proof (runs_emit (Log M_verify_checksum) w8) as H9.
  set (w9 := mkWorld (dev w8) (trace w8 ++ [Log M_verify_checksum])) in *.
  (* verify *)
  destruct (runs_i2c_read addr [FT_REG_ECC] 1 [0; 0; 0; 0] 1 w9) as (w10 & H10).
  cbv zeta in H10. simpl (if 0 <? 1 then _ else _) in H10.
  set (x := xfer_read T (dev w9) (u16 addr) [FT_REG_ECC] 1) in *.
  set (io := fst (fst x)) in *.
  destruct (ecc_buffer io (snd (fst x)))
    as (actual & Hfirst & Hnth & Hfail & Hok).
  assert (Hio9 : exists d9,
             let x := xfer_read T d9 (u16 addr) [FT_REG_ECC] 1 in
             io = fst (fst x)
             /\ (0 <= io -> received 1 (snd (fst x)) = [actual]))
    by (exists (dev w9); split; [reflexivity | exact Hok]).
  set (buf := if io <? 0 then [0; 0; 0; 0] else fill [0; 0; 0; 0] 1 (snd (fst x)))
    in *.
  assert (Hvt : read_trace [FT_REG_ECC] 1 io buf = verify_trace io actual).
  { unfold read_trace, verify_trace. now rewrite Hfirst. }
  rewrite Hvt in H10.
  assert (Hpre : forall (k : Z -> M T Z) r w' t2,
             runs (k (xor_all data)) w9 r t2 w' ->
             runs (r <- ft5x06_init_upgrade addr id ;;
                   if r <? 0 then ret r
                   else
                     LOG M_erase_current_app ;;;
                     ft5x06_i2c_write addr [FT_ERASE_APP_REG; 0; 0; 0; 0; 0] 1 ;;;
                     (if negb (id =? FT5x26_ID)
                      then ft5x06_i2c_write addr
                             [FT_ERASE_PANEL_REG; 0; 0; 0; 0; 0] 1 ;;; ret tt
                      else ret tt) ;;;
                     msleep (delay_erase_flash info) ;;;
                     ft5x06_i2c_write addr
                       [0xB0; u8 (Z.land (Z.shiftr L 16) 0xFF);
                        u8 (Z.land (Z.shiftr L 8) 0xFF);
                        u8 (Z.land L 0xFF); 0; 0] 4 ;;;
                     LOG M_write_fw_to_flash ;;;
                     ecc <- fw_upgrade_loop (Z.to_nat (L / FT_FW_PKT_LEN + 1))
                                            addr L 0 data 0 ;;
                     msleep 50 ;;; LOG M_verify_checksum ;;; k ecc) w r
                  (t0 ++ ([Log M_erase_current_app]
                          ++ write_trace [FT_ERASE_APP_REG] r2 ++ t3
                          ++ [Msleep (delay_erase_flash info)]
                          ++ write_trace (announce L) r5
                          ++ [Log M_write_fw_to_flash] ++ t7 ++ [Msleep 50]
                          ++ [Log M_verify_checksum]) ++ t2)
                  w').
  { intros k r w' t2 Hk.
    eapply runs_bind; [exact H0 |]. simpl (0 <? 0).
    rewrite <- !app_assoc.
    eapply runs_bind; [exact H1 |]. eapply runs_bind; [exact H2 |].
    eapply runs_bind; [exact H3 |]. eapply runs_bind; [exact H4 |].
    eapply runs_bind; [exact H5 |]. eapply runs_bind; [exact H6 |].
    eapply runs_bind; [exact H7 |]. eapply runs_bind; [exact H8 |].
    eapply runs_bind; [exact H9 | exact Hk]. }
  assert (Hops : ops ([Log M_erase_current_app]
                      ++ write_trace [FT_ERASE_APP_REG] r2 ++ t3
                      ++ [Msleep (delay_erase_flash info)]
                      ++ write_trace (announce L) r5
                      ++ [Log M_write_fw_to_flash] ++ t7 ++ [Msleep 50]
                      ++ [Log M_verify_checksum])
                 = erase_ops info id
                   ++ OpWrite (announce L)
                   :: program_ops (expected_packets data) ks ++ [OpSleep 50]).
  { rewrite !ops_app, !ops_write_trace, Ho3, Ho7. unfold erase_ops.
    destruct (id =? FT5x26_ID); reflexivity. }
  destruct (Z.eq_dec actual (xor_all data)) as [Heq | Hne].
  - (* ECC agrees *)
    pose proof (runs_emit (Log M_reset_new_fw) w10) as H11.
    set (w11 := mkWorld (dev w10) (trace w10 ++ [Log M_reset_new_fw])) in *.
    destruct (runs_i2c_write addr [FT_REG_RESET_FW] 1 w11) as (r12 & w12 & H12).
    simpl firstn in H12.
    pose proof (runs_emit (Msleep 100) w12) as H13.
    eexists 0, _, _, ks, io, actual, _.
    split; [| split; [exact Hops | split; [exact Hlk | split; [exact Hfk |
                split; [exact Hfail | split; [| exact Hio9]]]]]].
    + apply Hpre.
      eapply runs_bind; [exact H10 |].
      simpl snd. fold buf. rewrite Hnth.
      rewrite (proj2 (Z.eqb_eq _ _) Heq). simpl negb. cbv iota.
      eapply runs_bind; [exact H11 |].
      eapply runs_bind; [| apply runs_ret].
      unfold ft5x06_reset_fw.
      eapply runs_bind; [exact H12 | exact H13].
    + left. split; [exact Heq | split; [reflexivity |]].
      rewrite !ops_app, ops_write_trace. reflexivity.
  - (* ECC differs *)
    pose proof (runs_emit (Err (M_ecc_error actual (xor_all data))) w10) as H11.
    eexists (- EIO), _, _, ks, io, actual, _.
    split; [| split; [exact Hops | split; [exact Hlk | split; [exact Hfk |
                split; [exact Hfail | split; [| exact Hio9]]]]]].
    + apply Hpre.
      eapply runs_bind; [exact H10 |].
      simpl snd. fold buf. rewrite Hnth.
      rewrite (proj2 (Z.eqb_neq _ _) Hne). simpl negb. cbv iota.
      eapply runs_bind; [exact H11 | apply runs_ret].
    + right. split; [exact Hne | split; [reflexivity |]]. reflexivity.
Qed.

(** The whole run of [ft5x06_fw_upgrade]: bootloader entry ([t0]); then,
    if entry succeeded, erase, announce, every packet with its polls and
    the 50 ms pause ([t1]), the verify read, and the outcome ([t2]). *)
Lemma runs_fw_upgrade (w : world T) :
  exists r0 w0 t0,
    runs (ft5x06_init_upgrade addr id) w r0 t0 w0 /\
    (1 <= count_write [FT_RST_CMD_REG1; FT_UPGRADE_AA] t0)%nat /\
    ((r0 = - EIO /\ runs (ft5x06_fw_upgrade addr id data L) w (- EIO) t0 w0)
     \/
     (r0 = 0 /\
      exists r w' t1 ks io actual t2,
        runs (ft5x06_fw_upgrade addr id data L) w r
             (t0 ++ t1 ++ verify_trace io actual ++ t2) w' /\
        ops t1 = erase_ops info id
                 ++ OpWrite (announce L)
                 :: program_ops (expected_packets data) ks ++ [OpSleep 50] /\
        List.length ks = packet_count L /\
        Forall (fun k => (1 <= k <= 5)%nat) ks /\
        (io < 0 -> actual = 0) /\
        ((actual = xor_all data /\ r = 0 /\
          ops t2 = [OpWrite [FT_REG_RESET_FW]; OpSleep 100])
         \/
         (actual <> xor_all data /\ r = - EIO /\
          t2 = [Err (M_ecc_error actual (xor_all data))])))).
Proof.
  destruct (runs_fw_upgrade_io w) as (r0 & w0 & t0 & H0 & Hc0 & Hcase).
  exists r0, w0, t0. split; [exact H0 |]. split; [exact Hc0 |].
  destruct Hcase as [Hfail | (Hr0 & r & w' & t1 & ks & io & actual & t2 & Hrun
                              & Ho1 & Hlk & Hfk & Hf & Hverdict & _)].
  - now left.
  - right. split; [exact Hr0 |]. exists r, w', t1, ks, io, actual, t2.
    repeat (split; [assumption |]). exact Hverdict.
Qed.

End WriteEngine.

(** ** What the transport sees of a write *)

Lemma op_writes_app (a b : list op) : op_writes (a ++ b) = op_writes a ++ op_writes b.
Proof. apply flat_map_app. Qed.

Lemma op_writes_cons_write (p : list Z) (l : list op) :
  op_writes (OpWrite p :: l) = p :: op_writes l.
Proof. reflexivity. Qed.

Lemma op_writes_poll_ops (k : nat) : op_writes (poll_ops k) = [].
Proof. induction k; [reflexivity | exact IHk]. Qed.

Lemma op_writes_program_ops (pkts : list (list Z)) :
  forall ks, List.length ks = List.length pkts ->
             op_writes (program_ops pkts ks) = pkts.
Proof.
  induction pkts as [| p pkts IH]; intros [| k ks] Hlen; try discriminate Hlen;
    [reflexivity |].
  simpl program_ops.
  change (OpWrite p :: poll_ops k ++ program_ops pkts ks)
    with ([OpWrite p] ++ poll_ops k ++ program_ops pkts ks).
  rewrite !op_writes_app, op_writes_poll_ops, IH by (simpl in Hlen; lia).
  reflexivity.
Qed.

Lemma expected_packets_length (data : list Z) :
  List.length (expected_packets data)
  = packet_count (Z.of_nat (List.length data)).
Proof. unfold expected_packets. now rewrite length_map, length_seq. Qed.

(** The payloads of consecutive packets tile the image. *)
Lemma concat_payloads (data : list Z) (m : nat) :
  forall j, (List.length data <= 128 * (j + m))%nat ->
            List.concat (map (payload_at data) (seq j m)) = skipn (128 * j) data.
Proof.
  induction m as [| m IH]; intros j Hlen.
  - simpl. rewrite skipn_all2 by lia. reflexivity.
  - simpl seq. simpl map. simpl List.concat.
    rewrite IH by lia. symmetry. apply skipn_next_packet.
Qed.

Lemma packet_count_covers (L : Z) :
  0 <= L -> L <= 128 * Z.of_nat (packet_count L).
Proof.
  intros HL. unfold packet_count.
  rewrite Z2Nat.id by (apply Z.div_pos; lia).
  pose proof (Z.div_mod (L + 127) 128 ltac:(lia)).
  pose proof (Z.mod_pos_bound (L + 127) 128 ltac:(lia)). lia.
Qed.

Lemma packet_index_offset (L : Z) (k : nat) :
  (k < packet_count L)%nat -> 128 * Z.of_nat k < L.
Proof.
  unfold packet_count. intros Hk.
  pose proof (Z.div_mod (L + 127) 128 ltac:(lia)).
  pose proof (Z.mod_pos_bound (L + 127) 128 ltac:(lia)). lia.
Qed.

Lemma payload_at_length (data : list Z) (k : nat) :
  128 * Z.of_nat k < Z.of_nat (List.length data) ->
  Z.of_nat (List.length (payload_at data k))
  = Z.min 128 (Z.of_nat (List.length data) - 128 * Z.of_nat k).
Proof.
  intros Hk. unfold payload_at. rewrite length_firstn, length_skipn. lia.
Qed.

Section WriteTrace.

Context {T : transport}.
Variables (addr id : Z) (info : ft5x06_fw_update_info) (data : list Z).
Hypothesis Hinfo : ft5x06_get_info id = Some info.
Hypothesis Hbytes : Forall is_byte data.
Let L := Z.of_nat (List.length data).
Hypothesis HL : L <= INT_MAX - 127.

(** The write transactions of a whole run, after those of bootloader entry. *)
Lemma fw_upgrade_writes (w : world T) :
  exists r0 w0 t0,
    runs (ft5x06_init_upgrade addr id) w r0 t0 w0 /\
    (1 <= count_write [FT_RST_CMD_REG1; FT_UPGRADE_AA] t0)%nat /\
    exists r w' t,
      runs (ft5x06_fw_upgrade addr id data L) w r (t0 ++ t) w' /\
      ((r0 = - EIO /\ r = - EIO /\ t = [])
       \/
       (r0 = 0 /\ (r = 0 \/ r = - EIO) /\
        writes t = [[FT_ERASE_APP_REG]]
                   ++ (if id =? FT5x26_ID then [] else [[FT_ERASE_PANEL_REG]])
                   ++ [announce L]
                   ++ expected_packets data
                   ++ (if r =? 0 then [[FT_REG_RESET_FW]] else []))).
Proof.
  destruct (runs_fw_upgrade addr id info data Hinfo Hbytes HL w)
    as (r0 & w0 & t0 & H0 & Hc0 & Hcase).
  exists r0, w0, t0. split; [exact H0 |]. split; [exact Hc0 |].
  destruct Hcase as [(-> & Hrun)
                    | (-> & r & w' & t1 & ks & io & actual & t2 & Hrun & Ho1
                       & Hlk & _ & _ & Hverdict)].
  - exists (- EIO), w0, []. rewrite app_nil_r. split; [exact Hrun |].
    left. repeat split.
  - exists r, w', (t1 ++ verify_trace io actual ++ t2).
    split; [exact Hrun |]. right. split; [reflexivity |].
    assert (Hw1 : writes t1 = [[FT_ERASE_APP_REG]]
                   ++ (if id =? FT5x26_ID then [] else [[FT_ERASE_PANEL_REG]])
                   ++ [announce L] ++ expected_packets data).
    { unfold writes. rewrite Ho1. unfold erase_ops.
      rewrite op_writes_app, !op_writes_cons_write, !op_writes_app.
      rewrite op_writes_program_ops
        by (rewrite expected_packets_length; exact Hlk).
      destruct (id =? FT5x26_ID); simpl; now rewrite app_nil_r. }
    assert (Hwv : writes (verify_trace io actual) = []).
    { unfold verify_trace. now destruct (io <? 0). }
    rewrite !writes_app, Hw1, Hwv.
    destruct Hverdict as [(_ & -> & Ho2) | (_ & -> & ->)].
    + split; [now left |]. unfold writes. rewrite Ho2. simpl.
      now rewrite <- !app_assoc.
    + split; [now right |]. simpl. now rewrite <- !app_assoc, !app_nil_r.
Qed.

End WriteTrace.

(** C3 as stated fails in both directions when the verify read itself
    fails.  With register 0xCC holding 0x77 and an image whose XOR is 0 the
    write returns 0, although the register differs from the accumulated
    ECC; with the register holding 0xFF, the XOR of image S1, the write of
    S1 fails with "ECC error 00 vs. ff", although the register equals the
    accumulated ECC.  In both runs no byte was read from the register. *)
Lemma fw_upgrade_verdict_ignores_failed_read :
  (exists w',
      ft5x06_fw_upgrade 0x38 FT5x06_ID image_even 8 (boot (deaf_verify 0x77))
      = Some (0, w') /\
      f_ecc (deaf_verify 0x77) <> xor_all image_even /\
      In (I2cRead [FT_REG_ECC] 1 (-1) [0]) (trace w')) /\
  (exists w',
      ft5x06_fw_upgrade 0x38 FT5x06_ID image_S1 8 (boot (deaf_verify 0xff))
      = Some (- EIO, w') /\
      f_ecc (deaf_verify 0xff) = xor_all image_S1 /\
      In (I2cRead [FT_REG_ECC] 1 (-1) [0]) (trace w') /\
      last (trace w') (Log M_reset_ctpm) = Err (M_ecc_error 0 0xff)).
Proof.
  split.
  - eexists. split; [vm_compute; reflexivity |].
    split; [vm_compute; discriminate | vm_compute; tauto].
  - eexists. split; [vm_compute; reflexivity |].
    split; [reflexivity |]. split; [vm_compute; tauto | reflexivity].
Qed.

(** C3, amended.  The ECC the programming loop accumulates is the XOR of
    all image bytes.  A write that gets past bootloader entry makes a
    one-byte read of register 0xCC into [reg_val[0]], which was initialised
    to 0, and does not look at the result of that read: it fails, with
    [-EIO] and the message "ECC error", exactly when [reg_val[0]] differs
    from the accumulated ECC, and returns 0 when they agree.  So against a
    chip whose register 0xCC reads as [e] the write fails exactly when [e]
    differs from the XOR of the image, and on a bus where the read of 0xCC
    fails it fails exactly when the XOR of the image is not 0, whatever the
    register holds. *)
Theorem fw_upgrade_ecc_verdict (T : transport) (addr id : Z)
        (info : ft5x06_fw_update_info) (data : list Z) (w : world T) :
  ft5x06_get_info id = Some info ->
  Forall is_byte data ->
  Z.of_nat (List.length data) <= INT_MAX - 127 ->
  let L := Z.of_nat (List.length data) in
  (forall w6 : world T,
      exists w7 t7,
        runs (fw_upgrade_loop (Z.to_nat (L / FT_FW_PKT_LEN + 1)) addr L 0 data 0)
             w6 (xor_all data) t7 w7) /\
  exists r0 w0 t0 r w' t,
    runs (ft5x06_init_upgrade addr id) w r0 t0 w0 /\
    runs (ft5x06_fw_upgrade addr id data L) w r (t0 ++ t) w' /\
    (r0 = 0 \/ r0 = - EIO) /\
    (r0 = - EIO -> r = - EIO /\ t = []) /\
    (enter_accepted T -> always_id T info -> r0 = 0) /\
    (r0 = 0 ->
     (exists pre io actual post,
         t = pre ++ verify_trace io actual ++ post /\
         (io < 0 -> actual = 0) /\
         (actual <> xor_all data <->
          r = - EIO /\ post = [Err (M_ecc_error actual (xor_all data))]) /\
         (actual = xor_all data <-> r = 0)) /\
     (forall e, ecc_register T e ->
                (e <> xor_all data <-> r = - EIO) /\
                (e = xor_all data <-> r = 0)) /\
     (verify_fails T ->
      (xor_all data <> 0 <-> r = - EIO) /\ (xor_all data = 0 <-> r = 0))).
Proof.
  intros Hinfo Hbytes HL L. split.
  - intros w6.
    destruct (runs_fw_upgrade_loop addr data Hbytes HL
                (Z.to_nat (L / FT_FW_PKT_LEN + 1)) 0 0 w6)
      as (w7 & t7 & ks & H7 & _).
    { unfold packet_count, FT_FW_PKT_LEN. fold L.
      pose proof (Z.div_mod (L + 127) 128 ltac:(lia)).
      pose proof (Z.mod_pos_bound (L + 127) 128 ltac:(lia)).
      pose proof (Z.div_mod L 128 ltac:(lia)).
      pose proof (Z.mod_pos_bound L 128 ltac:(lia)). lia. }
    exists w7, t7. exact H7.
  - destruct (runs_fw_upgrade_io addr id info data Hinfo Hbytes HL w)
      as (r0 & w0 & t0 & H0 & _ & Hcase).
    assert (Hentry : enter_accepted T -> always_id T info -> r0 = 0).
    { intros Hacc Hid.
      apply (init_upgrade_at_once_result addr id info Hinfo w r0 t0 w0
               Hacc Hid H0). }
    destruct Hcase as [(-> & Hrun)
                      | (-> & r & w' & t1 & ks & io & actual & t2 & Hrun & _
                         & _ & _ & Hfail & Hverdict & d9 & Hio & Hok)].
    + exists (- EIO), w0, t0, (- EIO), w0, []. rewrite app_nil_r.
      split; [exact H0 |]. split; [exact Hrun |]. split; [now right |].
      split; [now split |]. split; [exact Hentry |].
      intros Habs. discriminate Habs.
    + exists 0, w0, t0, r, w', (t1 ++ verify_trace io actual ++ t2).
      split; [exact H0 |]. split; [exact Hrun |]. split; [now left |].
      split; [intros Habs; discriminate Habs |]. split; [exact Hentry |].
      intros _.
      assert (Hiff : (actual <> xor_all data <-> r = - EIO)
                     /\ (actual = xor_all data <-> r = 0)).
      { destruct Hverdict as [(Heq & -> & _) | (Hne & -> & _)];
          split; split; intros Hx; try reflexivity; try assumption;
            try contradiction; try discriminate Hx. }
      split; [| split].
      * exists t1, io, actual, t2. split; [reflexivity |].
        split; [exact Hfail |]. split; [| exact (proj2 Hiff)].
        destruct Hverdict as [(Heq & -> & _) | (Hne & -> & ->)]; split.
        -- intros Hne. contradiction.
        -- intros [Hr _]. discriminate Hr.
        -- intros _. now split.
        -- intros _. exact Hne.
      * intros e Hreg. specialize (Hreg d9 (u16 addr)).
        destruct (xfer_read T d9 (u16 addr) [FT_REG_ECC] 1) as [[io' d'] s'].
        cbn [fst snd] in Hio, Hok. destruct Hreg as [Hpos Hrec].
        subst io'. rewrite Hrec in Hok. specialize (Hok Hpos).
        injection Hok as ->. exact Hiff.
      * intros Hvf. specialize (Hvf d9 (u16 addr)). rewrite <- Hio in Hvf.
        rewrite (Hfail Hvf) in Hiff. destruct Hiff as [[A B] [C D]].
        split; split; intros Hx.
        -- apply A. intros E. apply Hx. now symmetry.
        -- intros E. apply (B Hx). now symmetry.
        -- apply C. now symmetry.
        -- symmetry. now apply D.
Qed.

(** C3 amended, on scenario S1 against an FT5x06 reporting 0xFF (success)
    and one reporting 0xAB (ECC error), and on the image whose XOR is 0
    against a chip whose verify read fails (success, register 0x77). *)
Lemma fw_upgrade_ecc_verdict_witness :
  (exists w' tr,
      runs (ft5x06_fw_upgrade 0x38 FT5x06_ID image_S1 8)
           (boot (good_ft5x06 0xff)) 0 tr w') /\
  (exists w' tr,
      runs (ft5x06_fw_upgrade 0x38 FT5x06_ID image_S1 8)
           (boot (good_ft5x06 0xAB)) (- EIO) tr w') /\
  (exists w' tr,
      runs (ft5x06_fw_upgrade 0x38 FT5x06_ID image_even 8)
           (boot (deaf_verify 0x77)) 0 tr w').
Proof.
  assert (Hb1 : Forall is_byte image_S1)
    by (repeat constructor; unfold is_byte; lia).
  assert (Hb2 : Forall is_byte image_even)
    by (repeat constructor; unfold is_byte; lia).
  assert (Hl : 8 <= INT_MAX - 127) by (vm_compute; discriminate).
  split; [| split].
  - destruct (fw_upgrade_ecc_verdict (fake_chip (good_ft5x06 0xff)) 0x38
                FT5x06_ID _ image_S1 (boot (good_ft5x06 0xff)) eq_refl Hb1 Hl)
      as (_ & r0 & w0 & t0 & r & w' & t & _ & Hrun & _ & _ & Hentry & Hpast).
    assert (r0 = 0) as ->.
    { apply Hentry; intros d a; simpl; [lia | split; [lia | reflexivity]]. }
    destruct (Hpast eq_refl) as (_ & Hreg & _).
    destruct (Hreg 0xff) as [_ [Hr _]].
    { intros d a. simpl. split; [lia | reflexivity]. }
    rewrite Hr in Hrun by reflexivity. now exists w', (t0 ++ t).
  - destruct (fw_upgrade_ecc_verdict (fake_chip (good_ft5x06 0xAB)) 0x38
                FT5x06_ID _ image_S1 (boot (good_ft5x06 0xAB)) eq_refl Hb1 Hl)
      as (_ & r0 & w0 & t0 & r & w' & t & _ & Hrun & _ & _ & Hentry & Hpast).
    assert (r0 = 0) as ->.
    { apply Hentry; intros d a; simpl; [lia | split; [lia | reflexivity]]. }
    destruct (Hpast eq_refl) as (_ & Hreg & _).
    destruct (Hreg 0xAB) as [[Hr _] _].
    { intros d a. simpl. split; [lia | reflexivity]. }
    rewrite Hr in Hrun by (vm_compute; discriminate). now exists w', (t0 ++ t).
  - destruct (fw_upgrade_ecc_verdict (fake_chip (deaf_verify 0x77)) 0x38
                FT5x06_ID _ image_even (boot (deaf_verify 0x77)) eq_refl Hb2 Hl)
      as (_ & r0 & w0 & t0 & r & w' & t & _ & Hrun & _ & _ & Hentry & Hpast).
    assert (r0 = 0) as ->.
    { apply Hentry; intros d a; simpl; [lia | split; [lia | reflexivity]]. }
    destruct (Hpast eq_refl) as (_ & _ & Hvf).
    destruct Hvf as [_ [Hr _]].
    { intros d a. vm_compute. reflexivity. }
    rewrite Hr in Hrun by reflexivity. now exists w', (t0 ++ t).
Defined.

(** C4.  For an image of 8 to 65536 bytes, the [k]-th programming packet
    starts at offset [128 k], carries [min (128, L - 128 k)] bytes after the
    header [{0xBF, 0x00, high(offset), low(offset), high(n), low(n)}], the
    payloads in order make up the image, and after bootloader entry the
    write transactions on the bus are exactly the erase command(s), the
    length announcement, these packets in order, and on success the
    firmware reset; in particular this is what reaches a chip that accepts
    the entry write and answers read-ID with its pair. *)
Theorem fw_upgrade_packets (T : transport) (addr id : Z)
        (info : ft5x06_fw_update_info) (data : list Z) (w : world T) :
  ft5x06_get_info id = Some info ->
  Forall is_byte data ->
  FT_FW_MIN_SIZE <= Z.of_nat (List.length data) <= FT_FW_MAX_SIZE ->
  let L := Z.of_nat (List.length data) in
  (forall k : nat,
      (k < packet_count L)%nat ->
      let off := 128 * Z.of_nat k in
      let n := Z.min 128 (L - off) in
      packet_at data k
      = [0xBF; 0x00; off / 256; off mod 256; n / 256; n mod 256]
          ++ payload_at data k /\
      Z.of_nat (List.length (payload_at data k)) = n /\
      off mod 128 = 0 /\
      0 <= off / 256 < 256 /\ 0 <= n / 256 < 256 /\ 1 <= n) /\
  List.concat (map (payload_at data) (seq 0 (packet_count L))) = data /\
  exists r0 w0 t0 r w' t,
    runs (ft5x06_init_upgrade addr id) w r0 t0 w0 /\
    runs (ft5x06_fw_upgrade addr id data L) w r (t0 ++ t) w' /\
    ((r0 = - EIO /\ t = [])
     \/
     (r0 = 0 /\
      writes t = [[FT_ERASE_APP_REG]]
                 ++ (if id =? FT5x26_ID then [] else [[FT_ERASE_PANEL_REG]])
                 ++ [announce L]
                 ++ expected_packets data
                 ++ (if r =? 0 then [[FT_REG_RESET_FW]] else []))) /\
    (enter_accepted T -> always_id T info ->
     r0 = 0 /\
     writes t = [[FT_ERASE_APP_REG]]
                ++ (if id =? FT5x26_ID then [] else [[FT_ERASE_PANEL_REG]])
                ++ [announce L]
                ++ map (packet_at data) (seq 0 (packet_count L))
                ++ (if r =? 0 then [[FT_REG_RESET_FW]] else [])).
Proof.
  intros Hinfo Hbytes Hrange L. unfold FT_FW_MIN_SIZE, FT_FW_MAX_SIZE in Hrange.
  fold L in Hrange. split; [| split].
  - intros k Hk off n.
    pose proof (packet_index_offset _ _ Hk) as Hoff. fold off in Hoff.
    assert (Hn : 1 <= n <= 128) by (unfold n; lia).
    assert (Hhi : 0 <= off / 256 < 256).
    { split; [apply Z.div_pos; unfold off; lia |].
      apply Z.div_lt_upper_bound; lia. }
    assert (Hnhi : n / 256 = 0) by (apply Z.div_small; lia).
    repeat split; try lia.
    + unfold packet_at, pkt_header. fold L. fold off. fold n.
      rewrite (Z.mod_small (off / 256)) by lia.
      rewrite (Z.mod_small (n / 256)) by lia. reflexivity.
    + exact (payload_at_length data k Hoff).
    + unfold off. rewrite Z.mul_comm. apply Z.mod_mul. lia.
  - rewrite concat_payloads; [reflexivity |].
    pose proof (packet_count_covers L ltac:(lia)). unfold L in *. lia.
  - destruct (fw_upgrade_writes addr id info data Hinfo Hbytes
                ltac:(unfold INT_MAX; lia) w)
      as (r0 & w0 & t0 & H0 & _ & r & w' & t & Hrun & Hcase).
    exists r0, w0, t0, r, w', t. split; [exact H0 |]. split; [exact Hrun |].
    split.
    + destruct Hcase as [(-> & _ & ->) | (-> & _ & Hw)];
        [left | right]; now split.
    + intros Hacc Hid.
      destruct (init_upgrade_at_once_result addr id info Hinfo w r0 t0 w0
                  Hacc Hid H0) as [-> _].
      split; [reflexivity |].
      destruct Hcase as [(Habs & _) | (_ & _ & Hw)]; [discriminate Habs |].
      exact Hw.
Qed.

(** C4 on scenario S1 against an FT5x06 that works: entry succeeds, and
    after it the bus sees the two erase commands, the announcement of 8
    bytes, the one packet carrying the image, and the firmware reset. *)
Lemma fw_upgrade_packets_witness :
  exists w0 t0 w' t,
    runs (ft5x06_init_upgrade 0x38 FT5x06_ID) (boot (good_ft5x06 0xff))
         0 t0 w0 /\
    runs (ft5x06_fw_upgrade 0x38 FT5x06_ID image_S1 8)
         (boot (good_ft5x06 0xff)) 0 (t0 ++ t) w' /\
    writes t = [[0x61]; [0x63]; [0xB0; 0; 0; 8];
                [0xBF; 0; 0; 0; 0; 8; 0x01; 0x02; 0x04; 0x08; 0x10; 0x20; 0x40; 0x80];
                [0x07]] /\
    List.concat (map (payload_at image_S1) (seq 0 (packet_count 8))) = image_S1.
Proof.
  destruct (fw_upgrade_packets (fake_chip (good_ft5x06 0xff)) 0x38 FT5x06_ID
              _ image_S1 (boot (good_ft5x06 0xff)) eq_refl)
    as (_ & Hcat & r0 & w0 & t0 & r & w' & t & H0 & Hrun & _ & Hdirect).
  - repeat constructor; unfold is_byte; lia.
  - vm_compute. split; discriminate.
  - destruct Hdirect as [-> Hw].
    + intros d a. simpl. lia.
    + intros d a. simpl. split; [lia | reflexivity].
    + assert (r = 0) as ->.
      { destruct Hrun as [Hc _]. vm_compute in Hc. now inversion Hc. }
      exists w0, t0, w', t. split; [exact H0 |]. split; [exact Hrun |].
      split; [| exact Hcat]. rewrite Hw. reflexivity.
Defined.

(** C2 as stated fails: a one-byte image, outside [8, 65536], is flashed
    like any other: bootloader entry, erase and programming all happen and
    the write returns 0. *)
Lemma fw_upgrade_short_image_flashed :
  ~ (FT_FW_MIN_SIZE <= 1 <= FT_FW_MAX_SIZE) /\
  exists w',
    ft5x06_fw_upgrade 0x38 FT5x06_ID [0x5a] 1 (boot (good_ft5x06 0x5a))
    = Some (0, w') /\
    In (I2cWrite [FT_UPGRADE_55; FT_UPGRADE_AA] 1) (trace w') /\
    In (I2cWrite [FT_ERASE_APP_REG] 1) (trace w') /\
    In (I2cWrite [FT_FW_START_REG; 0; 0; 0; 0; 1; 0x5a] 1) (trace w').
Proof.
  split; [unfold FT_FW_MIN_SIZE; lia |].
  eexists. split; [vm_compute; reflexivity |].
  repeat split; simpl; tauto.
Qed.

(** C2, amended.  [ft5x06_fw_upgrade] has no image-length check: for an
    image of any length (short of overflowing the [int] loop index) it runs
    bootloader entry and, when entry succeeded, erases, announces the
    length and programs every 128-byte packet; it returns 0 or [-EIO]. *)
Theorem fw_upgrade_any_length (T : transport) (addr id : Z)
        (info : ft5x06_fw_update_info) (data : list Z) (w : world T) :
  ft5x06_get_info id = Some info ->
  Forall is_byte data ->
  Z.of_nat (List.length data) <= INT_MAX - 127 ->
  let L := Z.of_nat (List.length data) in
  exists r0 w0 t0 r w' t,
    runs (ft5x06_init_upgrade addr id) w r0 t0 w0 /\
    (1 <= count_write [FT_RST_CMD_REG1; FT_UPGRADE_AA] t0)%nat /\
    runs (ft5x06_fw_upgrade addr id data L) w r (t0 ++ t) w' /\
    (r = 0 \/ r = - EIO) /\
    (r0 = 0 ->
     exists rest,
       writes t = [FT_ERASE_APP_REG] :: rest /\
       In (announce L) rest /\
       incl (expected_packets data) rest) /\
    List.length (expected_packets data) = packet_count L.
Proof.
  intros Hinfo Hbytes HL L.
  destruct (fw_upgrade_writes addr id info data Hinfo Hbytes HL w)
    as (r0 & w0 & t0 & H0 & Hc0 & r & w' & t & Hrun & Hcase).
  exists r0, w0, t0, r, w', t.
  repeat (split; [assumption |]).
  split; [| split; [| apply expected_packets_length]].
  - destruct Hcase as [(_ & -> & _) | (_ & Hr & _)]; auto.
  - intros ->. destruct Hcase as [(Habs & _) | (_ & _ & Hw)];
      [discriminate Habs |].
    eexists. split; [exact Hw |]. split.
    + apply in_or_app. right. now left.
    + intros p Hp. apply in_or_app. right. right.
      change (In p (expected_packets data
                    ++ (if r =? 0 then [[FT_REG_RESET_FW]] else []))).
      apply in_or_app. now left.
Qed.

(** C2 amended, on the one-byte image. *)
Lemma fw_upgrade_any_length_witness :
  exists r w' tr,
    runs (ft5x06_fw_upgrade 0x38 FT5x06_ID [0x5a] 1)
         (boot (good_ft5x06 0x5a)) r tr w' /\ (r = 0 \/ r = - EIO).
Proof.
  destruct (fw_upgrade_any_length (fake_chip (good_ft5x06 0x5a)) 0x38
              FT5x06_ID _ [0x5a] (boot (good_ft5x06 0x5a)) eq_refl)
    as (r0 & w0 & t0 & r & w' & t & _ & _ & Hrun & Hr & _).
  - repeat constructor; unfold is_byte; lia.
  - vm_compute. discriminate.
  - exists r, w', (t0 ++ t). split; [exact Hrun | exact Hr].
Defined.

(** C6 as stated fails: on an FT5x06 (chip id 0x55, not 0x54) the write
    engine polls the flash-status register after its packet. *)
Lemma fw_upgrade_ft5x06_polls :
  FT5x06_ID <> FT5x26_ID /\
  exists w',
    ft5x06_fw_upgrade 0x38 FT5x06_ID image_S1 8 (boot (good_ft5x06 0xff))
    = Some (0, w') /\
    In (OpRead [FT_FLASH_STATUS] 2) (ops (trace w')).
Proof.
  split; [discriminate |].
  eexists. split; [vm_compute; reflexivity |].
  vm_compute. tauto.
Qed.

(** C6, amended.  Flash-status polling does not depend on the variant:
    [ft5x06_fw_send_packet] takes no chip id, and after its write it makes
    between one and five two-byte reads of register 0x6A, each after a 5 ms
    sleep, every read but the last missing [0x1000 + offset / 128] and the
    polling stopping before the fifth read only on a match; and in a write
    for any registered variant every programming packet is followed by such
    a poll. *)
Theorem flash_status_polled_for_every_variant (T : transport) (addr id : Z)
        (info : ft5x06_fw_update_info) (data : list Z) (w : world T) :
  ft5x06_get_info id = Some info ->
  Forall is_byte data ->
  Z.of_nat (List.length data) <= INT_MAX - 127 ->
  let L := Z.of_nat (List.length data) in
  (forall (command offset length ecc : Z) (w1 : world T),
      0 <= offset -> 0 <= length ->
      (Z.to_nat offset + Z.to_nat length <= List.length data)%nat ->
      exists ecc' w' tr pkt k misses final,
        runs (ft5x06_fw_send_packet addr command offset length data ecc) w1
             ecc' tr w' /\
        ops tr = OpWrite pkt :: poll_ops k /\
        (1 <= k <= 5)%nat /\
        read_replies tr = misses ++ [final] /\
        List.length misses = (k - 1)%nat /\
        Forall (fun b => status_match offset b = false) misses /\
        (status_match offset final = true \/ k = 5%nat)) /\
  exists r0 w0 t0,
    runs (ft5x06_init_upgrade addr id) w r0 t0 w0 /\
    (r0 = 0 ->
     exists r w' t1 ks t2,
       runs (ft5x06_fw_upgrade addr id data L) w r (t0 ++ t1 ++ t2) w' /\
       ops t1 = erase_ops info id
                ++ OpWrite (announce L)
                :: program_ops (expected_packets data) ks ++ [OpSleep 50] /\
       List.length ks = List.length (expected_packets data) /\
       Forall (fun k => (1 <= k <= 5)%nat) ks).
Proof.
  intros Hinfo Hbytes HL L. split.
  - intros command offset length ecc w1 Hoff Hlen Hfit.
    destruct (runs_fw_send_packet addr command offset length data ecc w1
                Hbytes Hoff Hlen Hfit)
      as (w' & tr & k & misses & final & Hrun & Hrest).
    eexists _, w', tr, _, k, misses, final. split; [exact Hrun | exact Hrest].
  - destruct (runs_fw_upgrade addr id info data Hinfo Hbytes HL w)
      as (r0 & w0 & t0 & H0 & _ & Hcase).
    exists r0, w0, t0. split; [exact H0 |].
    intros ->. destruct Hcase as [(Habs & _) | (_ & r & w' & t1 & ks & io
                                   & actual & t2 & Hrun & Ho1 & Hlk & Hfk & _)];
      [discriminate Habs |].
    exists r, w', t1, ks, (verify_trace io actual ++ t2).
    rewrite expected_packets_length. auto.
Qed.

(** C6 amended, on an FT5x06. *)
Lemma flash_status_polled_for_every_variant_witness :
  exists r0 w0 t0,
    runs (ft5x06_init_upgrade 0x38 FT5x06_ID) (boot (good_ft5x06 0xff))
         r0 t0 w0.
Proof.
  destruct (flash_status_polled_for_every_variant
              (fake_chip (good_ft5x06 0xff)) 0x38 FT5x06_ID _ image_S1
              (boot (good_ft5x06 0xff)) eq_refl)
    as (_ & r0 & w0 & t0 & H0 & _).
  - repeat constructor; unfold is_byte; lia.
  - vm_compute. discriminate.
  - exists r0, w0, t0. exact H0.
Defined.




(** ** Read engine *)

Lemma read_ops_app (bufs1 bufs2 : list (list Z)) :
  forall k, read_ops k (bufs1 ++ bufs2)
            = read_ops k bufs1 ++ read_ops (k + List.length bufs1) bufs2.
Proof.
  induction bufs1 as [| b bs IH]; intros k; simpl.
  - now rewrite Nat.add_0_r.
  - rewrite IH. now rewrite Nat.add_succ_r.
Qed.

Lemma op_dumped_read_ops (bufs : list (list Z)) :
  forall k, op_dumped (read_ops k bufs) = List.concat bufs.
Proof.
  induction bufs as [| b bs IH]; intros k; [reflexivity |].
  simpl. f_equal. apply IH.
Qed.

Lemma op_writes_read_ops (bufs : list (list Z)) :
  forall k, op_writes (read_ops k bufs) = [].
Proof.
  induction bufs as [| b bs IH]; intros k; [reflexivity |]. simpl. apply IH.
Qed.

Lemma length_concat_uniform (n : nat) (bufs : list (list Z)) :
  Forall (fun b => List.length b = n) bufs ->
  List.length (List.concat bufs) = (List.length bufs * n)%nat.
Proof.
  induction 1 as [| b bs Hb _ IH]; [reflexivity |].
  simpl. rewrite length_app, IH, Hb. reflexivity.
Qed.

Section ReadEngine.

Context {T : transport}.
Variable addr : Z.

Lemma fw_read_loop_step (fuel : nat) (j : nat) (data : list Z) :
  (j < 256)%nat ->
  fw_read_loop (T := T) (S fuel) addr FT_FW_MAX_SIZE (256 * Z.of_nat j) data
  = (msleep 10 ;;;
     rr <- ft5x06_fw_receive_packet addr FT_FW_READ_REG (256 * Z.of_nat j)
             FT_FW_PKT_READ_LEN data ;;
     let '(r, data') := rr in
     if r <? 0 then ret (inl r)
     else
       emit (FileWrite (firstn (Z.to_nat FT_FW_PKT_READ_LEN) data')) ;;;
       fw_read_loop fuel addr FT_FW_MAX_SIZE
                    (256 * Z.of_nat j + FT_FW_PKT_READ_LEN) data').
Proof.
  intros Hj. unfold FT_FW_MAX_SIZE, FT_FW_PKT_READ_LEN. cbn [fw_read_loop].
  assert (Hlt : (256 * Z.of_nat j <? 64 * 1024) = true) by (apply Z.ltb_lt; lia).
  rewrite Hlt.
  assert (Hlen : (64 * 1024 - 256 * Z.of_nat j <? FT_FW_PKT_READ_LEN) = false)
    by (apply Z.ltb_ge; unfold FT_FW_PKT_READ_LEN; lia).
  rewrite Hlen. reflexivity.
Qed.

Lemma fw_read_loop_done (fuel : nat) (data : list Z) :
  fw_read_loop (T := T) fuel addr FT_FW_MAX_SIZE (256 * Z.of_nat 256) data
  = ret (inr data).
Proof. destruct fuel; reflexivity. Qed.

(** One read packet. *)
Lemma runs_fw_receive_packet (j : nat) (data : list Z) (w : world T) :
  (j < 256)%nat ->
  List.length data = 256%nat ->
  exists r data' w' tr,
    runs (ft5x06_fw_receive_packet addr FT_FW_READ_REG (256 * Z.of_nat j)
            FT_FW_PKT_READ_LEN data) w (r, data') tr w' /\
    ops tr = [OpRead (read_cmd j) FT_FW_PKT_READ_LEN] /\
    List.length data' = 256%nat /\
    (reads_succeed T -> 0 <= r).
Proof.
  intros Hj Hlen. unfold ft5x06_fw_receive_packet.
  pose proof (runs_emit (Log (M_read_pkt FT_FW_READ_REG (256 * Z.of_nat j)
                                FT_FW_PKT_READ_LEN)) w) as H1.
  set (w1 := mkWorld (dev w) _) in H1.
  destruct (runs_i2c_read addr
              [FT_FW_READ_REG; 0; u8 (Z.shiftr (256 * Z.of_nat j) 8);
               u8 (256 * Z.of_nat j)] 4 data FT_FW_PKT_READ_LEN w1)
    as (w2 & H2).
  cbv zeta in H2.
  assert (Hcmd : (if 0 <? 4
                  then firstn (Z.to_nat 4)
                         [FT_FW_READ_REG; 0; u8 (Z.shiftr (256 * Z.of_nat j) 8);
                          u8 (256 * Z.of_nat j)]
                  else []) = read_cmd j).
  { change (if 0 <? 4 then firstn (Z.to_nat 4) ?l else [])
      with [FT_FW_READ_REG; 0; u8 (Z.shiftr (256 * Z.of_nat j) 8);
            u8 (256 * Z.of_nat j)].
    unfold read_cmd. rewrite u8_shiftr8. unfold u8.
    rewrite (Z.mod_small (256 * Z.of_nat j / 256)); [reflexivity |].
    split; [apply Z.div_pos; lia | apply Z.div_lt_upper_bound; lia]. }
  rewrite Hcmd in H2.
  set (x := xfer_read T (dev w1) (u16 addr) (read_cmd j) FT_FW_PKT_READ_LEN) in *.
  eexists _, _, w2, _. split; [| split; [| split]].
  - eapply runs_bind; [exact H1 | exact H2].
  - rewrite ops_app, ops_read_trace. reflexivity.
  - destruct (fst (fst x) <? 0); [exact Hlen |].
    unfold fill. rewrite length_app, received_length, length_skipn, Hlen.
    reflexivity.
  - intros Hok. apply Hok.
Qed.

(** The loop from packet [j]: it dumps each packet it read, and stops
    early exactly when a read transaction fails. *)
Lemma runs_fw_read_loop (fuel : nat) :
  forall (j : nat) (data : list Z) (w : world T),
    (j <= 256)%nat -> (256 - j <= fuel)%nat ->
    List.length data = 256%nat ->
    exists res w' tr bufs,
      runs (fw_read_loop fuel addr FT_FW_MAX_SIZE (256 * Z.of_nat j) data)
           w res tr w' /\
      Forall (fun b => List.length b = 256%nat) bufs /\
      (((exists d, res = inr d) /\
        List.length bufs = (256 - j)%nat /\ ops tr = read_ops j bufs)
       \/
       ((exists r, res = inl r /\ r < 0) /\
        (List.length bufs < 256 - j)%nat /\
        ops tr = read_ops j bufs
                 ++ [OpSleep 10;
                     OpRead (read_cmd (j + List.length bufs)) FT_FW_PKT_READ_LEN]))
      /\ (reads_succeed T -> exists d, res = inr d).
Proof.
  induction fuel as [| fuel IH]; intros j data w Hj Hfuel Hlen.
  - assert (j = 256%nat) as -> by lia.
    exists (inr data), w, [], []. rewrite fw_read_loop_done.
    split; [apply runs_ret |]. split; [constructor |].
    split; [left; repeat split; eauto | eauto].
  - destruct (Nat.eq_dec j 256) as [-> | Hne].
    { exists (inr data), w, [], []. rewrite fw_read_loop_done.
      split; [apply runs_ret |]. split; [constructor |].
      split; [left; repeat split; eauto | eauto]. }
    assert (Hj' : (j < 256)%nat) by lia.
    rewrite (fw_read_loop_step fuel j data Hj').
    pose proof (runs_emit (Msleep 10) w) as H1.
    set (w1 := mkWorld (dev w) _) in H1.
    destruct (runs_fw_receive_packet j data w1 Hj' Hlen)
      as (r & data' & w2 & t2 & H2 & Ho2 & Hlen' & Hok).
    destruct (r <? 0) eqn:Hr.
    + (* the transfer failed: return *)
      exists (inl r), w2. eexists. exists [].
      split; [| split; [constructor | split]].
      * eapply runs_bind; [exact H1 |].
        eapply runs_bind; [exact H2 |]. cbv iota beta. rewrite Hr.
        apply runs_ret.
      * right. split; [exists r; split; [reflexivity | now apply Z.ltb_lt] |].
        split; [change (0 < 256 - j)%nat; lia |].
        rewrite !ops_app, Ho2. simpl. now rewrite Nat.add_0_r.
      * intros Hsucc. apply Hok in Hsucc. apply Z.ltb_lt in Hr. lia.
    + pose proof (runs_emit
                    (FileWrite (firstn (Z.to_nat FT_FW_PKT_READ_LEN) data')) w2)
        as H3.
      set (w3 := mkWorld (dev w2) _) in H3.
      assert (Hfirst : firstn (Z.to_nat FT_FW_PKT_READ_LEN) data' = data').
      { apply firstn_all2. rewrite Hlen'. unfold FT_FW_PKT_READ_LEN. lia. }
      destruct (IH (S j) data' w3) as (res & w4 & t4 & bufs & H4 & Hall & Hcase
                                       & Hsucc); try lia.
      replace (256 * Z.of_nat (S j))
        with (256 * Z.of_nat j + FT_FW_PKT_READ_LEN) in H4
        by (unfold FT_FW_PKT_READ_LEN; lia).
      exists res, w4. eexists. exists (data' :: bufs).
      split; [| split; [constructor; assumption | split]].
      * eapply runs_bind; [exact H1 |].
        eapply runs_bind; [exact H2 |]. cbv iota beta. rewrite Hr.
        eapply runs_bind; [exact H3 | exact H4].
      * rewrite !ops_app, Ho2. rewrite Hfirst.
        destruct Hcase as [(Hres & Hl & Ho4) | (Hres & Hl & Ho4)];
          [left | right]; (split; [exact Hres |]);
          (split; [cbn [List.length]; lia |]);
          rewrite Ho4; simpl; try reflexivity.
        now rewrite Nat.add_succ_r.
      * exact Hsucc.
Qed.

End ReadEngine.

Section ReadRun.

Context {T : transport}.
Variables (addr id : Z) (info : ft5x06_fw_update_info).
Hypothesis Hinfo : ft5x06_get_info id = Some info.

(** The whole run of [ft5x06_fw_read]: bootloader entry ([t0]), then the
    packets and, if none failed, the firmware reset ([t]). *)
Lemma runs_fw_read (w : world T) :
  exists r0 w0 t0 r w' t,
    runs (ft5x06_init_upgrade addr id) w r0 t0 w0 /\
    runs (ft5x06_fw_read addr id) w r (t0 ++ t) w' /\
    ((r0 = - EIO /\ r = - EIO /\ t = [])
     \/
     (r0 = 0 /\
      exists bufs,
        Forall (fun b => List.length b = 256%nat) bufs /\
        ((r = 0 /\ List.length bufs = 256%nat /\
          ops t = read_ops 0 bufs ++ [OpWrite [FT_REG_RESET_FW]; OpSleep 100])
         \/
         (r < 0 /\ (List.length bufs < 256)%nat /\
          ops t = read_ops 0 bufs
                  ++ [OpSleep 10;
                      OpRead (read_cmd (List.length bufs)) FT_FW_PKT_READ_LEN]))
        /\ (reads_succeed T -> r = 0))).
Proof.
  destruct (init_upgrade_total addr id info Hinfo w)
    as (r0 & w0 & t0 & H0 & Hr0 & _).
  exists r0, w0, t0. unfold ft5x06_fw_read.
  destruct Hr0 as [-> | ->].
  2:{ exists (- EIO), w0, []. split; [exact H0 |]. split.
      - eapply runs_bind; [exact H0 | apply runs_ret].
      - left. repeat split. }
  pose proof (runs_emit (Log M_read_fw_from_flash) w0) as H1.
  set (w1 := mkWorld (dev w0) _) in H1.
  destruct (runs_fw_read_loop addr
              (Z.to_nat (FT_FW_MAX_SIZE / FT_FW_PKT_READ_LEN + 1)) 0
              (repeat 0 (Z.to_nat FT_FW_PKT_READ_LEN)) w1)
    as (res & w2 & t2 & bufs & H2 & Hall & Hcase & Hsucc);
    [lia | vm_compute; lia | reflexivity |].
  change (256 * Z.of_nat 0) with 0 in H2.
  destruct Hcase as [((d & ->) & Hl & Ho2) | ((r & -> & Hr) & Hl & Ho2)].
  - (* every packet was read *)
    pose proof (runs_emit (Log M_reset_new_fw) w2) as H3.
    set (w3 := mkWorld (dev w2) _) in H3.
    destruct (runs_i2c_write addr [FT_REG_RESET_FW; 0; 0; 0] 1 w3)
      as (r4 & w4 & H4).
    simpl firstn in H4.
    pose proof (runs_emit (Msleep 100) w4) as H5.
    eexists 0, _, _. split; [exact H0 |]. split.
    + eapply runs_bind; [exact H0 |]. simpl (0 <? 0). cbv iota.
      eapply runs_bind; [exact H1 |].
      eapply runs_bind; [exact H2 |]. cbv iota beta.
      eapply runs_bind; [exact H3 |].
      eapply runs_bind; [exact H4 |].
      eapply runs_bind; [exact H5 | apply runs_ret].
    + right. split; [reflexivity |]. exists bufs. split; [exact Hall |].
      split; [| reflexivity].
      left. split; [reflexivity |]. split; [exact Hl |].
      rewrite !ops_app, Ho2, ops_write_trace. reflexivity.
  - (* a read failed *)
    eexists r, _, _. split; [exact H0 |]. split.
    + eapply runs_bind; [exact H0 |]. simpl (0 <? 0). cbv iota.
      eapply runs_bind; [exact H1 |].
      eapply runs_bind; [exact H2 | apply runs_ret].
    + right. split; [reflexivity |]. exists bufs. split; [exact Hall |].
      split.
      * right. split; [exact Hr |]. split; [lia |].
        rewrite !ops_app, Ho2. simpl. now rewrite app_nil_r.
      * intros Hok. destruct (Hsucc Hok) as [d Hd]. discriminate Hd.
Qed.

End ReadRun.

(** ** The dump, event by event *)

Lemma ops_read_events (oks : list (Z * list Z)) :
  forall k, ops (read_events k oks) = read_ops k (map snd oks).
Proof.
  induction oks as [| p oks IH]; intros k; [reflexivity |].
  unfold ops in *. cbn [read_events flat_map op_of app map read_ops].
  now rewrite IH.
Qed.

Lemma file_writes_read_events (oks : list (Z * list Z)) :
  forall k, file_writes (read_events k oks) = map snd oks.
Proof.
  induction oks as [| p oks IH]; intros k; [reflexivity |].
  unfold file_writes in *. cbn [read_events flat_map app map].
  now rewrite IH.
Qed.

(** The bytes handed to [write] are its buffers end to end. *)
Lemma dumped_file_writes (tr : list event) :
  dumped tr = List.concat (file_writes tr).
Proof.
  induction tr as [| e tr IH]; [reflexivity |].
  change (e :: tr) with ([e] ++ tr).
  rewrite dumped_app, file_writes_app, concat_app, <- IH. f_equal.
  destruct e; reflexivity.
Qed.

Lemma accepted_bytes_complete (chunks : list (list Z)) :
  accepted_bytes chunks [] = List.concat chunks.
Proof.
  induction chunks as [| c cs IH]; [reflexivity |].
  cbn [accepted_bytes hd tl List.concat]. rewrite IH. f_equal.
  unfold accepted.
  assert (Hpos : (Z.of_nat (List.length c) <? 0) = false)
    by (apply Z.ltb_ge; lia).
  rewrite Hpos, Nat2Z.id. apply firstn_all.
Qed.

(** With complete writes the file is the dumped bytes over its old
    contents. *)
Lemma file_after_complete (pre : list Z) (tr : list event) :
  file_after pre [] tr = dumped tr ++ skipn (List.length (dumped tr)) pre.
Proof.
  unfold file_after. now rewrite accepted_bytes_complete, dumped_file_writes.
Qed.

Lemma firstn_add_skipn {A} (a b : nat) (l : list A) :
  firstn (a + b) l = firstn a l ++ firstn b (skipn a l).
Proof.
  revert l. induction a as [| a IH]; intros l; [reflexivity |].
  destruct l as [| x l]; [cbn [skipn]; now rewrite !firstn_nil |].
  cbn [Nat.add firstn skipn app]. now rewrite IH.
Qed.

(** Consecutive blocks of an image tile it. *)
Lemma concat_chunks (F : list Z) (m : nat) :
  forall j, List.concat (map (chunk F) (seq j m))
            = firstn (256 * m) (skipn (256 * j) F).
Proof.
  induction m as [| m IH]; intros j.
  - now rewrite Nat.mul_0_r.
  - cbn [seq map List.concat]. rewrite IH. unfold chunk.
    replace (256 * S m)%nat with (256 + 256 * m)%nat by lia.
    rewrite firstn_add_skipn, skipn_skipn. do 3 f_equal. lia.
Qed.

Section ReadByTransport.

Context {T : transport}.
Variable addr : Z.

(** One read packet, by what the transport answers. *)
Lemma runs_fw_receive_packet_io (j : nat) (data : list Z) (w : world T) :
  (j < 256)%nat ->
  List.length data = 256%nat ->
  let x := xfer_read T (dev w) (u16 addr) (read_cmd j) FT_FW_PKT_READ_LEN in
  let data' := if fst (fst x) <? 0 then data
               else received FT_FW_PKT_READ_LEN (snd (fst x)) in
  exists w',
    runs (ft5x06_fw_receive_packet addr FT_FW_READ_REG (256 * Z.of_nat j)
            FT_FW_PKT_READ_LEN data) w (fst (fst x), data')
         (Log (M_read_pkt FT_FW_READ_REG (256 * Z.of_nat j) FT_FW_PKT_READ_LEN)
          :: I2cRead (read_cmd j) FT_FW_PKT_READ_LEN (fst (fst x)) data'
          :: (if fst (fst x) <? 0
              then [Err (M_i2c_read_error (fst (fst x)))] else [])) w' /\
    List.length data' = 256%nat.
Proof.
  intros Hj Hlen. cbv zeta. unfold ft5x06_fw_receive_packet.
  pose proof (runs_emit (Log (M_read_pkt FT_FW_READ_REG (256 * Z.of_nat j)
                                FT_FW_PKT_READ_LEN)) w) as H1.
  set (w1 := mkWorld (dev w) _) in H1.
  destruct (runs_i2c_read addr
              [FT_FW_READ_REG; 0; u8 (Z.shiftr (256 * Z.of_nat j) 8);
               u8 (256 * Z.of_nat j)] 4 data FT_FW_PKT_READ_LEN w1)
    as (w2 & H2).
  cbv zeta in H2.
  assert (Hcmd : (if 0 <? 4
                  then firstn (Z.to_nat 4)
                         [FT_FW_READ_REG; 0; u8 (Z.shiftr (256 * Z.of_nat j) 8);
                          u8 (256 * Z.of_nat j)]
                  else []) = read_cmd j).
  { change (if 0 <? 4 then firstn (Z.to_nat 4) ?l else [])
      with [FT_FW_READ_REG; 0; u8 (Z.shiftr (256 * Z.of_nat j) 8);
            u8 (256 * Z.of_nat j)].
    unfold read_cmd. rewrite u8_shiftr8. unfold u8.
    rewrite (Z.mod_small (256 * Z.of_nat j / 256)); [reflexivity |].
    split; [apply Z.div_pos; lia | apply Z.div_lt_upper_bound; lia]. }
  rewrite Hcmd in H2. change (dev w1) with (dev w) in H2.
  set (x := xfer_read T (dev w) (u16 addr) (read_cmd j) FT_FW_PKT_READ_LEN) in *.
  assert (Hbuf : (if fst (fst x) <? 0 then data
                  else fill data FT_FW_PKT_READ_LEN (snd (fst x)))
                 = (if fst (fst x) <? 0 then data
                    else received FT_FW_PKT_READ_LEN (snd (fst x)))).
  { destruct (fst (fst x) <? 0); [reflexivity |]. unfold fill.
    rewrite skipn_all2 by (rewrite Hlen; vm_compute; lia).
    apply app_nil_r. }
  rewrite Hbuf in H2.
  assert (Hl : List.length (if fst (fst x) <? 0 then data
                            else received FT_FW_PKT_READ_LEN (snd (fst x)))
               = 256%nat).
  { destruct (fst (fst x) <? 0); [exact Hlen | apply received_length]. }
  unfold read_trace in H2.
  rewrite (firstn_all2 (n := Z.to_nat FT_FW_PKT_READ_LEN)) in H2
    by (rewrite Hl; vm_compute; lia).
  exists w2. split; [| exact Hl].
  eapply runs_trace_eq; [eapply runs_bind; [exact H1 | exact H2] |].
  reflexivity.
Qed.

(** The loop from packet [j], event by event: the packets that succeeded,
    each with the bytes delivered and written to the file, then either
    nothing or the one failing transaction. *)
Lemma runs_fw_read_loop_io (fuel : nat) :
  forall (j : nat) (data : list Z) (w : world T),
    (j <= 256)%nat -> (256 - j <= fuel)%nat ->
    List.length data = 256%nat ->
    exists res w' oks tail,
      runs (fw_read_loop fuel addr FT_FW_MAX_SIZE (256 * Z.of_nat j) data)
           w res (read_events j oks ++ tail) w' /\
      Forall (fun p => 0 <= fst p /\ List.length (snd p) = 256%nat) oks /\
      (((exists d, res = inr d) /\
        List.length oks = (256 - j)%nat /\ tail = [])
       \/
       (exists io stale,
           res = inl io /\ io < 0 /\
           (List.length oks < 256 - j)%nat /\
           tail = failed_read (j + List.length oks) io stale)) /\
      (reads_succeed T -> exists d, res = inr d) /\
      (forall F, serves T F ->
                 (exists d, res = inr d) /\
                 map snd oks = map (chunk F) (seq j (256 - j))).
Proof.
  assert (Hend : forall fuel data (w : world T),
             exists res w' oks tail,
               runs (fw_read_loop fuel addr FT_FW_MAX_SIZE
                       (256 * Z.of_nat 256) data)
                    w res (read_events 256 oks ++ tail) w' /\
               Forall (fun p => 0 <= fst p /\ List.length (snd p) = 256%nat)
                      oks /\
               (((exists d, res = inr d) /\
                 List.length oks = (256 - 256)%nat /\ tail = [])
                \/
                (exists io stale,
                    res = inl io /\ io < 0 /\
                    (List.length oks < 256 - 256)%nat /\
                    tail = failed_read (256 + List.length oks) io stale)) /\
               (reads_succeed T -> exists d, res = inr d) /\
               (forall F, serves T F ->
                          (exists d, res = inr d) /\
                          map snd oks = map (chunk F) (seq 256 (256 - 256)))).
  { intros f data w. exists (inr data), w, [], [].
    rewrite fw_read_loop_done.
    split; [apply runs_ret |]. split; [constructor |].
    split; [left; repeat split; eauto |].
    split; [eauto | intros F _; split; [eauto | reflexivity]]. }
  induction fuel as [| fuel IH]; intros j data w Hj Hfuel Hlen.
  - assert (j = 256%nat) as -> by lia. apply Hend.
  - destruct (Nat.eq_dec j 256) as [-> | Hne]; [apply Hend |].
    assert (Hj' : (j < 256)%nat) by lia.
    rewrite (fw_read_loop_step addr fuel j data Hj').
    pose proof (runs_emit (Msleep 10) w) as H1.
    set (w1 := mkWorld (dev w) _) in H1.
    destruct (runs_fw_receive_packet_io j data w1 Hj' Hlen) as (w2 & H2 & Hlen').
    cbv zeta in H2, Hlen'. change (dev w1) with (dev w) in H2, Hlen'.
    pose proof (fun Hs : reads_succeed T =>
                  Hs (dev w) (u16 addr) (read_cmd j) FT_FW_PKT_READ_LEN)
      as Hsucc1.
    pose proof (fun F (Hs : serves T F) => Hs (dev w) (u16 addr) j Hj')
      as Hserv1.
    destruct (xfer_read T (dev w) (u16 addr) (read_cmd j) FT_FW_PKT_READ_LEN)
      as [[io d] s].
    cbn [fst snd] in H2, Hlen', Hsucc1, Hserv1.
    destruct (io <? 0) eqn:Hr.
    + (* the transfer failed: return *)
      apply Z.ltb_lt in Hr.
      exists (inl io), w2, [], (failed_read j io data).
      split; [| split; [constructor | split; [| split]]].
      * eapply runs_trace_eq.
        -- eapply runs_bind; [exact H1 |].
           eapply runs_bind; [exact H2 |]. cbv iota beta.
           apply Z.ltb_lt in Hr. rewrite Hr. apply runs_ret.
        -- reflexivity.
      * right. exists io, data. split; [reflexivity |]. split; [exact Hr |].
        split; [change (0 < 256 - j)%nat; lia |].
        now rewrite Nat.add_0_r.
      * intros Hs. specialize (Hsucc1 Hs). lia.
      * intros F Hs. destruct (Hserv1 F Hs) as [Hpos _]. lia.
    + apply Z.ltb_ge in Hr.
      set (data' := received FT_FW_PKT_READ_LEN d) in *.
      pose proof (runs_emit
                    (FileWrite (firstn (Z.to_nat FT_FW_PKT_READ_LEN) data')) w2)
        as H3.
      set (w3 := mkWorld (dev w2) _) in H3.
      assert (Hfirst : firstn (Z.to_nat FT_FW_PKT_READ_LEN) data' = data').
      { apply firstn_all2. rewrite Hlen'. vm_compute. lia. }
      rewrite Hfirst in H3.
      destruct (IH (S j) data' w3)
        as (res & w4 & oks & tail & H4 & Hall & Hcase & Hsucc & Hserv);
        try lia.
      replace (256 * Z.of_nat (S j))
        with (256 * Z.of_nat j + FT_FW_PKT_READ_LEN) in H4
        by (unfold FT_FW_PKT_READ_LEN; lia).
      exists res, w4, ((io, data') :: oks), tail.
      split; [| split; [| split; [| split]]].
      * eapply runs_trace_eq.
        -- eapply runs_bind; [exact H1 |].
           eapply runs_bind; [exact H2 |]. cbv iota beta.
           apply Z.ltb_ge in Hr. rewrite Hr. rewrite Hfirst.
           eapply runs_bind; [exact H3 | exact H4].
        -- reflexivity.
      * constructor; [split; assumption | exact Hall].
      * destruct Hcase as [(Hres & Hl & ->)
                          | (io' & stale & Hres & Hneg & Hl & ->)].
        -- left. split; [exact Hres |]. split; [cbn [List.length]; lia |].
           reflexivity.
        -- right. exists io', stale. split; [exact Hres |].
           split; [exact Hneg |]. split; [cbn [List.length]; lia |].
           cbn [List.length]. now rewrite Nat.add_succ_r.
      * exact Hsucc.
      * intros F Hs. destruct (Hserv F Hs) as [Hres Hmap].
        split; [exact Hres |].
        replace (256 - j)%nat with (S (256 - S j)) by lia.
        cbn [seq map snd]. rewrite Hmap.
        destruct (Hserv1 F Hs) as [_ Hd]. fold data' in Hd. now rewrite Hd.
Qed.

End ReadByTransport.

Section ReadRunIo.

Context {T : transport}.
Variables (addr id : Z) (info : ft5x06_fw_update_info).
Hypothesis Hinfo : ft5x06_get_info id = Some info.

(** The whole run of [ft5x06_fw_read], event by event. *)
Lemma runs_fw_read_io (w : world T) :
  exists r0 w0 t0 r w' t,
    runs (ft5x06_init_upgrade addr id) w r0 t0 w0 /\
    runs (ft5x06_fw_read addr id) w r (t0 ++ t) w' /\
    ((r0 = - EIO /\ r = - EIO /\ t = [])
     \/
     (r0 = 0 /\
      exists oks tail,
        t = Log M_read_fw_from_flash :: read_events 0 oks ++ tail /\
        Forall (fun p => 0 <= fst p /\ List.length (snd p) = 256%nat) oks /\
        ((r = 0 /\ List.length oks = 256%nat /\
          exists r4, tail = Log M_reset_new_fw
                            :: write_trace [FT_REG_RESET_FW] r4 ++ [Msleep 100])
         \/
         (exists stale,
             r < 0 /\ (List.length oks < 256)%nat /\
             tail = failed_read (List.length oks) r stale)) /\
        (reads_succeed T -> r = 0) /\
        (forall F, serves T F ->
                   r = 0 /\ map snd oks = map (chunk F) (seq 0 256)))).
Proof.
  destruct (init_upgrade_total addr id info Hinfo w)
    as (r0 & w0 & t0 & H0 & Hr0 & _).
  exists r0, w0, t0. unfold ft5x06_fw_read.
  destruct Hr0 as [-> | ->].
  2:{ exists (- EIO), w0, []. split; [exact H0 |]. split.
      - eapply runs_bind; [exact H0 | apply runs_ret].
      - left. repeat split. }
  pose proof (runs_emit (Log M_read_fw_from_flash) w0) as H1.
  set (w1 := mkWorld (dev w0) _) in H1.
  destruct (runs_fw_read_loop_io addr
              (Z.to_nat (FT_FW_MAX_SIZE / FT_FW_PKT_READ_LEN + 1)) 0
              (repeat 0 (Z.to_nat FT_FW_PKT_READ_LEN)) w1)
    as (res & w2 & oks & tail & H2 & Hall & Hcase & Hsucc & Hserv);
    [lia | vm_compute; lia | reflexivity |].
  change (256 * Z.of_nat 0) with 0 in H2.
  destruct Hcase as [((d & ->) & Hl & ->)
                    | (io & stale & -> & Hneg & Hl & ->)].
  - (* every packet was read *)
    pose proof (runs_emit (Log M_reset_new_fw) w2) as H3.
    set (w3 := mkWorld (dev w2) _) in H3.
    destruct (runs_i2c_write addr [FT_REG_RESET_FW; 0; 0; 0] 1 w3)
      as (r4 & w4 & H4).
    simpl firstn in H4.
    pose proof (runs_emit (Msleep 100) w4) as H5.
    exists 0. eexists _, _. split; [exact H0 |]. split.
    + eapply runs_bind; [exact H0 |]. simpl (0 <? 0). cbv iota.
      eapply runs_bind; [exact H1 |].
      eapply runs_bind; [exact H2 |]. cbv iota beta.
      eapply runs_bind; [exact H3 |].
      eapply runs_bind; [exact H4 |].
      eapply runs_bind; [exact H5 | apply runs_ret].
    + right. split; [reflexivity |].
      exists oks, (Log M_reset_new_fw
                   :: write_trace [FT_REG_RESET_FW] r4 ++ [Msleep 100]).
      split; [now rewrite !app_nil_r |]. split; [exact Hall |].
      split; [left; split; [reflexivity |]; split; [exact Hl | now exists r4] |].
      split; [reflexivity |].
      intros F Hs. split; [reflexivity |]. exact (proj2 (Hserv F Hs)).
  - (* a read failed *)
    exists io. eexists _, _. split; [exact H0 |]. split.
    + eapply runs_bind; [exact H0 |]. simpl (0 <? 0). cbv iota.
      eapply runs_bind; [exact H1 |].
      eapply runs_bind; [exact H2 | apply runs_ret].
    + right. split; [reflexivity |].
      exists oks, (failed_read (List.length oks) io stale).
      split; [now rewrite !app_nil_r |]. split; [exact Hall |].
      split; [right; exists stale; split; [exact Hneg |]; split; [lia |];
              reflexivity |].
      split.
      * intros Hs. destruct (Hsucc Hs) as [d Hd]. discriminate Hd.
      * intros F Hs. destruct (Hserv F Hs) as [[d Hd] _]. discriminate Hd.
Qed.

End ReadRunIo.

(** ** A chip that serves a flash image *)

Lemma Forall_firstn_of {A} (P : A -> Prop) (n : nat) :
  forall l, Forall P l -> Forall P (firstn n l).
Proof.
  induction n as [| n IH]; intros l Hl; [constructor |].
  destruct Hl as [| x l Hx Hl]; [constructor |].
  cbn [firstn]. constructor; [exact Hx | now apply IH].
Qed.

Lemma Forall_skipn_of {A} (P : A -> Prop) (n : nat) :
  forall l, Forall P l -> Forall P (skipn n l).
Proof.
  induction n as [| n IH]; intros l Hl; [exact Hl |].
  destruct Hl as [| x l Hx Hl]; [constructor |].
  cbn [skipn]. now apply IH.
Qed.

Lemma map_u8_bytes (l : list Z) : Forall is_byte l -> map u8 l = l.
Proof.
  induction 1 as [| x l Hx _ IH]; [reflexivity |].
  cbn [map]. now rewrite IH, (u8_byte x Hx).
Qed.

Lemma flash_chip_serves (c : fake_cfg) (F : list Z) :
  Forall is_byte F ->
  Z.of_nat (List.length F) = 65536 ->
  (forall wr, 0 <= f_rret c wr) ->
  serves (flash_chip c F) F.
Proof.
  intros Hb Hl Hr d a k Hk. unfold read_cmd.
  cbn [flash_chip xfer_read]. rewrite Z.eqb_refl.
  split; [apply Hr |].
  rewrite <- Z.div_mod by lia.
  replace (Z.to_nat (256 * Z.of_nat k)) with (256 * k)%nat by lia.
  change (Z.to_nat FT_FW_PKT_READ_LEN) with 256%nat.
  fold (chunk F k). unfold received.
  assert (Hlen : List.length (chunk F k) = 256%nat).
  { unfold chunk. rewrite length_firstn, length_skipn. lia. }
  rewrite map_u8_bytes
    by (unfold chunk; apply Forall_firstn_of, Forall_skipn_of, Hb).
  change (Z.to_nat FT_FW_PKT_READ_LEN) with 256%nat.
  rewrite firstn_app, Hlen, Nat.sub_diag, firstn_O, app_nil_r.
  apply firstn_all2. lia.
Qed.

Lemma mod_251_bytes (l : list nat) :
  Forall is_byte (map (fun i => Z.of_nat i mod 251) l).
Proof.
  induction l as [| i l IH]; [constructor |].
  cbn [map]. constructor; [| exact IH].
  unfold is_byte. pose proof (Z.mod_pos_bound (Z.of_nat i) 251 ltac:(lia)).
  lia.
Qed.

Lemma flash_image_bytes : Forall is_byte flash_image.
Proof. exact (mod_251_bytes _). Qed.

Lemma flash_image_length : Z.of_nat (List.length flash_image) = 65536.
Proof. unfold flash_image. rewrite length_map, length_seq. lia. Qed.

(** C8 as stated fails where it speaks of the output file.  The dump of a
    chip that works returns 0 and hands 65536 bytes to [write], but the
    file, which [main] opens without [O_TRUNC], keeps the tail of a longer
    file it overwrites: a file of 70000 bytes is 70000 bytes long after the
    dump.  And since the result of [write] is not looked at, a first
    [write] that fails leaves a new file of 65280 bytes. *)
Lemma fw_read_keeps_longer_file :
  exists w',
    ft5x06_fw_read 0x38 FT5x06_ID (boot (good_ft5x06 0)) = Some (0, w') /\
    Z.of_nat (List.length (dumped (trace w'))) = 65536 /\
    Z.of_nat (List.length
                (file_after (repeat 0xEE (Z.to_nat 70000)) [] (trace w')))
    = 70000 /\
    Z.of_nat (List.length (file_after [] [-1] (trace w'))) = 65280.
Proof.
  eexists. split; [vm_compute; reflexivity |].
  repeat split; vm_compute; reflexivity.
Qed.

(** C8, amended.  The [k]-th read packet is the four-byte command
    [{0x03, 0x00, high(256 k), low(256 k)}] followed by a 256-byte read.  A
    dump that returns 0 (as it does once bootloader entry has succeeded and
    no read transaction fails) consists, after entry, of the 256 packets at
    offsets 0, 256, ..., 65280, each followed by a [write] of the 256 bytes
    the chip delivered for it, 65536 bytes in all, and then the single byte
    0x07, which is the last write on the bus.  The output file is not
    truncated and the result of [write] is not checked: when every [write]
    is complete the file holds these 65536 bytes followed by whatever a
    longer file held beyond them, so it is 65536 bytes long exactly when
    it held at most 65536 bytes before.  Against a chip whose bootloader
    serves the flash image [F], the bytes dumped are the first 65536 bytes
    of [F]. *)
Theorem fw_read_dumps_64k (T : transport) (addr id : Z)
        (info : ft5x06_fw_update_info) (w : world T) :
  ft5x06_get_info id = Some info ->
  (forall k : nat,
      (k < 256)%nat ->
      read_cmd k = [0x03; 0x00; Z.of_nat k; 0] /\
      256 * Z.of_nat k <= 65280) /\
  exists r0 w0 t0 r w' t,
    runs (ft5x06_init_upgrade addr id) w r0 t0 w0 /\
    runs (ft5x06_fw_read addr id) w r (t0 ++ t) w' /\
    (enter_accepted T -> always_id T info -> r0 = 0) /\
    (r0 = 0 -> reads_succeed T -> r = 0) /\
    (r = 0 ->
     exists oks tail,
       t = Log M_read_fw_from_flash :: read_events 0 oks ++ tail /\
       List.length oks = 256%nat /\
       Forall (fun p => 0 <= fst p /\ List.length (snd p) = 256%nat) oks /\
       ops t = read_ops 0 (map snd oks)
               ++ [OpWrite [FT_REG_RESET_FW]; OpSleep 100] /\
       file_writes (t0 ++ t) = map snd oks /\
       dumped (t0 ++ t) = List.concat (map snd oks) /\
       Z.of_nat (List.length (dumped (t0 ++ t))) = 65536 /\
       last (writes (t0 ++ t)) [] = [FT_REG_RESET_FW] /\
       (forall pre,
           file_after pre [] (t0 ++ t)
           = dumped (t0 ++ t) ++ skipn (Z.to_nat 65536) pre) /\
       (forall pre,
           Z.of_nat (List.length (file_after pre [] (t0 ++ t)))
           = Z.max 65536 (Z.of_nat (List.length pre)))) /\
    (forall F, serves T F -> r0 = 0 ->
               r = 0 /\ dumped (t0 ++ t) = firstn (Z.to_nat 65536) F).
Proof.
  intros Hinfo. split.
  - intros k Hk. split; [| lia]. unfold read_cmd.
    replace (256 * Z.of_nat k / 256) with (Z.of_nat k)
      by (rewrite Z.mul_comm, Z.div_mul; lia).
    replace ((256 * Z.of_nat k) mod 256) with 0
      by (rewrite Z.mul_comm, Z.mod_mul; lia).
    reflexivity.
  - destruct (runs_fw_read_io addr id info Hinfo w)
      as (r0 & w0 & t0 & r & w' & t & H0 & Hrun & Hcase).
    exists r0, w0, t0, r, w', t. split; [exact H0 |]. split; [exact Hrun |].
    split.
    { intros Hacc Hid.
      apply (init_upgrade_at_once_result addr id info Hinfo w r0 t0 w0
               Hacc Hid H0). }
    pose proof (init_upgrade_no_file addr id info w r0 t0 w0 Hinfo H0) as Hnf.
    destruct Hcase as [(-> & -> & ->)
                      | (-> & oks & tail & -> & Hall & Hres & Hsucc & Hserv)].
    + split; [intros Habs; discriminate Habs |].
      split; [intros Habs; discriminate Habs |].
      intros F _ Habs. discriminate Habs.
    + assert (Hfw : forall r4,
                 tail = Log M_reset_new_fw
                        :: write_trace [FT_REG_RESET_FW] r4 ++ [Msleep 100] ->
                 file_writes
                   (t0 ++ Log M_read_fw_from_flash :: read_events 0 oks ++ tail)
                 = map snd oks).
      { intros r4 ->. rewrite file_writes_app, Hnf.
        change (Log M_read_fw_from_flash
                :: read_events 0 oks
                   ++ Log M_reset_new_fw
                      :: write_trace [FT_REG_RESET_FW] r4 ++ [Msleep 100])
          with ([Log M_read_fw_from_flash]
                  ++ read_events 0 oks
                  ++ [Log M_reset_new_fw]
                  ++ write_trace [FT_REG_RESET_FW] r4 ++ [Msleep 100]).
        rewrite !file_writes_app, file_writes_read_events.
        unfold write_trace. destruct (r4 <? 0); simpl; now rewrite app_nil_r. }
      assert (Hlen : List.length oks = 256%nat ->
                     Z.of_nat (List.length (List.concat (map snd oks))) = 65536).
      { intros Hl.
        rewrite (length_concat_uniform 256), length_map, Hl; [reflexivity |].
        apply Forall_map. eapply Forall_impl; [| exact Hall].
        intros p Hp. exact (proj2 Hp). }
      split; [intros _; exact Hsucc |]. split.
      * intros ->.
        destruct Hres as [(_ & Hl & r4 & Htail) | (stale & Hneg & _)]; [| lia].
        exists oks, tail. split; [reflexivity |]. split; [exact Hl |].
        split; [exact Hall |].
        pose proof (Hfw r4 Htail) as Hfiles.
        assert (Hd : dumped (t0 ++ Log M_read_fw_from_flash
                                :: read_events 0 oks ++ tail)
                     = List.concat (map snd oks))
          by (now rewrite dumped_file_writes, Hfiles).
        assert (Hops : ops (Log M_read_fw_from_flash
                            :: read_events 0 oks ++ tail)
                       = read_ops 0 (map snd oks)
                         ++ [OpWrite [FT_REG_RESET_FW]; OpSleep 100]).
        { subst tail.
          change (Log M_read_fw_from_flash
                  :: read_events 0 oks
                     ++ Log M_reset_new_fw
                        :: write_trace [FT_REG_RESET_FW] r4 ++ [Msleep 100])
            with ([Log M_read_fw_from_flash]
                    ++ read_events 0 oks
                    ++ [Log M_reset_new_fw]
                    ++ write_trace [FT_REG_RESET_FW] r4 ++ [Msleep 100]).
          rewrite !ops_app, ops_read_events, ops_write_trace. reflexivity. }
        split; [exact Hops |]. split; [exact Hfiles |]. split; [exact Hd |].
        split; [rewrite Hd; exact (Hlen Hl) |]. split; [| split].
        -- rewrite writes_app. unfold writes at 2. rewrite Hops, op_writes_app.
           rewrite op_writes_read_ops.
           change (op_writes [OpWrite [FT_REG_RESET_FW]; OpSleep 100])
             with [[FT_REG_RESET_FW]].
           rewrite app_nil_l. apply last_last.
        -- intros pre. rewrite file_after_complete. do 2 f_equal.
           rewrite Hd. specialize (Hlen Hl). lia.
        -- intros pre. rewrite file_after_complete, length_app, length_skipn.
           rewrite Hd. specialize (Hlen Hl). lia.
      * intros F Hs _. destruct (Hserv F Hs) as [-> Hmap].
        split; [reflexivity |].
        destruct Hres as [(_ & Hl & r4 & Htail) | (stale & Hneg & _)]; [| lia].
        rewrite dumped_file_writes, (Hfw r4 Htail), Hmap, concat_chunks.
        change (256 * 0)%nat with 0%nat. cbn [skipn].
        replace (256 * 256)%nat with (Z.to_nat 65536) by lia. reflexivity.
Qed.

(** C8 amended, on an FT5x06 whose flash holds [flash_image]: entry
    succeeds, the dump returns 0, the bytes dumped are the image, and a new
    file is 65536 bytes long. *)
Lemma fw_read_dumps_64k_witness :
  exists w0 t0 w' t,
    runs (ft5x06_init_upgrade 0x38 FT5x06_ID)
         (boot_flash (good_ft5x06 0) flash_image) 0 t0 w0 /\
    runs (ft5x06_fw_read 0x38 FT5x06_ID)
         (boot_flash (good_ft5x06 0) flash_image) 0 (t0 ++ t) w' /\
    dumped (t0 ++ t) = flash_image /\
    Z.of_nat (List.length (file_after [] [] (t0 ++ t))) = 65536 /\
    last (writes (t0 ++ t)) [] = [FT_REG_RESET_FW].
Proof.
  destruct (fw_read_dumps_64k (flash_chip (good_ft5x06 0) flash_image) 0x38
              FT5x06_ID _ (boot_flash (good_ft5x06 0) flash_image) eq_refl)
    as (_ & r0 & w0 & t0 & r & w' & t & H0 & Hrun & Hentry & _ & Hok & Hserv).
  assert (r0 = 0) as ->.
  { apply Hentry; intros d a; cbn; [lia | split; [lia | reflexivity]]. }
  destruct (Hserv flash_image) as [-> Hd]; [| reflexivity |].
  { apply flash_chip_serves;
      [exact flash_image_bytes | exact flash_image_length | intros wr; cbn; lia]. }
  destruct (Hok eq_refl) as (oks & tail & _ & _ & _ & _ & _ & _ & _ & Hlast
                             & _ & Hfile).
  exists w0, t0, w', t. split; [exact H0 |]. split; [exact Hrun |].
  split; [| split; [exact (Hfile []) | exact Hlast]].
  rewrite Hd. apply firstn_all2. pose proof flash_image_length. lia.
Defined.

(** ** The command line and the exit status *)

(** C9.  The parser knows the long form of [-o] only under the misspelt
    name [--ouput]: given [--output] as its first option, [main] prints the
    usage text and exits with status 1 without touching the bus, where the
    same command line with [-o] or [--ouput] is accepted.  The usage text
    of [show_help] documents the flag as [--output]. *)
Theorem main_rejects_long_output (T : transport) (H : host)
        (prog path : string) (rest : list string) (w : world T) :
  main H (prog :: "--output"%string :: path :: rest) w
  = Some (1, mkWorld (dev w) (trace w ++ [Log (M_usage prog)])) /\
  exit_status 1 <> 0 /\
  parse_args ["-o"%string; path] default_options
  = Parsed (mkOptions None (Some path) 2 0x38 (-1)) /\
  parse_args ["--ouput"%string; path] default_options
  = Parsed (mkOptions None (Some path) 2 0x38 (-1)).
Proof.
  repeat split. discriminate.
Qed.

(** Once the bus device is open and the slave address set, whatever
    happens afterwards, [main] returns 0. *)
Lemma main_zero_past_setup (T : transport) (H : host) (argv : list string)
      (o : options) (w : world T) (code : Z) (w' : world T) :
  parse_args (tl argv) default_options = Parsed o ->
  0 <= open_i2c H (o_bus o) ->
  set_slave H (o_addr o) = 0 ->
  main H argv w = Some (code, w') ->
  code = 0.
Proof.
  intros Hparse Hfd Hslave Hrun. unfold main in Hrun. rewrite Hparse in Hrun.
  destruct ((o_bus o <? -99999) || (999999 <? o_bus o)); [discriminate Hrun |].
  unfold bind at 1, LOG at 1, emit at 1 in Hrun. cbv beta iota zeta in Hrun.
  assert (Hfd' : (open_i2c H (o_bus o) <? 0) = false) by (apply Z.ltb_ge; lia).
  rewrite Hfd' in Hrun.
  unfold bind at 1, LOG at 1, emit at 1 in Hrun. cbv beta iota in Hrun.
  rewrite Hslave in Hrun. simpl (negb (0 =? 0)) in Hrun. cbv iota in Hrun.
  unfold bind at 1 in Hrun.
  destruct (main_session H o _) as [[u w1] |]; [| discriminate Hrun].
  now inversion Hrun.
Qed.

(** C1.  Runs that end in an unsupported chip id, in an ECC mismatch, in a
    failed bootloader entry and in a transport error while reading the
    chip id all reach the [end:] label, where [main] returns 0. *)
Theorem main_exits_zero_after_errors :
  (exists w',
      main (plain_host []) ["ft5x06-tool"; "-c"; "99"]%string
           (boot (good_ft5x06 0))
      = Some (0, w') /\
      In (Err (M_unsupported_chip 0x99)) (trace w')) /\
  (exists w',
      main (plain_host image_S1) ["ft5x06-tool"; "-i"; "fw.bin"]%string
           (boot (good_ft5x06 0xAB))
      = Some (0, w') /\
      In (Err (M_ecc_error 0xAB 0xFF)) (trace w') /\
      In (Err M_flash_fw_failed) (trace w')) /\
  (exists w',
      main (plain_host image_S1) ["ft5x06-tool"; "-i"; "fw.bin"]%string
           (boot wrong_id_chip)
      = Some (0, w') /\
      count_write [FT_RST_CMD_REG1; FT_UPGRADE_AA] (trace w') = 30%nat /\
      last (trace w') (Log M_nothing_to_do) = Err M_flash_fw_failed) /\
  (exists w',
      main (plain_host image_S1) ["ft5x06-tool"; "-i"; "fw.bin"]%string
           (boot (flaky_ft5x06 0))
      = Some (0, w') /\
      In (Err (M_get_id_failed (-1))) (trace w')) /\
  exit_status 0 = 0.
Proof.
  repeat split.
  - eexists. split; [vm_compute; reflexivity | vm_compute; tauto].
  - eexists. split; [vm_compute; reflexivity |].
    split; vm_compute; tauto.
  - eexists. split; [vm_compute; reflexivity |].
    split; vm_compute; reflexivity.
  - eexists. split; [vm_compute; reflexivity | vm_compute; tauto].
Qed.

Lemma ops_between (pre t1 mid t2 post : list event) :
  ops mid = [] -> ops post = [] ->
  ops (pre ++ t1 ++ mid ++ t2 ++ post) = ops pre ++ ops t1 ++ ops t2.
Proof.
  intros Hmid Hpost. rewrite !ops_app, Hmid, Hpost. simpl.
  now rewrite app_nil_r.
Qed.

Lemma get_name_of_info (id : Z) (info : ft5x06_fw_update_info) :
  ft5x06_get_info id = Some info -> ft5x06_get_name id = Some (fts_name info).
Proof. unfold ft5x06_get_info, ft5x06_get_name. now intros ->. Qed.

Lemma u32_small (x : Z) : 0 <= x <= INT_MAX -> u32 x = x.
Proof. intros Hx. apply Z.mod_small. unfold INT_MAX in Hx. lia. Qed.

(** ** Runs of [main] *)

Section MainRuns.

Context {T : transport}.
Variable H : host.

(** [main] around its session, once the bus device is open and the slave
    address set. *)
Lemma runs_main_of_session (argv : list string) (o : options) (w : world T)
      (tr : list event) (w' : world T) :
  parse_args (tl argv) default_options = Parsed o ->
  -99999 <= o_bus o <= 999999 ->
  0 <= open_i2c H (o_bus o) ->
  set_slave H (o_addr o) = 0 ->
  runs (main_session H o)
       (mkWorld (dev w) ((trace w ++ [Log (M_opening (o_bus o))])
                           ++ [Log (M_setting_addr (o_addr o))]))
       tt tr w' ->
  runs (main H argv) w 0
       ([Log (M_opening (o_bus o))] ++ [Log (M_setting_addr (o_addr o))]
          ++ tr ++ []) w'.
Proof.
  intros Hparse Hbus Hfd Hslave Hsess. unfold main. rewrite Hparse.
  assert (Hb1 : ((o_bus o <? -99999) || (999999 <? o_bus o)) = false).
  { apply orb_false_iff. split; apply Z.ltb_ge; lia. }
  rewrite Hb1.
  assert (Hfd' : (open_i2c H (o_bus o) <? 0) = false) by (apply Z.ltb_ge; lia).
  eapply runs_bind; [apply runs_emit |]. cbv zeta. rewrite Hfd'.
  eapply runs_bind; [apply runs_emit |]. rewrite Hslave.
  simpl (negb (0 =? 0)). cbv iota.
  eapply runs_bind; [exact Hsess | apply runs_ret].
Qed.

Lemma runs_identify (o : options) (w : world T) :
  exists det w' tr,
    runs (identify o) w det tr w' /\
    ops tr = (if o_chip_id o <? 0 then [OpRead [ID_G_CIPHER] 1] else []).
Proof.
  unfold identify. destruct (o_chip_id o <? 0).
  - destruct (runs_i2c_read (o_addr o) [ID_G_CIPHER] 1 [0] 1 w) as (w1 & H1).
    cbv zeta in H1. simpl (if 0 <? 1 then _ else _) in H1.
    set (x := xfer_read T (dev w) (u16 (o_addr o)) [ID_G_CIPHER] 1) in *.
    destruct (fst (fst x) <? 0) eqn:Hr.
    + eexists None, _, _. split.
      * eapply runs_bind; [exact H1 |]. simpl fst. rewrite Hr.
        eapply runs_bind; [apply runs_emit | apply runs_ret].
      * rewrite !ops_app, ops_read_trace. reflexivity.
    + eexists (Some _), _, _. split.
      * eapply runs_bind; [exact H1 |]. simpl fst. rewrite Hr. apply runs_ret.
      * rewrite !ops_app, ops_read_trace. reflexivity.
  - exists (Some (o_chip_id o)), w, []. split; [apply runs_ret | reflexivity].
Qed.

End MainRuns.

(** ** The write engine and the file *)

Lemma op_dumped_app (a b : list op) :
  op_dumped (a ++ b) = op_dumped a ++ op_dumped b.
Proof. apply flat_map_app. Qed.

Lemma op_dumped_poll_ops (k : nat) : op_dumped (poll_ops k) = [].
Proof. induction k; [reflexivity | exact IHk]. Qed.

Lemma op_dumped_program_ops (pkts : list (list Z)) :
  forall ks, op_dumped (program_ops pkts ks) = [].
Proof.
  induction pkts as [| p pkts IH]; intros [| k ks]; try reflexivity.
  cbn [program_ops].
  change (OpWrite p :: poll_ops k ++ program_ops pkts ks)
    with ([OpWrite p] ++ poll_ops k ++ program_ops pkts ks).
  now rewrite !op_dumped_app, op_dumped_poll_ops, IH.
Qed.

(** A write puts nothing in the dump file. *)
Lemma fw_upgrade_no_file (T : transport) (addr id : Z)
      (info : ft5x06_fw_update_info) (data : list Z) (w : world T)
      (r : Z) (tr : list event) (w' : world T) :
  ft5x06_get_info id = Some info ->
  Forall is_byte data ->
  Z.of_nat (List.length data) <= INT_MAX - 127 ->
  runs (ft5x06_fw_upgrade addr id data (Z.of_nat (List.length data)))
       w r tr w' ->
  dumped tr = [].
Proof.
  intros Hinfo Hbytes HL Hrun.
  destruct (runs_fw_upgrade addr id info data Hinfo Hbytes HL w)
    as (r0 & w0 & t0 & H0 & _ & Hcase).
  assert (Hd0 : dumped t0 = []).
  { rewrite dumped_file_writes.
    now rewrite (init_upgrade_no_file addr id info w r0 t0 w0 Hinfo H0). }
  destruct Hcase as [(_ & Hrun')
                    | (_ & r' & w1 & t1 & ks & io & actual & t2 & Hrun' & Ho1
                       & _ & _ & _ & Hverdict)];
    destruct (runs_same _ _ _ _ _ _ _ _ Hrun' Hrun) as (_ & -> & _);
    [exact Hd0 |].
  rewrite !dumped_app, Hd0.
  assert (Hd1 : dumped t1 = []).
  { unfold dumped. rewrite Ho1. unfold erase_ops.
    change (OpWrite [FT_ERASE_APP_REG]
            :: (if id =? FT5x26_ID then [] else [OpWrite [FT_ERASE_PANEL_REG]])
               ++ [OpSleep (delay_erase_flash info)])
      with ([OpWrite [FT_ERASE_APP_REG]]
              ++ (if id =? FT5x26_ID then [] else [OpWrite [FT_ERASE_PANEL_REG]])
              ++ [OpSleep (delay_erase_flash info)]).
    change (OpWrite (announce (Z.of_nat (List.length data)))
            :: program_ops (expected_packets data) ks ++ [OpSleep 50])
      with ([OpWrite (announce (Z.of_nat (List.length data)))]
              ++ program_ops (expected_packets data) ks ++ [OpSleep 50]).
    rewrite !op_dumped_app, op_dumped_program_ops.
    destruct (id =? FT5x26_ID); reflexivity. }
  assert (Hdv : dumped (verify_trace io actual) = []).
  { unfold verify_trace. now destruct (io <? 0). }
  assert (Hd2 : dumped t2 = []).
  { destruct Hverdict as [(_ & _ & Ho2) | (_ & _ & ->)]; [| reflexivity].
    unfold dumped. now rewrite Ho2. }
  now rewrite Hd1, Hdv, Hd2.
Qed.

(** C10 as stated fails: a dump that fails does not stop the flash.  On a
    chip whose third read packet fails, the dump ends after two packets
    with 512 bytes handed to [write] and "Failed to read FW"; [main] then
    flashes the input image all the same, from erase to firmware reset, so
    the firmware that was not captured is overwritten. *)
Lemma main_flashes_after_failed_dump :
  exists w',
    main (plain_host image_S1)
         ["ft5x06-tool"; "-i"; "fw.bin"; "-o"; "dump.bin"]%string
         (boot short_read_chip)
    = Some (0, w') /\
    Z.of_nat (List.length (dumped (trace w'))) = 512 /\
    errors (trace w') = [M_i2c_read_error (-1); M_read_fw_failed] /\
    In [FT_ERASE_APP_REG] (writes (trace w')) /\
    In (packet_at image_S1 0) (writes (trace w')) /\
    last (writes (trace w')) [] = [FT_REG_RESET_FW].
Proof.
  eexists. split; [vm_compute; reflexivity |].
  split; [vm_compute; reflexivity |].
  split; [vm_compute; reflexivity |].
  split; [vm_compute; tauto |].
  split; [vm_compute; tauto | vm_compute; reflexivity].
Qed.

(** C10, amended.  With both an input image and an output file, once the
    chip is identified and its firmware version read, [main] runs the read
    engine and only after it has returned runs the write engine: before the
    dump the bus has only seen the identification reads, every bus, clock
    and file operation of the dump comes before every operation of the
    flash, and nothing else touches the bus or the file.  The flash is run
    whatever the dump returned: a dump that fails is answered by the
    message "Failed to read FW" only.  A dump that returns 0 consists of
    bootloader entry, the 256 read packets, each handed to [write] as
    delivered, and the firmware reset; against a chip that enters its
    bootloader and serves the flash image [F], the bytes handed to [write]
    are the first 65536 bytes of [F], all of them read before the first
    command of the flash. *)
Theorem main_dump_before_flash (T : transport) (H : host)
        (argv : list string) (o : options) (inp out : string) (id : Z)
        (info : ft5x06_fw_update_info) (w : world T)
        (tid : list event) (wid : world T) :
  parse_args (tl argv) default_options = Parsed o ->
  o_input o = Some inp ->
  o_output o = Some out ->
  -99999 <= o_bus o <= 999999 ->
  0 <= open_i2c H (o_bus o) ->
  set_slave H (o_addr o) = 0 ->
  runs (identify o)
       (mkWorld (dev w) (trace w ++ [Log (M_opening (o_bus o));
                                     Log (M_setting_addr (o_addr o))]))
       (Some id) tid wid ->
  ft5x06_get_info id = Some info ->
  0 <= fst (fst (xfer_read T (dev wid) (u16 (o_addr o)) [ID_G_FIRMID] 1)) ->
  0 <= open_output H out ->
  0 <= open_input H inp ->
  mmap_fails H inp = false ->
  Forall is_byte (input_bytes H inp) ->
  Z.of_nat (List.length (input_bytes H inp)) <= INT_MAX - 127 ->
  let addr := o_addr o in
  let data := input_bytes H inp in
  exists pre (w1 : world T) r1 t1 (w2 : world T) mid (w3 : world T) r2 t2
         (w4 : world T) post (w' : world T),
    runs (main H argv) w 0 (pre ++ t1 ++ mid ++ t2 ++ post) w' /\
    trace w1 = trace w ++ pre /\
    ops pre = identify_ops o /\
    runs (ft5x06_fw_read addr id) w1 r1 t1 w2 /\
    dev w3 = dev w2 /\ trace w3 = trace w2 ++ mid /\
    mid = (if r1 <? 0 then [Err M_read_fw_failed] else [])
          ++ [Log (M_flashing inp);
              Log (M_fw_length (Z.of_nat (List.length data)))] /\
    runs (ft5x06_fw_upgrade addr id data (Z.of_nat (List.length data)))
         w3 r2 t2 w4 /\
    (exists rest, ops t2 = OpWrite [FT_RST_CMD_REG1; FT_UPGRADE_AA] :: rest) /\
    ops mid = [] /\ ops post = [] /\
    ops (pre ++ t1 ++ mid ++ t2 ++ post) = ops pre ++ ops t1 ++ ops t2 /\
    dumped (pre ++ t1 ++ mid ++ t2 ++ post) = dumped t1 /\
    (r1 = 0 \/ r1 < 0) /\
    (r1 = 0 ->
     exists t0 oks tail,
       t1 = t0 ++ Log M_read_fw_from_flash :: read_events 0 oks ++ tail /\
       (exists w0 : world T, runs (ft5x06_init_upgrade addr id) w1 0 t0 w0) /\
       List.length oks = 256%nat /\
       ops (Log M_read_fw_from_flash :: read_events 0 oks ++ tail)
       = read_ops 0 (map snd oks) ++ [OpWrite [FT_REG_RESET_FW]; OpSleep 100] /\
       dumped t1 = List.concat (map snd oks) /\
       Z.of_nat (List.length (dumped t1)) = 65536) /\
    (forall F,
        enter_accepted T -> always_id T info -> serves T F ->
        r1 = 0 /\
        dumped (pre ++ t1 ++ mid ++ t2 ++ post) = firstn (Z.to_nat 65536) F).
Proof.
  intros Hparse Hin Hout Hbus Hfd Hslave Hid Hinfo Hver Hoo Hoi Hmap
         Hbytes HL addr data.
  (* identification and firmware version *)
  assert (Hotid : ops tid
                  = if o_chip_id o <? 0 then [OpRead [ID_G_CIPHER] 1] else []).
  { destruct (runs_identify o
                (mkWorld (dev w) (trace w ++ [Log (M_opening (o_bus o));
                                              Log (M_setting_addr (o_addr o))])))
      as (det & wx & tx & Hx & Hox).
    now destruct (runs_same _ _ _ _ _ _ _ _ Hx Hid) as (_ & -> & _). }
  pose proof (runs_emit (Log (M_chip_id id (fts_name info))) wid) as Ha.
  set (wa := mkWorld (dev wid) _) in Ha.
  destruct (runs_i2c_read addr [ID_G_FIRMID] 1 [0] 1 wa) as (wb & Hb).
  cbv zeta in Hb. simpl (if 0 <? 1 then _ else _) in Hb.
  change (dev wa) with (dev wid) in Hb. fold addr in Hver.
  set (x := xfer_read T (dev wid) (u16 addr) [ID_G_FIRMID] 1) in *.
  assert (Hrv : (fst (fst x) <? 0) = false) by (apply Z.ltb_ge; exact Hver).
  rewrite Hrv in Hb.
  set (bufv := fill [0] 1 (snd (fst x))) in *.
  pose proof (runs_emit (Log (M_fw_version (nth 0 bufv 0))) wb) as Hc.
  set (wc := mkWorld (dev wb) _) in Hc.
  (* the dump *)
  destruct (runs_fw_read_io addr id info Hinfo wc)
    as (r0 & w0 & t0 & r1 & wd & t & H0 & Hread & Hrcase).
  assert (He : runs (if r1 <? 0 then ERR M_read_fw_failed else ret tt)
                    wd tt (if r1 <? 0 then [Err M_read_fw_failed] else [])
                    (mkWorld (dev wd)
                       (trace wd
                        ++ (if r1 <? 0 then [Err M_read_fw_failed] else [])))).
  { destruct (r1 <? 0); [apply runs_emit |].
    rewrite app_nil_r. destruct wd. apply runs_ret. }
  set (te := if r1 <? 0 then [Err M_read_fw_failed] else []) in *.
  set (we := mkWorld (dev wd) (trace wd ++ te)) in *.
  assert (Hoe : ops te = []) by (unfold te; now destruct (r1 <? 0)).
  (* the flash *)
  pose proof (runs_emit (Log (M_flashing inp)) we) as Hf.
  set (wf := mkWorld (dev we) _) in Hf.
  pose proof (runs_emit (Log (M_fw_length (Z.of_nat (List.length data)))) wf)
    as Hg.
  set (wg := mkWorld (dev wf) _) in Hg.
  destruct (fw_upgrade_writes addr id info data Hinfo Hbytes HL wg)
    as (r0' & w0' & t0' & H0' & _ & r2 & wh & t' & Hflash & _).
  assert (Hi : exists wi ti,
             runs (if r2 <? 0 then ERR M_flash_fw_failed else ret tt)
                  wh tt ti wi /\ ops ti = []).
  { destruct (r2 <? 0).
    - eexists _, _. split; [apply runs_emit | reflexivity].
    - exists wh, []. split; [apply runs_ret | reflexivity]. }
  destruct Hi as (wi & ti & Hi & Hoi').
  set (pre := [Log (M_opening (o_bus o)); Log (M_setting_addr (o_addr o))]
                ++ tid ++ [Log (M_chip_id id (fts_name info))]
                ++ read_trace [ID_G_FIRMID] 1 (fst (fst x)) bufv
                ++ [Log (M_fw_version (nth 0 bufv 0))]).
  set (mid := te ++ [Log (M_flashing inp);
                     Log (M_fw_length (Z.of_nat (List.length data)))]).
  exists pre, wc, r1, (t0 ++ t), wd, mid, wg, r2, (t0' ++ t'), wh, ti, wi.
  assert (Hpre : trace wc = trace w ++ pre).
  { destruct Hid as [_ Htid]. destruct Hb as [_ Htb].
    unfold wc, pre. simpl trace. rewrite Htb. unfold wa. simpl trace.
    rewrite Htid. simpl trace. now rewrite <- !app_assoc. }
  assert (Hopre : ops pre = identify_ops o).
  { unfold pre. rewrite !ops_app, ops_read_trace, Hotid. unfold identify_ops.
    destruct (o_chip_id o <? 0); reflexivity. }
  assert (Homid : ops mid = []) by (unfold mid; now rewrite ops_app, Hoe).
  assert (Hdflash : dumped (t0' ++ t') = [])
    by exact (fw_upgrade_no_file T addr id info data wg r2 _ wh Hinfo Hbytes
                HL Hflash).
  assert (Hdall : dumped (pre ++ (t0 ++ t) ++ mid ++ (t0' ++ t') ++ ti)
                  = dumped (t0 ++ t)).
  { rewrite (dumped_app pre), (dumped_app (t0 ++ t)), (dumped_app mid),
      (dumped_app (t0' ++ t')), Hdflash.
    unfold dumped at 1 3 4. rewrite Hopre, Homid, Hoi'.
    unfold identify_ops.
    destruct (o_chip_id o <? 0); simpl; now rewrite app_nil_r. }
  assert (Hd0 : dumped t0 = []).
  { rewrite dumped_file_writes.
    now rewrite (init_upgrade_no_file addr id info wc r0 t0 w0 Hinfo H0). }
  split; [| split; [exact Hpre |]; split; [exact Hopre |];
            split; [exact Hread |]; split; [reflexivity |];
            split; [| split; [reflexivity |]; split; [exact Hflash |];
                      split; [| split; [exact Homid |]; split; [exact Hoi' |];
                                split; [| split; [exact Hdall |];
                                          split; [| split]]]]].
  - (* the run of main *)
    assert (Hsess : runs (main_session H o)
                (mkWorld (dev w) (trace w ++ [Log (M_opening (o_bus o));
                                              Log (M_setting_addr (o_addr o))]))
                tt
                (tid ++ [Log (M_chip_id id (fts_name info))]
                     ++ read_trace [ID_G_FIRMID] 1 (fst (fst x)) bufv
                     ++ [Log (M_fw_version (nth 0 bufv 0))]
                     ++ (t0 ++ t)
                     ++ te ++ [Log (M_flashing inp)]
                     ++ [Log (M_fw_length (Z.of_nat (List.length data)))]
                     ++ (t0' ++ t') ++ ti)
                wi).
    { unfold main_session.
      eapply runs_bind; [exact Hid |]. cbv iota beta.
      rewrite (get_name_of_info id info Hinfo).
      eapply runs_bind; [exact Ha |].
      eapply runs_bind; [exact Hb |].
      simpl fst. simpl snd. rewrite Hrv.
      eapply runs_bind; [exact Hc |].
      rewrite Hin, Hout.
      assert (Hoo' : (open_output H out <? 0) = false)
        by (apply Z.ltb_ge; lia).
      assert (Hoi'' : (open_input H inp <? 0) = false)
        by (apply Z.ltb_ge; lia).
      rewrite Hoo', Hoi'', Hmap.
      rewrite (app_assoc (t0 ++ t) te).
      eapply runs_bind.
      - eapply runs_bind; [exact Hread |].
        rewrite <- (app_nil_r te).
        eapply runs_bind; [exact He | apply runs_ret].
      - simpl negb. cbv iota zeta.
        eapply runs_bind; [exact Hf |].
        eapply runs_bind; [exact Hg |].
        fold data. rewrite u32_small by (fold data in HL; lia).
        eapply runs_bind; [exact Hflash | exact Hi]. }
    replace (trace w ++ [Log (M_opening (o_bus o));
                         Log (M_setting_addr (o_addr o))])
      with ((trace w ++ [Log (M_opening (o_bus o))])
              ++ [Log (M_setting_addr (o_addr o))]) in Hsess
      by (now rewrite <- app_assoc).
    unfold main. rewrite Hparse.
    assert (Hb1 : ((o_bus o <? -99999) || (999999 <? o_bus o)) = false).
    { apply orb_false_iff. split; apply Z.ltb_ge; lia. }
    rewrite Hb1.
    assert (Hfd' : (open_i2c H (o_bus o) <? 0) = false) by (apply Z.ltb_ge; lia).
    eapply runs_trace_eq.
    + eapply runs_bind; [apply runs_emit |]. cbv zeta. rewrite Hfd'.
      eapply runs_bind; [apply runs_emit |]. rewrite Hslave.
      simpl (negb (0 =? 0)). cbv iota.
      eapply runs_bind; [exact Hsess | apply runs_ret].
    + unfold pre, mid. rewrite <- !app_assoc, !app_nil_r. reflexivity.
  - unfold wg, wf, we, mid. simpl trace. now rewrite <- !app_assoc.
  - destruct (init_upgrade_first_op addr id info wg r0' t0' w0' Hinfo H0')
      as (rest & Hrest).
    exists (rest ++ ops t'). now rewrite ops_app, Hrest.
  - apply ops_between; [exact Homid | exact Hoi'].
  - destruct Hrcase as [(_ & -> & _) | (_ & oks & tail & _ & _ & Hres & _)].
    + right. unfold EIO. lia.
    + destruct Hres as [(-> & _) | (stale & Hneg & _)]; [now left | now right].
  - intros ->.
    destruct Hrcase as [(_ & Habs & _)
                       | (-> & oks & tail & -> & Hall & Hres & _)];
      [discriminate Habs |].
    destruct Hres as [(_ & Hl & r4 & ->) | (stale & Hneg & _)]; [| lia].
    exists t0, oks,
      (Log M_reset_new_fw :: write_trace [FT_REG_RESET_FW] r4 ++ [Msleep 100]).
    split; [reflexivity |]. split; [exists w0; exact H0 |].
    split; [exact Hl |].
    assert (Hfiles : file_writes
                       (Log M_read_fw_from_flash
                        :: read_events 0 oks
                           ++ Log M_reset_new_fw
                              :: write_trace [FT_REG_RESET_FW] r4
                                 ++ [Msleep 100])
                     = map snd oks).
    { change (Log M_read_fw_from_flash
              :: read_events 0 oks
                 ++ Log M_reset_new_fw
                    :: write_trace [FT_REG_RESET_FW] r4 ++ [Msleep 100])
        with ([Log M_read_fw_from_flash]
                ++ read_events 0 oks
                ++ [Log M_reset_new_fw]
                ++ write_trace [FT_REG_RESET_FW] r4 ++ [Msleep 100]).
      rewrite !file_writes_app, file_writes_read_events.
      unfold write_trace. destruct (r4 <? 0); simpl; now rewrite app_nil_r. }
    assert (Hd : dumped (t0 ++ Log M_read_fw_from_flash
                            :: read_events 0 oks
                               ++ Log M_reset_new_fw
                                  :: write_trace [FT_REG_RESET_FW] r4
                                     ++ [Msleep 100])
                 = List.concat (map snd oks)).
    { rewrite dumped_app, Hd0, app_nil_l, dumped_file_writes.
      now rewrite Hfiles. }
    split; [| split; [exact Hd |]].
    + change (Log M_read_fw_from_flash
              :: read_events 0 oks
                 ++ Log M_reset_new_fw
                    :: write_trace [FT_REG_RESET_FW] r4 ++ [Msleep 100])
        with ([Log M_read_fw_from_flash]
                ++ read_events 0 oks
                ++ [Log M_reset_new_fw]
                ++ write_trace [FT_REG_RESET_FW] r4 ++ [Msleep 100]).
      rewrite !ops_app, ops_read_events, ops_write_trace. reflexivity.
    + rewrite Hd, (length_concat_uniform 256), length_map, Hl; [reflexivity |].
      apply Forall_map. eapply Forall_impl; [| exact Hall].
      intros p Hp. exact (proj2 Hp).
  - intros F Hacc Hida Hs.
    pose proof (init_upgrade_at_once_result addr id info Hinfo wc r0 t0 w0
                  Hacc Hida H0) as [Hr0 _].
    destruct Hrcase as [(Habs & _)
                       | (_ & oks & tail & -> & Hall & Hres & _ & Hserv)];
      [rewrite Hr0 in Habs; discriminate Habs |].
    destruct (Hserv F Hs) as [-> Hchunks]. split; [reflexivity |].
    destruct Hres as [(_ & Hl & r4 & ->) | (stale & Hneg & _)]; [| lia].
    rewrite Hdall, dumped_app, Hd0, app_nil_l, dumped_file_writes.
    change (Log M_read_fw_from_flash
            :: read_events 0 oks
               ++ Log M_reset_new_fw
                  :: write_trace [FT_REG_RESET_FW] r4 ++ [Msleep 100])
      with ([Log M_read_fw_from_flash]
              ++ read_events 0 oks
              ++ [Log M_reset_new_fw]
              ++ write_trace [FT_REG_RESET_FW] r4 ++ [Msleep 100]).
    rewrite !file_writes_app, file_writes_read_events.
    assert (Hnil : file_writes (write_trace [FT_REG_RESET_FW] r4) = [])
      by (unfold write_trace; now destruct (r4 <? 0)).
    rewrite Hnil. cbn [file_writes flat_map app]. rewrite app_nil_r.
    rewrite Hchunks, concat_chunks.
    change (256 * 0)%nat with 0%nat. cbn [skipn].
    replace (256 * 256)%nat with (Z.to_nat 65536) by lia. reflexivity.
Qed.

(** C10 amended, on an FT5x06 whose flash holds [flash_image], dumping and
    then flashing S1: the bytes handed to [write] are the image, and the
    flash follows. *)
Lemma main_dump_before_flash_witness :
  exists tr w',
    runs (main (plain_host image_S1)
               ["ft5x06-tool"; "-i"; "fw.bin"; "-o"; "dump.bin"]%string)
         (boot_flash (good_ft5x06 0xff) flash_image) 0 tr w' /\
    dumped tr = flash_image /\
    In (OpWrite [FT_ERASE_APP_REG]) (ops tr).
Proof.
  destruct (main_dump_before_flash (flash_chip (good_ft5x06 0xff) flash_image)
               (plain_host image_S1)
               ["ft5x06-tool"; "-i"; "fw.bin"; "-o"; "dump.bin"]%string
               (mkOptions (Some "fw.bin"%string) (Some "dump.bin"%string)
                          2 0x38 (-1))
               "fw.bin"%string "dump.bin"%string FT5x06_ID
               (Build_ft5x06_fw_update_info FT5x06_ID "ft5x06" 5 1 50 30
                                            0x79 0x03 10 2000 0x0000)
               (boot_flash (good_ft5x06 0xff) flash_image)
               [I2cRead [ID_G_CIPHER] 1 2 [0x55]]
               (mkWorld (T := flash_chip (good_ft5x06 0xff) flash_image) tt
                        [Log (M_opening 2); Log (M_setting_addr 0x38);
                         I2cRead [ID_G_CIPHER] 1 2 [0x55]]))
    as (pre & w1 & r1 & t1 & w2 & mid & w3 & r2 & t2 & w4 & post & w' & Hrun
        & _ & _ & _ & _ & _ & _ & Hflash & _ & _ & _ & Hops & _ & _ & _ & Hserv).
  - reflexivity.
  - reflexivity.
  - reflexivity.
  - simpl. lia.
  - simpl. lia.
  - reflexivity.
  - split; reflexivity.
  - reflexivity.
  - cbn. lia.
  - simpl. lia.
  - simpl. lia.
  - reflexivity.
  - repeat constructor; unfold is_byte; lia.
  - vm_compute. discriminate.
  - destruct (Hserv flash_image) as [_ Hd].
    + intros d a. cbn. lia.
    + intros d a. cbn. split; [lia | reflexivity].
    + apply flash_chip_serves;
        [exact flash_image_bytes | exact flash_image_length
         | intros wr; cbn; lia].
    + eexists _, w'. split; [exact Hrun |]. split.
      * rewrite Hd. apply firstn_all2. pose proof flash_image_length. lia.
      * rewrite Hops. apply in_or_app. right. apply in_or_app. right.
        destruct (fw_upgrade_writes 0x38 FT5x06_ID _ image_S1 eq_refl
                    ltac:(repeat constructor; unfold is_byte; lia)
                    ltac:(vm_compute; discriminate) w3)
          as (r0 & w0 & t0 & H0 & _ & r & wx & t & Hrun2 & Hcase).
        destruct (runs_same _ _ _ _ _ _ _ _ Hrun2 Hflash) as (_ & -> & _).
        assert (r0 = 0) as ->.
        { apply (init_upgrade_at_once_result 0x38 FT5x06_ID _ eq_refl
                   w3 r0 t0 w0); [| | exact H0];
            intros d a; cbn; [lia | split; [lia | reflexivity]]. }
        destruct Hcase as [(Habs & _) | (_ & _ & Hw)]; [discriminate Habs |].
        rewrite ops_app. apply in_or_app. right.
        assert (Hin : In [FT_ERASE_APP_REG] (writes t))
          by (rewrite Hw; now left).
        unfold writes, op_writes in Hin. apply in_flat_map in Hin.
        destruct Hin as (op1 & Hop & Hb).
        destruct op1; try contradiction. destruct Hb as [<- | []].
        exact Hop.
Defined.

(** * Further properties of the tool *)

(** ** Variant registry *)

(** X1.  The registry knows exactly the chip ids 0x55, 0x0a and 0x54, under
    the names ft5x06, ft5x16 and ft5x26; the record found carries the id
    asked for, and [ft5x06_get_name] succeeds exactly when
    [ft5x06_get_info] does, with that record's name. *)
Theorem registry_lookup (id : Z) :
  ft5x06_get_name id = option_map fts_name (ft5x06_get_info id) /\
  (forall info, ft5x06_get_info id = Some info -> chip_id info = id) /\
  (id = 0x55 -> ft5x06_get_name id = Some "ft5x06"%string) /\
  (id = 0x0a -> ft5x06_get_name id = Some "ft5x16"%string) /\
  (id = 0x54 -> ft5x06_get_name id = Some "ft5x26"%string) /\
  (id <> 0x55 -> id <> 0x0a -> id <> 0x54 ->
   ft5x06_get_info id = None /\ ft5x06_get_name id = None).
Proof.
  split; [| split; [| split; [| split; [| split]]]].
  - unfold ft5x06_get_name, ft5x06_get_info.
    now destruct (find _ ft5x06_fwu_info).
  - intros info Hinfo. now destruct (get_info_cases id info Hinfo) as (_ & ? & _).
  - now intros ->.
  - now intros ->.
  - now intros ->.
  - intros H1 H2 H3.
    unfold ft5x06_get_name, ft5x06_get_info, ft5x06_fwu_info. simpl find.
    unfold FT5x06_ID, FT5x16_ID, FT5x26_ID.
    rewrite (proj2 (Z.eqb_neq id 85) H1), (proj2 (Z.eqb_neq id 10) H2),
      (proj2 (Z.eqb_neq id 84) H3).
    now split.
Qed.

(** C-style [NULL] check of the registry at an id outside the table. *)
Lemma registry_lookup_witness :
  ft5x06_get_info 0x99 = None /\ ft5x06_get_name 0x99 = None.
Proof.
  destruct (registry_lookup 0x99) as (_ & _ & _ & _ & _ & Hnone).
  apply Hnone; discriminate.
Defined.

(** ** Counting the writes of bootloader entry *)

Lemma op_count_iter_checked (info : ft5x06_fw_update_info) (id : Z)
      (buf : list Z) (checked : bool) :
  op_count buf (iter_ops info id checked) = op_count buf (iter_ops info id false).
Proof.
  unfold iter_ops. destruct checked, (id =? FT5x26_ID); reflexivity.
Qed.

Lemma trace_delta {T : transport} (w w' : world T) (t t' : list event) :
  trace w' = trace w ++ t -> trace w' = trace w ++ t' -> t = t'.
Proof. intros H1 H2. rewrite H1 in H2. now apply app_inv_head in H2. Qed.

Section EntryCounts.

Context {T : transport}.
Variables (addr id : Z) (info : ft5x06_fw_update_info).
Hypothesis Hinfo : ft5x06_get_info id = Some info.

(** Every attempt puts the same write transactions on the bus. *)
Lemma init_upgrade_loop_counts (fuel : nat) :
  forall (i : Z) (w : world T) (i' : Z) (w' : world T),
    init_upgrade_loop fuel addr id i w = Some (i', w') ->
    exists tr n,
      trace w' = trace w ++ tr /\
      forall buf,
        count_write buf tr = (n * op_count buf (iter_ops info id false))%nat.
Proof.
  induction fuel as [| fuel IH]; intros i w i' w' Hrun; simpl in Hrun;
    destruct (i <? FT_UPGRADE_LOOP);
    try discriminate;
    try (inversion Hrun; subst; exists [], 0%nat;
         split; [now rewrite app_nil_r | reflexivity]).
  unfold bind at 1 in Hrun.
  destruct (runs_init_upgrade_iter addr id info Hinfo w)
    as (brk & w1 & t1 & checked & [H1 Ht1] & Ho1 & _).
  rewrite H1 in Hrun.
  assert (Hc1 : forall buf,
             count_write buf t1 = op_count buf (iter_ops info id false)).
  { intros buf. unfold count_write. rewrite Ho1. apply op_count_iter_checked. }
  destruct brk.
  - inversion Hrun; subst. exists t1, 1%nat. split; [exact Ht1 |].
    intros buf. rewrite Hc1. lia.
  - destruct (IH _ _ _ _ Hrun) as (t2 & n & Ht2 & Hc2).
    exists (t1 ++ t2), (S n). split.
    + now rewrite Ht2, Ht1, app_assoc.
    + intros buf. rewrite count_write_app, Hc1, Hc2. simpl. lia.
Qed.

Lemma init_upgrade_counts (w : world T) (r : Z) (tr : list event) (w' : world T) :
  runs (ft5x06_init_upgrade addr id) w r tr w' ->
  exists n,
    forall buf,
      count_write buf tr = (n * op_count buf (iter_ops info id false))%nat.
Proof.
  intros [Hrun Htr]. unfold ft5x06_init_upgrade in Hrun.
  unfold bind at 1 in Hrun.
  destruct (init_upgrade_loop _ addr id 0 w) as [[i' w1] |] eqn:Hloop;
    [| discriminate].
  destruct (init_upgrade_loop_counts _ _ _ _ _ Hloop) as (t & n & Ht & Hc).
  assert (w1 = w') as ->
    by (destruct (i' >=? FT_UPGRADE_LOOP); now inversion Hrun).
  rewrite (trace_delta _ _ _ _ Htr Ht). now exists n.
Qed.

(** A buffer that begins like none of the entry handshake's writes. *)
Lemma op_count_iter_other (buf : list Z) (checked : bool) :
  hd 0 buf <> FT_RST_CMD_REG1 -> hd 0 buf <> 0xeb -> hd 0 buf <> FT_UPGRADE_55 ->
  op_count buf (iter_ops info id checked) = 0%nat.
Proof.
  intros H1 H2 H3. rewrite op_count_iter_checked.
  assert (Hne : forall rest b, hd 0 buf <> b -> bytes_eqb buf (b :: rest) = false).
  { intros rest b Hb. destruct (bytes_eqb buf (b :: rest)) eqn:E; [| reflexivity].
    apply bytes_eqb_eq in E. subst buf. now elim Hb. }
  unfold iter_ops, op_count, op_writes.
  destruct (id =? FT5x26_ID); simpl; rewrite ?Hne by assumption; reflexivity.
Qed.

Lemma init_upgrade_never_writes (buf : list Z) (w : world T) (r : Z)
      (tr : list event) (w' : world T) :
  hd 0 buf <> FT_RST_CMD_REG1 -> hd 0 buf <> 0xeb -> hd 0 buf <> FT_UPGRADE_55 ->
  runs (ft5x06_init_upgrade addr id) w r tr w' ->
  count_write buf tr = 0%nat.
Proof.
  intros H1 H2 H3 Hrun. destruct (init_upgrade_counts _ _ _ _ Hrun) as (n & Hc).
  rewrite Hc, (op_count_iter_other buf false H1 H2 H3). lia.
Qed.

End EntryCounts.

(** ** Which commands reach the chip *)

Lemma bytes_eqb_refl (a : list Z) : bytes_eqb a a = true.
Proof. now apply bytes_eqb_eq. Qed.

Lemma bytes_eqb_length (a b : list Z) :
  List.length a <> List.length b -> bytes_eqb a b = false.
Proof.
  intros Hne. destruct (bytes_eqb a b) eqn:E; [| reflexivity].
  apply bytes_eqb_eq in E. subst b. now elim Hne.
Qed.

Lemma bytes_eqb_head (a b : list Z) :
  hd 0 a <> hd 0 b -> bytes_eqb a b = false.
Proof.
  intros Hne. destruct (bytes_eqb a b) eqn:E; [| reflexivity].
  apply bytes_eqb_eq in E. subst b. now elim Hne.
Qed.

Lemma iter_ops_hid_count (info : ft5x06_fw_update_info) (id : Z)
      (checked : bool) :
  op_count [0xeb; 0xaa; 0x09] (iter_ops info id checked)
  = if id =? FT5x26_ID then 1%nat else 0%nat.
Proof.
  unfold iter_ops. destruct (id =? FT5x26_ID), checked; reflexivity.
Qed.

(** No programming packet is shorter than its six-byte header. *)
Lemma short_not_in_packets (buf : list Z) (data : list Z) :
  (List.length buf < 6)%nat ->
  filter (bytes_eqb buf) (expected_packets data) = [].
Proof.
  intros Hshort. unfold expected_packets.
  induction (seq 0 (packet_count (Z.of_nat (List.length data)))) as [| k ks IH];
    [reflexivity |].
  simpl map. simpl filter. rewrite IH.
  rewrite bytes_eqb_length; [reflexivity |].
  unfold packet_at, pkt_header. rewrite length_app. simpl List.length. lia.
Qed.

Lemma count_write_writes (buf : list Z) (tr : list event) :
  count_write buf tr = List.length (filter (bytes_eqb buf) (writes tr)).
Proof. reflexivity. Qed.

(** X2.  Variant dispatch.  In a write for chip id 0x54 every
    bootloader-entry attempt sends the HID-to-I2C bridge command
    [{0xEB, 0xAA, 0x09}] once and the panel-erase command 0x63 is never
    sent; for the other registered ids the bridge command is never sent and,
    once entry has succeeded, 0x63 is sent exactly once.  The application
    erase 0x61 is sent exactly once after a successful entry and never
    otherwise. *)
Theorem variant_dispatch (T : transport) (addr id : Z)
        (info : ft5x06_fw_update_info) (data : list Z) (w : world T) :
  ft5x06_get_info id = Some info ->
  Forall is_byte data ->
  Z.of_nat (List.length data) <= INT_MAX - 127 ->
  exists r0 w0 t0 r w' t,
    runs (ft5x06_init_upgrade addr id) w r0 t0 w0 /\
    runs (ft5x06_fw_upgrade addr id data (Z.of_nat (List.length data)))
         w r (t0 ++ t) w' /\
    count_write [0xeb; 0xaa; 0x09] (t0 ++ t)
    = (if id =? FT5x26_ID
       then count_write [FT_RST_CMD_REG1; FT_UPGRADE_AA] t0 else 0%nat) /\
    count_write [FT_ERASE_APP_REG] (t0 ++ t) = (if r0 =? 0 then 1%nat else 0%nat) /\
    count_write [FT_ERASE_PANEL_REG] (t0 ++ t)
    = (if (r0 =? 0) && negb (id =? FT5x26_ID) then 1%nat else 0%nat).
Proof.
  intros Hinfo Hbytes HL.
  destruct (fw_upgrade_writes addr id info data Hinfo Hbytes HL w)
    as (r0 & w0 & t0 & H0 & _ & r & w' & t & Hrun & Hcase).
  exists r0, w0, t0, r, w', t. split; [exact H0 |]. split; [exact Hrun |].
  destruct (init_upgrade_counts addr id info Hinfo _ _ _ _ H0) as (n & Hc).
  assert (Hhid0 : count_write [0xeb; 0xaa; 0x09] t0
                  = (if id =? FT5x26_ID
                     then count_write [FT_RST_CMD_REG1; FT_UPGRADE_AA] t0
                     else 0%nat)).
  { rewrite !Hc, (proj1 (iter_ops_counts id info false)),
      (iter_ops_hid_count info id false).
    destruct (id =? FT5x26_ID); lia. }
  assert (Her0 : count_write [FT_ERASE_APP_REG] t0 = 0%nat)
    by (apply (init_upgrade_never_writes addr id info Hinfo) with (4 := H0);
        simpl; discriminate).
  assert (Hep0 : count_write [FT_ERASE_PANEL_REG] t0 = 0%nat)
    by (apply (init_upgrade_never_writes addr id info Hinfo) with (4 := H0);
        simpl; discriminate).
  rewrite !count_write_app, Hhid0, Her0, Hep0.
  destruct Hcase as [(-> & _ & ->) | (-> & _ & Hw)].
  - assert (Hnil : forall b, count_write b [] = 0%nat) by reflexivity.
    rewrite !Hnil, !Nat.add_0_r. repeat split; reflexivity.
  - rewrite !count_write_writes, Hw, !filter_app, !length_app.
    rewrite !short_not_in_packets by (simpl; lia).
    assert (Hr : forall b, b <> [FT_REG_RESET_FW] ->
                 filter (bytes_eqb b) (if r =? 0 then [[FT_REG_RESET_FW]] else [])
                 = []).
    { intros b Hb. destruct (r =? 0); [| reflexivity]. simpl.
      destruct (bytes_eqb b [FT_REG_RESET_FW]) eqn:E; [| reflexivity].
      apply bytes_eqb_eq in E. contradiction. }
    rewrite !Hr by discriminate.
    destruct (id =? FT5x26_ID); cbn [filter];
      repeat (first [ rewrite bytes_eqb_refl
                    | rewrite bytes_eqb_length by (simpl; lia)
                    | rewrite bytes_eqb_head by (simpl; discriminate) ]);
      change (0 =? 0) with true; cbn [andb negb List.length];
      repeat split; lia.
Qed.

(** X2 on an FT5x26 that always works. *)
Lemma variant_dispatch_witness :
  exists r w' tr,
    runs (ft5x06_fw_upgrade 0x38 FT5x26_ID image_S1 8)
         (boot (good_ft5x26 0xff)) r tr w' /\
    count_write [FT_ERASE_PANEL_REG] tr = 0%nat.
Proof.
  destruct (variant_dispatch (fake_chip (good_ft5x26 0xff)) 0x38 FT5x26_ID _
              image_S1 (boot (good_ft5x26 0xff)) eq_refl)
    as (r0 & w0 & t0 & r & w' & t & _ & Hrun & _ & _ & Hp).
  - repeat constructor; unfold is_byte; lia.
  - vm_compute. discriminate.
  - exists r, w', (t0 ++ t). split; [exact Hrun |].
    rewrite Hp. now rewrite andb_false_r.
Defined.

Ltac beq :=
  repeat (first [ rewrite bytes_eqb_refl
                | rewrite bytes_eqb_length by (simpl; lia)
                | rewrite bytes_eqb_head by (simpl; discriminate) ]).

(** X3.  The firmware reset 0x07 ends a write exactly when the write
    succeeded: a run of [ft5x06_fw_upgrade] contains one write of the single
    byte 0x07, as its last write transaction, if it returns 0, and none if
    it fails, so after a failed bootloader entry or an ECC mismatch the
    chip is not sent back to its application. *)
Theorem firmware_reset_iff_success (T : transport) (addr id : Z)
        (info : ft5x06_fw_update_info) (data : list Z) (w : world T) :
  ft5x06_get_info id = Some info ->
  Forall is_byte data ->
  Z.of_nat (List.length data) <= INT_MAX - 127 ->
  exists r w' tr,
    runs (ft5x06_fw_upgrade addr id data (Z.of_nat (List.length data)))
         w r tr w' /\
    count_write [FT_REG_RESET_FW] tr = (if r =? 0 then 1%nat else 0%nat) /\
    (r = 0 -> last (writes tr) [] = [FT_REG_RESET_FW]).
Proof.
  intros Hinfo Hbytes HL.
  destruct (fw_upgrade_writes addr id info data Hinfo Hbytes HL w)
    as (r0 & w0 & t0 & H0 & _ & r & w' & t & Hrun & Hcase).
  exists r, w', (t0 ++ t). split; [exact Hrun |].
  assert (H7 : count_write [FT_REG_RESET_FW] t0 = 0%nat)
    by (apply (init_upgrade_never_writes addr id info Hinfo) with (4 := H0);
        simpl; discriminate).
  rewrite count_write_app, H7.
  destruct Hcase as [(-> & -> & ->) | (-> & _ & Hw)].
  - split; [reflexivity | intros Habs; discriminate Habs].
  - split.
    + rewrite count_write_writes, Hw, !filter_app, !length_app.
      rewrite short_not_in_packets by (simpl; lia).
      destruct (id =? FT5x26_ID), (r =? 0); cbn [filter]; beq; reflexivity.
    + intros ->. rewrite writes_app, Hw. simpl (0 =? 0).
      rewrite !app_assoc. apply last_last.
Qed.

(** X3 on scenario S4: S1 against a chip whose ECC register holds 0xAB. *)
Lemma firmware_reset_iff_success_witness :
  exists r w' tr,
    runs (ft5x06_fw_upgrade 0x38 FT5x06_ID image_S1 8)
         (boot (good_ft5x06 0xAB)) r tr w' /\
    count_write [FT_REG_RESET_FW] tr = (if r =? 0 then 1%nat else 0%nat).
Proof.
  destruct (firmware_reset_iff_success (fake_chip (good_ft5x06 0xAB)) 0x38
              FT5x06_ID _ image_S1 (boot (good_ft5x06 0xAB)) eq_refl)
    as (r & w' & tr & Hrun & Hc & _).
  - repeat constructor; unfold is_byte; lia.
  - vm_compute. discriminate.
  - exists r, w', tr. now split.
Defined.

(** The write transactions of a read, after those of bootloader entry. *)
Lemma fw_read_writes (T : transport) (addr id : Z)
      (info : ft5x06_fw_update_info) (w : world T) :
  ft5x06_get_info id = Some info ->
  exists r0 w0 t0 r w' t,
    runs (ft5x06_init_upgrade addr id) w r0 t0 w0 /\
    runs (ft5x06_fw_read addr id) w r (t0 ++ t) w' /\
    (r = 0 \/ r < 0) /\
    writes t = (if r =? 0 then [[FT_REG_RESET_FW]] else []).
Proof.
  intros Hinfo.
  destruct (runs_fw_read addr id info Hinfo w)
    as (r0 & w0 & t0 & r & w' & t & H0 & Hrun & Hcase).
  exists r0, w0, t0, r, w', t. split; [exact H0 |]. split; [exact Hrun |].
  destruct Hcase as [(_ & -> & ->) | (_ & bufs & _ & Hres & _)].
  - split; [right; unfold EIO; lia | reflexivity].
  - destruct Hres as [(-> & _ & Ho) | (Hneg & _ & Ho)].
    + split; [now left |]. unfold writes. rewrite Ho, op_writes_app.
      now rewrite op_writes_read_ops.
    + split; [now right |].
      assert (Hr : (r =? 0) = false) by (apply Z.eqb_neq; lia).
      rewrite Hr. unfold writes. rewrite Ho, op_writes_app.
      now rewrite op_writes_read_ops.
Qed.

(** X4.  A dump never alters the flash: a run of [ft5x06_fw_read] contains
    no write transaction that begins with the erase commands 0x61 or 0x63,
    the length announcement 0xB0 or the programming command 0xBF; and it
    sends the firmware reset 0x07 exactly when it returns 0. *)
Theorem fw_read_never_programs (T : transport) (addr id : Z)
        (info : ft5x06_fw_update_info) (w : world T) :
  ft5x06_get_info id = Some info ->
  exists r w' tr,
    runs (ft5x06_fw_read addr id) w r tr w' /\
    (forall buf,
        hd 0 buf = FT_ERASE_APP_REG \/ hd 0 buf = FT_ERASE_PANEL_REG \/
        hd 0 buf = 0xB0 \/ hd 0 buf = FT_FW_START_REG ->
        count_write buf tr = 0%nat) /\
    count_write [FT_REG_RESET_FW] tr = (if r =? 0 then 1%nat else 0%nat).
Proof.
  intros Hinfo.
  destruct (fw_read_writes T addr id info w Hinfo)
    as (r0 & w0 & t0 & r & w' & t & H0 & Hrun & _ & Hw).
  exists r, w', (t0 ++ t). split; [exact Hrun |]. split.
  - intros buf Hbuf. rewrite count_write_app.
    rewrite (init_upgrade_never_writes addr id info Hinfo buf _ _ _ _)
      with (4 := H0);
      try (intros Heq; rewrite Heq in Hbuf;
           destruct Hbuf as [Hb | [Hb | [Hb | Hb]]]; discriminate Hb).
    rewrite count_write_writes, Hw.
    destruct (r =? 0); [| reflexivity]. cbn [filter].
    rewrite bytes_eqb_head; [reflexivity |].
    simpl. intros Heq. rewrite Heq in Hbuf.
    destruct Hbuf as [Hb | [Hb | [Hb | Hb]]]; discriminate Hb.
  - rewrite count_write_app.
    rewrite (init_upgrade_never_writes addr id info Hinfo [FT_REG_RESET_FW])
      with (4 := H0) by (simpl; discriminate).
    rewrite count_write_writes, Hw.
    destruct (r =? 0); cbn [filter]; beq; reflexivity.
Qed.

(** X4 on an FT5x06 that always works. *)
Lemma fw_read_never_programs_witness :
  exists r w' tr,
    runs (ft5x06_fw_read 0x38 FT5x06_ID) (boot (good_ft5x06 0)) r tr w' /\
    count_write [FT_ERASE_APP_REG] tr = 0%nat.
Proof.
  destruct (fw_read_never_programs (fake_chip (good_ft5x06 0)) 0x38 FT5x06_ID
              _ (boot (good_ft5x06 0)) eq_refl)
    as (r & w' & tr & Hrun & Hnever & _).
  exists r, w', tr. split; [exact Hrun |]. apply Hnever. now left.
Defined.

Lemma read_events_ok (oks : list (Z * list Z)) :
  Forall (fun p => 0 <= fst p /\ List.length (snd p) = 256%nat) oks ->
  forall k wr n io buf,
    In (I2cRead wr n io buf) (read_events k oks) -> 0 <= io.
Proof.
  induction 1 as [| p oks [Hp _] _ IH]; intros k wr n io buf Hin;
    [contradiction |].
  cbn [read_events] in Hin.
  destruct Hin as [Hin | [Hin | [Hin | [Hin | Hin]]]];
    try discriminate Hin.
  - inversion Hin; subst. exact Hp.
  - exact (IH _ _ _ _ _ Hin).
Qed.

Lemma I2cRead_inj (wr : list Z) (n io : Z) (buf wr' : list Z) (n' io' : Z)
      (buf' : list Z) :
  I2cRead wr n io buf = I2cRead wr' n' io' buf' ->
  wr = wr' /\ io = io' /\ buf = buf'.
Proof. intros E. now inversion E. Qed.

Lemma read_cmd_inj (k k' : nat) : read_cmd k = read_cmd k' -> k = k'.
Proof.
  unfold read_cmd. intros Heq.
  apply (f_equal (fun l => nth 2 l 0)) in Heq. cbn [nth] in Heq.
  rewrite !(Z.mul_comm 256), !Z.div_mul in Heq by lia. lia.
Qed.

(** X5.  How a dump fails.  If bootloader entry fails, [ft5x06_fw_read]
    returns [-EIO] having read and written nothing.  Otherwise the packets
    are read in order, each delivered block being handed to [write], and a
    read transaction whose ioctl fails ends the dump at once: the result of
    [ft5x06_fw_read] is the negative result of that ioctl, the transaction
    (with its error message) is the last thing in the run, [write] has
    been given the 256 bytes delivered for each earlier packet and nothing
    of the failing one, and no firmware reset is sent.  There is no other
    failure. *)
Theorem fw_read_failure (T : transport) (addr id : Z)
        (info : ft5x06_fw_update_info) (w : world T) :
  ft5x06_get_info id = Some info ->
  exists r0 w0 t0 r w' t,
    runs (ft5x06_init_upgrade addr id) w r0 t0 w0 /\
    runs (ft5x06_fw_read addr id) w r (t0 ++ t) w' /\
    (r = 0 \/ r < 0) /\
    (r0 = - EIO -> r = - EIO /\ t = []) /\
    (r < 0 -> r0 = - EIO \/ r0 = 0) /\
    (r0 = 0 ->
     exists oks tail,
       t = Log M_read_fw_from_flash :: read_events 0 oks ++ tail /\
       Forall (fun p => 0 <= fst p /\ List.length (snd p) = 256%nat) oks /\
       dumped (t0 ++ t) = List.concat (map snd oks) /\
       List.length (dumped (t0 ++ t)) = (List.length oks * 256)%nat /\
       (r < 0 ->
        exists stale,
          (List.length oks < 256)%nat /\
          tail = failed_read (List.length oks) r stale /\
          ops t = read_ops 0 (map snd oks)
                  ++ [OpSleep 10;
                      OpRead (read_cmd (List.length oks)) FT_FW_PKT_READ_LEN] /\
          writes t = []) /\
       (forall k io buf,
           In (I2cRead (read_cmd k) FT_FW_PKT_READ_LEN io buf) t ->
           io < 0 ->
           r = io /\ k = List.length oks /\ tail = failed_read k io buf)).
Proof.
  intros Hinfo.
  destruct (runs_fw_read_io addr id info Hinfo w)
    as (r0 & w0 & t0 & r & w' & t & H0 & Hrun & Hcase).
  exists r0, w0, t0, r, w', t. split; [exact H0 |]. split; [exact Hrun |].
  pose proof (init_upgrade_no_file addr id info w r0 t0 w0 Hinfo H0) as Hnf.
  destruct Hcase as [(-> & -> & ->)
                    | (-> & oks & tail & -> & Hall & Hres & _)].
  - split; [right; unfold EIO; lia |]. split; [now split |].
    split; [now left |]. intros Habs. discriminate Habs.
  - split; [destruct Hres as [(-> & _) | (stale & Hneg & _)]; auto |].
    split; [intros Habs; discriminate Habs |].
    split; [now right |]. intros _.
    exists oks, tail. split; [reflexivity |]. split; [exact Hall |].
    assert (Hft : file_writes tail = []).
    { destruct Hres as [(_ & _ & r4 & ->) | (stale & _ & _ & ->)];
        [| reflexivity].
      change (Log M_reset_new_fw
              :: write_trace [FT_REG_RESET_FW] r4 ++ [Msleep 100])
        with ([Log M_reset_new_fw]
                ++ write_trace [FT_REG_RESET_FW] r4 ++ [Msleep 100]).
      rewrite !file_writes_app. unfold write_trace. now destruct (r4 <? 0). }
    assert (Hd : dumped (t0 ++ Log M_read_fw_from_flash
                            :: read_events 0 oks ++ tail)
                 = List.concat (map snd oks)).
    { rewrite dumped_file_writes, file_writes_app, Hnf.
      change (Log M_read_fw_from_flash :: read_events 0 oks ++ tail)
        with ([Log M_read_fw_from_flash] ++ read_events 0 oks ++ tail).
      rewrite !file_writes_app, file_writes_read_events, Hft.
      cbn [file_writes flat_map app]. now rewrite app_nil_r. }
    split; [exact Hd |]. split; [| split].
    + rewrite Hd, (length_concat_uniform 256), length_map; [reflexivity |].
      apply Forall_map. eapply Forall_impl; [| exact Hall].
      intros p Hp. exact (proj2 Hp).
    + intros Hneg.
      destruct Hres as [(-> & _) | (stale & _ & Hl & ->)]; [lia |].
      exists stale. split; [exact Hl |]. split; [reflexivity |].
      assert (Hops : ops (Log M_read_fw_from_flash
                          :: read_events 0 oks
                             ++ failed_read (List.length oks) r stale)
                     = read_ops 0 (map snd oks)
                       ++ [OpSleep 10;
                           OpRead (read_cmd (List.length oks))
                                  FT_FW_PKT_READ_LEN]).
      { change (Log M_read_fw_from_flash
                :: read_events 0 oks ++ failed_read (List.length oks) r stale)
          with ([Log M_read_fw_from_flash]
                  ++ read_events 0 oks
                  ++ failed_read (List.length oks) r stale).
        rewrite !ops_app, ops_read_events. reflexivity. }
      split; [exact Hops |].
      unfold writes. rewrite Hops, op_writes_app.
      now rewrite op_writes_read_ops.
    + intros k io buf Hin Hneg.
      destruct Hin as [Hin | Hin]; [discriminate Hin |].
      apply in_app_or in Hin. destruct Hin as [Hin | Hin].
      { pose proof (read_events_ok oks Hall _ _ _ _ _ Hin). lia. }
      destruct Hres as [(_ & _ & r4 & ->) | (stale & _ & _ & ->)].
      * exfalso. destruct Hin as [Hin | Hin]; [discriminate Hin |].
        apply in_app_or in Hin. destruct Hin as [Hin | Hin].
        -- unfold write_trace in Hin.
           destruct (r4 <? 0); simpl in Hin; intuition discriminate.
        -- simpl in Hin. intuition discriminate.
      * unfold failed_read in Hin.
        destruct Hin as [Hin | [Hin | [Hin | [Hin | []]]]];
          try discriminate Hin.
        apply I2cRead_inj in Hin. destruct Hin as (Hcmd & <- & <-).
        apply read_cmd_inj in Hcmd. subst. now repeat split.
Qed.

(** X5 on a chip whose third read packet fails: the dump returns the -1
    of that ioctl, after 512 bytes handed to [write] and without any write
    on the bus after bootloader entry. *)
Lemma fw_read_failure_witness :
  exists w0 t0 w' t,
    runs (ft5x06_init_upgrade 0x38 FT5x06_ID) (boot short_read_chip) 0 t0 w0 /\
    runs (ft5x06_fw_read 0x38 FT5x06_ID) (boot short_read_chip)
         (-1) (t0 ++ t) w' /\
    Z.of_nat (List.length (dumped (t0 ++ t))) = 512 /\
    writes t = [].
Proof.
  destruct (fw_read_failure (fake_chip short_read_chip) 0x38 FT5x06_ID
              _ (boot short_read_chip) eq_refl)
    as (r0 & w0 & t0 & r & w' & t & H0 & Hrun & _ & _ & _ & Hpast).
  assert (r0 = 0) as ->
    by (destruct H0 as [Hc _]; vm_compute in Hc; now inversion Hc).
  assert (r = -1) as ->
    by (destruct Hrun as [Hc _]; vm_compute in Hc; now inversion Hc).
  destruct (Hpast eq_refl) as (oks & tail & _ & _ & _ & _ & Hfail & _).
  destruct Hfail as (stale & _ & _ & _ & Hw); [lia |].
  exists w0, t0, w', t. split; [exact H0 |]. split; [exact Hrun |].
  split; [| exact Hw].
  destruct Hrun as [Hc Ht]. vm_compute in Hc. inversion Hc; subst w'.
  simpl in Ht. rewrite <- Ht. reflexivity.
Defined.

(** ** What the XOR check can and cannot see *)

Lemma fold_lxor_acc (l : list Z) :
  forall acc, fold_left Z.lxor l acc = Z.lxor acc (xor_all l).
Proof.
  unfold xor_all. induction l as [| x l IH]; intros acc; simpl.
  - now rewrite Z.lxor_0_r.
  - rewrite IH, (IH x). now rewrite Z.lxor_assoc.
Qed.

Lemma xor_all_app (a b : list Z) :
  xor_all (a ++ b) = Z.lxor (xor_all a) (xor_all b).
Proof. unfold xor_all at 1. now rewrite fold_left_app, fold_lxor_acc. Qed.

Lemma xor_all_cons (x : Z) (l : list Z) :
  xor_all (x :: l) = Z.lxor x (xor_all l).
Proof. unfold xor_all at 1. simpl. apply fold_lxor_acc. Qed.

Lemma lxor_cancel_l (c a b : Z) : Z.lxor c a = Z.lxor c b -> a = b.
Proof.
  intros Heq. apply (f_equal (Z.lxor c)) in Heq.
  now rewrite <- !Z.lxor_assoc, Z.lxor_nilpotent, !Z.lxor_0_l in Heq.
Qed.

Lemma lxor_cancel_r (c a b : Z) : Z.lxor a c = Z.lxor b c -> a = b.
Proof. rewrite !(Z.lxor_comm _ c). apply lxor_cancel_l. Qed.

Lemma xor_all_perm (a b : list Z) : Permutation a b -> xor_all a = xor_all b.
Proof.
  induction 1 as [| x l l' _ IH | x y l | l l' l'' _ IH1 _ IH2].
  - reflexivity.
  - now rewrite !xor_all_cons, IH.
  - rewrite !xor_all_cons, <- !Z.lxor_assoc. now rewrite (Z.lxor_comm y x).
  - now rewrite IH1.
Qed.

Lemma upgrade_fuel_enough (L : Z) :
  0 <= L -> (packet_count L - 0 <= Z.to_nat (L / FT_FW_PKT_LEN + 1))%nat.
Proof.
  intros HL. unfold packet_count, FT_FW_PKT_LEN.
  pose proof (Z.div_mod (L + 127) 128 ltac:(lia)).
  pose proof (Z.mod_pos_bound (L + 127) 128 ltac:(lia)).
  pose proof (Z.div_mod L 128 ltac:(lia)).
  pose proof (Z.mod_pos_bound L 128 ltac:(lia)). lia.
Qed.

(** The ECC the programming loop of [ft5x06_fw_upgrade] hands to the
    verification. *)
Lemma runs_fw_upgrade_loop_all (T : transport) (addr : Z) (data : list Z)
      (w : world T) :
  Forall is_byte data ->
  Z.of_nat (List.length data) <= INT_MAX - 127 ->
  exists w' tr,
    runs (fw_upgrade_loop
            (Z.to_nat (Z.of_nat (List.length data) / FT_FW_PKT_LEN + 1))
            addr (Z.of_nat (List.length data)) 0 data 0)
         w (xor_all data) tr w'.
Proof.
  intros Hbytes HL.
  pose proof (upgrade_fuel_enough (Z.of_nat (List.length data))
                (Nat2Z.is_nonneg _)) as Hfuel.
  destruct (runs_fw_upgrade_loop addr data Hbytes HL
              (Z.to_nat (Z.of_nat (List.length data) / FT_FW_PKT_LEN + 1))
              0 0 w Hfuel)
    as (w' & tr & ks & Hrun & _).
  exists w', tr. exact Hrun.
Qed.

(** X6.  The ECC catches every change of a single byte: for two images
    that differ in exactly one position, the programming loop accumulates
    different ECC values. *)
Theorem ecc_detects_single_byte (T : transport) (addr : Z)
        (l1 l2 : list Z) (a b : Z) (w1 w2 : world T) :
  Forall is_byte (l1 ++ a :: l2) ->
  is_byte b ->
  a <> b ->
  Z.of_nat (List.length (l1 ++ a :: l2)) <= INT_MAX - 127 ->
  let L := Z.of_nat (List.length (l1 ++ a :: l2)) in
  let fuel := Z.to_nat (L / FT_FW_PKT_LEN + 1) in
  exists e1 t1 w1' e2 t2 w2',
    runs (fw_upgrade_loop fuel addr L 0 (l1 ++ a :: l2) 0) w1 e1 t1 w1' /\
    runs (fw_upgrade_loop fuel addr L 0 (l1 ++ b :: l2) 0) w2 e2 t2 w2' /\
    e1 <> e2.
Proof.
  intros Hbytes Hb Hne HL L fuel.
  assert (Hlen : List.length (l1 ++ b :: l2) = List.length (l1 ++ a :: l2))
    by (rewrite !length_app; reflexivity).
  assert (Hbytes' : Forall is_byte (l1 ++ b :: l2)).
  { apply Forall_app in Hbytes. destruct Hbytes as [H1 H2].
    apply Forall_app. split; [exact H1 |].
    inversion H2; subst. now constructor. }
  destruct (runs_fw_upgrade_loop_all T addr _ w1 Hbytes HL) as (w1' & t1 & Hr1).
  destruct (runs_fw_upgrade_loop_all T addr (l1 ++ b :: l2) w2 Hbytes')
    as (w2' & t2 & Hr2); [rewrite Hlen; exact HL |].
  rewrite Hlen in Hr2.
  exists (xor_all (l1 ++ a :: l2)), t1, w1', (xor_all (l1 ++ b :: l2)), t2, w2'.
  split; [exact Hr1 |]. split; [exact Hr2 |].
  rewrite !xor_all_app, !xor_all_cons. intros Heq.
  apply lxor_cancel_l, lxor_cancel_r in Heq. contradiction.
Qed.

(** X6 on S1 with its first byte changed. *)
Lemma ecc_detects_single_byte_witness :
  exists e1 t1 w1' e2 t2 w2',
    runs (fw_upgrade_loop 1 0x38 8 0 image_S1 0) (boot (good_ft5x06 0))
         e1 t1 w1' /\
    runs (fw_upgrade_loop 1 0x38 8 0 (0x03 :: tl image_S1) 0)
         (boot (good_ft5x06 0)) e2 t2 w2' /\
    e1 <> e2.
Proof.
  apply (ecc_detects_single_byte (fake_chip (good_ft5x06 0)) 0x38
           [] (tl image_S1) 0x01 0x03
           (boot (good_ft5x06 0)) (boot (good_ft5x06 0))).
  - repeat constructor; unfold is_byte; lia.
  - unfold is_byte; lia.
  - discriminate.
  - vm_compute. discriminate.
Defined.

(** X7.  The ECC is blind to the order of the bytes: for two images that
    are permutations of each other the programming loop accumulates the
    same ECC, so a chip reporting the ECC of one passes verification of
    the other. *)
Theorem ecc_blind_to_order (T : transport) (addr : Z) (d1 d2 : list Z)
        (w1 w2 : world T) :
  Forall is_byte d1 ->
  Permutation d1 d2 ->
  Z.of_nat (List.length d1) <= INT_MAX - 127 ->
  let L := Z.of_nat (List.length d1) in
  let fuel := Z.to_nat (L / FT_FW_PKT_LEN + 1) in
  exists e t1 w1' t2 w2',
    runs (fw_upgrade_loop fuel addr L 0 d1 0) w1 e t1 w1' /\
    runs (fw_upgrade_loop fuel addr L 0 d2 0) w2 e t2 w2'.
Proof.
  intros Hbytes Hperm HL L fuel.
  assert (Hlen : List.length d2 = List.length d1)
    by (symmetry; now apply Permutation_length).
  assert (Hbytes' : Forall is_byte d2)
    by (eapply Permutation_Forall; eassumption).
  destruct (runs_fw_upgrade_loop_all T addr d1 w1 Hbytes HL) as (w1' & t1 & Hr1).
  destruct (runs_fw_upgrade_loop_all T addr d2 w2 Hbytes')
    as (w2' & t2 & Hr2); [rewrite Hlen; exact HL |].
  rewrite Hlen, <- (xor_all_perm d1 d2 Hperm) in Hr2.
  exists (xor_all d1), t1, w1', t2, w2'. now split.
Qed.

(** X7 on S1 and S1 reversed. *)
Lemma ecc_blind_to_order_witness :
  exists e t1 w1' t2 w2',
    runs (fw_upgrade_loop 1 0x38 8 0 image_S1 0) (boot (good_ft5x06 0))
         e t1 w1' /\
    runs (fw_upgrade_loop 1 0x38 8 0 (rev image_S1) 0) (boot (good_ft5x06 0))
         e t2 w2'.
Proof.
  apply (ecc_blind_to_order (fake_chip (good_ft5x06 0)) 0x38 image_S1
           (rev image_S1)).
  - repeat constructor; unfold is_byte; lia.
  - apply Permutation_rev.
  - vm_compute. discriminate.
Defined.

(** ** Fields too narrow for the value *)

Lemma header_offset_packet (data : list Z) (k : nat) :
  header_offset (packet_at data k) = (128 * Z.of_nat k) mod 65536.
Proof.
  unfold header_offset, packet_at, pkt_header.
  set (off := 128 * Z.of_nat k). cbn [nth app]. clearbody off.
  pose proof (Z.div_mod off 256 ltac:(lia)).
  pose proof (Z.mod_pos_bound off 256 ltac:(lia)).
  pose proof (Z.div_mod (off / 256) 256 ltac:(lia)).
  pose proof (Z.mod_pos_bound (off / 256) 256 ltac:(lia)).
  pose proof (Z.div_mod off 65536 ltac:(lia)).
  pose proof (Z.mod_pos_bound off 65536 ltac:(lia)). lia.
Qed.

Lemma announced_length_announce (L : Z) :
  announced_length (announce L) = L mod 16777216.
Proof.
  unfold announced_length, announce. cbn [nth].
  pose proof (Z.div_mod L 256 ltac:(lia)).
  pose proof (Z.mod_pos_bound L 256 ltac:(lia)).
  pose proof (Z.div_mod (L / 256) 256 ltac:(lia)).
  pose proof (Z.mod_pos_bound (L / 256) 256 ltac:(lia)).
  pose proof (Z.div_mod L 65536 ltac:(lia)).
  pose proof (Z.mod_pos_bound L 65536 ltac:(lia)).
  pose proof (Z.div_mod (L / 65536) 256 ltac:(lia)).
  pose proof (Z.mod_pos_bound (L / 65536) 256 ltac:(lia)).
  pose proof (Z.div_mod L 16777216 ltac:(lia)).
  pose proof (Z.mod_pos_bound L 16777216 ltac:(lia)). lia.
Qed.

(** X8.  The address field of a programming packet is 16 bits wide and
    the write engine does not bound the image: every packet of the image is
    sent, and packet [k] carries the address [128 k mod 65536], so in an
    image longer than 65536 bytes packet [k + 512] is addressed like packet
    [k]. *)
Theorem long_image_addresses_wrap (T : transport) (addr id : Z)
        (info : ft5x06_fw_update_info) (data : list Z) (w : world T) :
  ft5x06_get_info id = Some info ->
  Forall is_byte data ->
  Z.of_nat (List.length data) <= INT_MAX - 127 ->
  (forall k : nat,
      header_offset (packet_at data k) = (128 * Z.of_nat k) mod 65536 /\
      header_offset (packet_at data (k + 512)) = header_offset (packet_at data k)) /\
  exists r0 w0 t0 r w' t,
    runs (ft5x06_init_upgrade addr id) w r0 t0 w0 /\
    runs (ft5x06_fw_upgrade addr id data (Z.of_nat (List.length data)))
         w r (t0 ++ t) w' /\
    (r0 = 0 ->
     forall k : nat,
       (k < packet_count (Z.of_nat (List.length data)))%nat ->
       In (packet_at data k) (writes t)).
Proof.
  intros Hinfo Hbytes HL. split.
  - intros k. split; [apply header_offset_packet |].
    rewrite !header_offset_packet.
    replace (128 * Z.of_nat (k + 512)) with (128 * Z.of_nat k + 1 * 65536) by lia.
    apply Z.mod_add. lia.
  - destruct (fw_upgrade_writes addr id info data Hinfo Hbytes HL w)
      as (r0 & w0 & t0 & H0 & _ & r & w' & t & Hrun & Hcase).
    exists r0, w0, t0, r, w', t. split; [exact H0 |]. split; [exact Hrun |].
    intros ->. destruct Hcase as [(Habs & _) | (_ & _ & Hw)];
      [discriminate Habs |].
    intros k Hk. rewrite Hw.
    apply in_or_app. right. apply in_or_app. right.
    change (In (packet_at data k)
               (announce (Z.of_nat (List.length data))
                :: expected_packets data
                   ++ (if r =? 0 then [[FT_REG_RESET_FW]] else []))).
    right. apply in_or_app. left.
    unfold expected_packets. apply in_map, in_seq. lia.
Qed.

Lemma Forall_byte_repeat (b : Z) (n : nat) : is_byte b -> Forall is_byte (repeat b n).
Proof.
  intros Hb. apply Forall_forall. intros x Hx.
  apply repeat_spec in Hx. now subst.
Qed.

(** X8 on an image of 65537 zero bytes: its last packet goes to address 0. *)
Lemma long_image_addresses_wrap_witness :
  header_offset (packet_at (repeat 0 (Z.to_nat 65537)) 512) = 0.
Proof.
  destruct (long_image_addresses_wrap (fake_chip (good_ft5x06 0)) 0x38
              FT5x06_ID _ (repeat 0 (Z.to_nat 65537)) (boot (good_ft5x06 0))
              eq_refl)
    as (Hwrap & _).
  - apply Forall_byte_repeat. unfold is_byte. lia.
  - rewrite repeat_length. unfold INT_MAX. lia.
  - destruct (Hwrap 512%nat) as [Hoff _]. rewrite Hoff. reflexivity.
Defined.

(** X9.  The length announcement [{0xB0, ...}] carries the image length in
    three bytes, most significant first: it is sent after every successful
    bootloader entry, and the length it encodes is the image length modulo
    2^24, hence the length itself for images shorter than 16 MiB. *)
Theorem length_announcement_truncates (T : transport) (addr id : Z)
        (info : ft5x06_fw_update_info) (data : list Z) (w : world T) :
  ft5x06_get_info id = Some info ->
  Forall is_byte data ->
  Z.of_nat (List.length data) <= INT_MAX - 127 ->
  let L := Z.of_nat (List.length data) in
  announced_length (announce L) = L mod 16777216 /\
  (L < 16777216 -> announced_length (announce L) = L) /\
  Forall is_byte (announce L) /\
  exists r0 w0 t0 r w' t,
    runs (ft5x06_init_upgrade addr id) w r0 t0 w0 /\
    runs (ft5x06_fw_upgrade addr id data L) w r (t0 ++ t) w' /\
    (r0 = 0 -> count_write (announce L) (t0 ++ t) = 1%nat).
Proof.
  intros Hinfo Hbytes HL L.
  split; [apply announced_length_announce |].
  split; [intros Hsmall; rewrite announced_length_announce;
          apply Z.mod_small; unfold L; lia |].
  split.
  { unfold announce, is_byte. repeat constructor; try lia;
      try (apply Z.mod_pos_bound; lia). }
  destruct (fw_upgrade_writes addr id info data Hinfo Hbytes HL w)
    as (r0 & w0 & t0 & H0 & _ & r & w' & t & Hrun & Hcase).
  exists r0, w0, t0, r, w', t. split; [exact H0 |]. split; [exact Hrun |].
  intros ->. destruct Hcase as [(Habs & _) | (_ & _ & Hw)];
    [discriminate Habs |].
  rewrite count_write_app.
  rewrite (init_upgrade_never_writes addr id info Hinfo (announce L))
    with (4 := H0) by (simpl; discriminate).
  rewrite count_write_writes. fold L in Hw. rewrite Hw, !filter_app, !length_app.
  rewrite short_not_in_packets by (simpl; lia).
  destruct (id =? FT5x26_ID), (r =? 0); cbn [filter]; beq; reflexivity.
Qed.

(** X9 on scenario S1. *)
Lemma length_announcement_truncates_witness :
  announced_length (announce 8) = 8.
Proof.
  destruct (length_announcement_truncates (fake_chip (good_ft5x06 0xff)) 0x38
              FT5x06_ID _ image_S1 (boot (good_ft5x06 0xff)) eq_refl)
    as (_ & Hsmall & _).
  - repeat constructor; unfold is_byte; lia.
  - vm_compute. discriminate.
  - apply Hsmall. reflexivity.
Defined.

(** ** The command line *)

Lemma parse_known_step (f v : string) (rest : list string) (o : options)
      (k : flag) :
  flag_of f = Some k ->
  parse_args (f :: v :: rest) o = parse_args rest (set_flag k v o).
Proof.
  unfold flag_of. intros Hk. cbn [parse_args].
  destruct (is_flag f "-a" "--address"); [now inversion Hk |].
  destruct (is_flag f "-b" "--bus"); [now inversion Hk |].
  destruct (is_flag f "-c" "--chipid"); [now inversion Hk |].
  destruct (is_flag f "-i" "--input"); [now inversion Hk |].
  destruct (is_flag f "-o" "--ouput"); [now inversion Hk | discriminate Hk].
Qed.

Lemma parse_unknown (bad : string) (rest : list string) (o : options) :
  flag_of bad = None -> parse_args (bad :: rest) o = Usage.
Proof.
  unfold flag_of. intros Hk. cbn [parse_args].
  destruct (is_flag bad "-a" "--address"); [discriminate Hk |].
  destruct (is_flag bad "-b" "--bus"); [discriminate Hk |].
  destruct (is_flag bad "-c" "--chipid"); [discriminate Hk |].
  destruct (is_flag bad "-i" "--input"); [discriminate Hk |].
  destruct (is_flag bad "-o" "--ouput"); [discriminate Hk | reflexivity].
Qed.

(** Complete pairs of known flags are consumed one after the other. *)
Lemma parse_pairs (ps : list (string * string)) (rest : list string) :
  Forall (fun p => flag_of (fst p) <> None) ps ->
  forall o, exists o', parse_args (flatten_pairs ps ++ rest) o
                       = parse_args rest o'.
Proof.
  induction 1 as [| [f v] ps Hf _ IH]; intros o.
  - now exists o.
  - simpl in Hf. destruct (flag_of f) as [k |] eqn:Hk; [| now elim Hf].
    destruct (IH (set_flag k v o)) as (o' & Ho').
    exists o'. simpl flatten_pairs. simpl app.
    fold (flatten_pairs ps).
    now rewrite (parse_known_step f v _ o k Hk).
Qed.

(** X10.  A word that is none of the ten spellings the parser knows, met
    where a flag is expected, ends the run whatever came before it and
    whatever follows: [main] prints the usage text and exits with status 1,
    without opening the bus; none of the options given before it is acted
    on. *)
Theorem main_usage_on_unknown_flag (T : transport) (H : host) (prog : string)
        (ps : list (string * string)) (bad : string) (rest : list string)
        (w : world T) :
  Forall (fun p => flag_of (fst p) <> None) ps ->
  flag_of bad = None ->
  main H (prog :: flatten_pairs ps ++ bad :: rest) w
  = Some (1, mkWorld (dev w) (trace w ++ [Log (M_usage prog)])).
Proof.
  intros Hps Hbad. unfold main. cbn [tl hd].
  destruct (parse_pairs ps (bad :: rest) Hps default_options) as (o' & ->).
  now rewrite (parse_unknown bad rest o' Hbad).
Qed.

(** X10 with a valid address option before an unknown word. *)
Lemma main_usage_on_unknown_flag_witness :
  main (plain_host []) ["ft5x06-tool"; "-a"; "38"; "--verbose"; "-i"; "fw.bin"]%string
       (boot (good_ft5x06 0))
  = Some (1, mkWorld (dev (boot (good_ft5x06 0)))
                     [Log (M_usage "ft5x06-tool")]).
Proof.
  apply (main_usage_on_unknown_flag (fake_chip (good_ft5x06 0)) (plain_host [])
           "ft5x06-tool" [("-a", "38")]%string "--verbose"
           ["-i"; "fw.bin"]%string (boot (good_ft5x06 0))).
  - repeat constructor. discriminate.
  - reflexivity.
Defined.

Lemma set_flag_comm (k1 k2 : flag) (v1 v2 : string) (o : options) :
  k1 <> k2 ->
  set_flag k2 v2 (set_flag k1 v1 o) = set_flag k1 v1 (set_flag k2 v2 o).
Proof. intros Hne. destruct k1, k2; try reflexivity; now elim Hne. Qed.

Lemma set_flag_twice (k : flag) (v1 v2 : string) (o : options) :
  set_flag k v2 (set_flag k v1 o) = set_flag k v2 o.
Proof. now destruct k. Qed.

(** Complete pairs before the rest of the command line either all select
    an option, or one of them makes the parser stop with the usage text. *)
Lemma parse_pairs_any (ps : list (string * string)) :
  forall o,
    (exists o', forall rest,
          parse_args (flatten_pairs ps ++ rest) o = parse_args rest o')
    \/ (forall rest, parse_args (flatten_pairs ps ++ rest) o = Usage).
Proof.
  induction ps as [| [f v] ps IH]; intros o.
  - left. now exists o.
  - destruct (flag_of f) as [k |] eqn:Hk.
    + destruct (IH (set_flag k v o)) as [(o' & Ho') | Hu].
      * left. exists o'. intros rest. cbn [flatten_pairs flat_map fst snd app].
        fold (flatten_pairs ps).
        now rewrite (parse_known_step f v _ o k Hk).
      * right. intros rest. cbn [flatten_pairs flat_map fst snd app].
        fold (flatten_pairs ps).
        now rewrite (parse_known_step f v _ o k Hk).
    + right. intros rest. cbn [flatten_pairs flat_map fst snd app].
      now apply parse_unknown.
Qed.

(** Pairs for pairwise different options can be given in any order. *)
Lemma parse_permutation (ps ps' : list (string * string)) :
  Permutation ps ps' ->
  NoDup (map (fun p => flag_of (fst p)) ps) ->
  Forall (fun p => flag_of (fst p) <> None) ps ->
  forall rest o,
    parse_args (flatten_pairs ps ++ rest) o
    = parse_args (flatten_pairs ps' ++ rest) o.
Proof.
  induction 1 as [| [f v] l l' Hperm IH
                  | [f2 v2] [f1 v1] l
                  | l l' l'' H1 IH1 H2 IH2];
    intros Hnd Hall rest o.
  - reflexivity.
  - inversion Hnd; subst. inversion Hall as [| ? ? Hf Hall']; subst.
    simpl in Hf. destruct (flag_of f) as [k |] eqn:Hk; [| now elim Hf].
    cbn [flatten_pairs flat_map fst snd app]. fold (flatten_pairs l).
    fold (flatten_pairs l').
    rewrite !(parse_known_step f v _ o k Hk). now apply IH.
  - inversion Hall as [| ? ? Hf1 Hall']; subst.
    inversion Hall' as [| ? ? Hf2 _]; subst.
    simpl in Hf1, Hf2.
    destruct (flag_of f1) as [k1 |] eqn:Hk1; [| now elim Hf1].
    destruct (flag_of f2) as [k2 |] eqn:Hk2; [| now elim Hf2].
    assert (Hne : k1 <> k2).
    { intros ->. inversion Hnd as [| ? ? Hnotin _]; subst.
      apply Hnotin. cbn [map fst]. rewrite Hk1, Hk2. now left. }
    cbn [flatten_pairs flat_map fst snd app]. fold (flatten_pairs l).
    rewrite (parse_known_step f1 v1 _ o k1 Hk1).
    rewrite (parse_known_step f2 v2 _ _ k2 Hk2).
    rewrite (parse_known_step f2 v2 _ o k2 Hk2).
    rewrite (parse_known_step f1 v1 _ _ k1 Hk1).
    now rewrite (set_flag_comm k1 k2 v1 v2 o Hne).
  - rewrite IH1 by assumption. apply IH2.
    + eapply Permutation_NoDup; [| exact Hnd].
      now apply Permutation_map.
    + eapply Permutation_Forall; [exact H1 | exact Hall].
Qed.

(** X11.  Options may come in any order, and of two values for one option
    the later stands.  Any number of flag/value pairs for pairwise
    different options can be permuted without changing what [main] does;
    anywhere behind complete pairs, two adjacent pairs for different
    options can be swapped, and a pair followed by another pair for the
    same option has no effect. *)
Theorem main_option_order (T : transport) (H : host) (prog : string)
        (w : world T) :
  (forall (ps ps' : list (string * string)) (rest : list string),
      Permutation ps ps' ->
      NoDup (map (fun p => flag_of (fst p)) ps) ->
      Forall (fun p => flag_of (fst p) <> None) ps ->
      main H (prog :: flatten_pairs ps ++ rest) w
      = main H (prog :: flatten_pairs ps' ++ rest) w) /\
  (forall (pre : list (string * string)) (f1 v1 f2 v2 : string)
          (rest : list string) (k1 k2 : flag),
      flag_of f1 = Some k1 ->
      flag_of f2 = Some k2 ->
      (k1 <> k2 ->
       main H (prog :: flatten_pairs pre ++ f1 :: v1 :: f2 :: v2 :: rest) w
       = main H (prog :: flatten_pairs pre ++ f2 :: v2 :: f1 :: v1 :: rest) w) /\
      (k1 = k2 ->
       main H (prog :: flatten_pairs pre ++ f1 :: v1 :: f2 :: v2 :: rest) w
       = main H (prog :: flatten_pairs pre ++ f2 :: v2 :: rest) w)).
Proof.
  split.
  - intros ps ps' rest Hperm Hnd Hall. unfold main. cbn [tl hd].
    now rewrite (parse_permutation ps ps' Hperm Hnd Hall rest default_options).
  - intros pre f1 v1 f2 v2 rest k1 k2 Hk1 Hk2. unfold main. cbn [tl hd].
    destruct (parse_pairs_any pre default_options) as [(o' & Ho') | Hu].
    2:{ rewrite !Hu. now split. }
    rewrite !Ho'.
    rewrite (parse_known_step f1 v1 _ _ k1 Hk1).
    rewrite !(parse_known_step f2 v2 _ _ k2 Hk2).
    rewrite (parse_known_step f1 v1 _ _ k1 Hk1).
    split.
    + intros Hne. now rewrite (set_flag_comm k1 k2 v1 v2 o' Hne).
    + intros ->. now rewrite set_flag_twice.
Qed.

(** X11 on a command line with three options turned round, and on an
    address given twice behind a bus option. *)
Lemma main_option_order_witness :
  main (plain_host [])
       ["ft5x06-tool"; "-a"; "38"; "--bus"; "1"; "-c"; "55"]%string
       (boot (good_ft5x06 0))
  = main (plain_host [])
         ["ft5x06-tool"; "-c"; "55"; "--bus"; "1"; "-a"; "38"]%string
         (boot (good_ft5x06 0)) /\
  main (plain_host [])
       ["ft5x06-tool"; "--bus"; "1"; "-a"; "39"; "--address"; "38"]%string
       (boot (good_ft5x06 0))
  = main (plain_host []) ["ft5x06-tool"; "--bus"; "1"; "--address"; "38"]%string
         (boot (good_ft5x06 0)).
Proof.
  destruct (main_option_order (fake_chip (good_ft5x06 0)) (plain_host [])
              "ft5x06-tool" (boot (good_ft5x06 0)))
    as [Hperm Hadj].
  split.
  - apply (Hperm [("-a", "38"); ("--bus", "1"); ("-c", "55")]%string
                 [("-c", "55"); ("--bus", "1"); ("-a", "38")]%string []).
    + apply perm_trans with [("-a", "38"); ("-c", "55"); ("--bus", "1")]%string.
      * apply perm_skip, perm_swap.
      * apply perm_trans
          with [("-c", "55"); ("-a", "38"); ("--bus", "1")]%string.
        -- apply perm_swap.
        -- apply perm_skip, perm_swap.
    + repeat constructor; simpl; intuition discriminate.
    + repeat constructor; discriminate.
  - destruct (Hadj [("--bus", "1")]%string "-a" "39" "--address" "38"
                   []%string FAddress FAddress eq_refl eq_refl)%string
      as [_ Hlater].
    now apply Hlater.
Defined.

Section NoWork.

Context {T : transport}.
Variable H : host.

(** Identification, by what the transport answers. *)
Lemma runs_identify_io (o : options) (w : world T) :
  exists w' tr,
    runs (identify o) w (detected_id o (dev w)) tr w' /\
    ops tr = (if o_chip_id o <? 0 then [OpRead [ID_G_CIPHER] 1] else []).
Proof.
  unfold identify, detected_id. destruct (o_chip_id o <? 0).
  - destruct (runs_i2c_read (o_addr o) [ID_G_CIPHER] 1 [0] 1 w) as (w1 & H1).
    cbv zeta in H1. simpl (if 0 <? 1 then _ else _) in H1.
    set (x := xfer_read T (dev w) (u16 (o_addr o)) [ID_G_CIPHER] 1) in *.
    destruct (fst (fst x) <? 0) eqn:Hr.
    + eexists _, _. split.
      * eapply runs_bind; [exact H1 |]. simpl fst. rewrite Hr.
        eapply runs_bind; [apply runs_emit | apply runs_ret].
      * rewrite !ops_app, ops_read_trace. reflexivity.
    + eexists _, _. split.
      * eapply runs_trace_eq.
        -- eapply runs_bind; [exact H1 |]. simpl fst. rewrite Hr.
           simpl snd. unfold fill. simpl skipn. rewrite app_nil_r.
           apply runs_ret.
        -- reflexivity.
      * rewrite !ops_app, ops_read_trace. reflexivity.
  - exists w, []. split; [apply runs_ret | reflexivity].
Qed.

(** The session of a command line without [-i] and without [-o]. *)
Lemma runs_main_session_noop (o : options) (w : world T) :
  o_input o = None ->
  o_output o = None ->
  exists tr w',
    runs (main_session H o) w tt tr w' /\
    ops tr = (if o_chip_id o <? 0 then [OpRead [ID_G_CIPHER] 1] else [])
             ++ match detected_id o (dev w) with
                | Some id => match ft5x06_get_name id with
                             | Some _ => [OpRead [ID_G_FIRMID] 1]
                             | None => []
                             end
                | None => []
                end.
Proof.
  intros Hin Hout. unfold main_session.
  destruct (runs_identify_io o w) as (w1 & t1 & H1 & Ho1).
  destruct (detected_id o (dev w)) as [id |].
  2:{ eexists _, _. split; [eapply runs_bind; [exact H1 | apply runs_ret] |].
      now rewrite ops_app, Ho1. }
  destruct (ft5x06_get_name id) as [name |] eqn:Hname.
  2:{ eexists _, _. split.
      - eapply runs_bind; [exact H1 |]. cbv iota beta. rewrite Hname.
        apply runs_emit.
      - now rewrite ops_app, Ho1. }
  pose proof (runs_emit (Log (M_chip_id id name)) w1) as H2.
  set (w2 := mkWorld (dev w1) _) in H2.
  destruct (runs_i2c_read (o_addr o) [ID_G_FIRMID] 1 [0] 1 w2) as (w3 & H3).
  cbv zeta in H3. simpl (if 0 <? 1 then _ else _) in H3.
  set (x := xfer_read T (dev w2) (u16 (o_addr o)) [ID_G_FIRMID] 1) in *.
  destruct (fst (fst x) <? 0) eqn:Hr.
  - eexists _, _. split.
    + eapply runs_bind; [exact H1 |]. cbv iota beta. rewrite Hname.
      eapply runs_bind; [exact H2 |].
      eapply runs_bind; [exact H3 |]. simpl fst. rewrite Hr. apply runs_emit.
    + rewrite !ops_app, Ho1, ops_read_trace. reflexivity.
  - eexists _, _. split.
    + eapply runs_bind; [exact H1 |]. cbv iota beta. rewrite Hname.
      eapply runs_bind; [exact H2 |].
      eapply runs_bind; [exact H3 |]. simpl fst. rewrite Hr.
      eapply runs_bind; [apply runs_emit |]. rewrite Hin, Hout.
      apply runs_emit.
    + rewrite !ops_app, Ho1, ops_read_trace. reflexivity.
Qed.

End NoWork.

(** X12.  Without [-i] and without [-o], once the bus device is open,
    [main] only looks, and returns 0: it reads the chip id register 0xA3,
    unless the id is forced, and then reads the firmware version register
    0xA6 exactly when it has a chip id (forced, or delivered by a read of
    0xA3 that succeeded) and that id is registered.  Nothing else is put on
    the bus, nothing is written to it or to a file, and the bootloader is
    never entered. *)
Theorem main_without_work_only_reads (T : transport) (H : host)
        (argv : list string) (o : options) (w : world T) :
  parse_args (tl argv) default_options = Parsed o ->
  o_input o = None ->
  o_output o = None ->
  -99999 <= o_bus o <= 999999 ->
  0 <= open_i2c H (o_bus o) ->
  set_slave H (o_addr o) = 0 ->
  exists tr w',
    runs (main H argv) w 0 tr w' /\
    ops tr = (if o_chip_id o <? 0 then [OpRead [ID_G_CIPHER] 1] else [])
             ++ match detected_id o (dev w) with
                | Some id => match ft5x06_get_name id with
                             | Some _ => [OpRead [ID_G_FIRMID] 1]
                             | None => []
                             end
                | None => []
                end /\
    (In (OpRead [ID_G_FIRMID] 1) (ops tr) <->
     exists id name,
       detected_id o (dev w) = Some id /\ ft5x06_get_name id = Some name) /\
    writes tr = [] /\ dumped tr = [].
Proof.
  intros Hparse Hin Hout Hbus Hfd Hslave.
  destruct (runs_main_session_noop H o
              (mkWorld (dev w) ((trace w ++ [Log (M_opening (o_bus o))])
                                  ++ [Log (M_setting_addr (o_addr o))]))
              Hin Hout)
    as (tr & w' & Hsess & Hops).
  cbn [dev] in Hops.
  pose proof (runs_main_of_session H argv o w tr w' Hparse Hbus Hfd Hslave Hsess)
    as Hrun.
  eexists _, w'. split; [exact Hrun |].
  assert (Ho : ops ([Log (M_opening (o_bus o))]
                    ++ [Log (M_setting_addr (o_addr o))] ++ tr ++[]) = ops tr)
    by (rewrite !ops_app; simpl; now rewrite app_nil_r).
  unfold writes, dumped. rewrite Ho, Hops. split; [reflexivity |].
  destruct (detected_id o (dev w)) as [id |] eqn:Hdet;
    [destruct (ft5x06_get_name id) as [name |] eqn:Hname |];
    destruct (o_chip_id o <? 0); (split; [split | now split]);
      try (intros _; exists id, name; now split);
      try (intros _; simpl; tauto);
      try (intros Hin'; simpl in Hin'; intuition discriminate);
      try (intros (id' & name' & Hd & Hn); congruence).
Qed.

(** X12 on the bare command against an FT5x06 (both registers are read)
    and with a forced id that is not registered (nothing is read). *)
Lemma main_without_work_only_reads_witness :
  (exists tr w',
      runs (main (plain_host []) ["ft5x06-tool"%string]) (boot (good_ft5x06 0))
           0 tr w' /\
      ops tr = [OpRead [ID_G_CIPHER] 1; OpRead [ID_G_FIRMID] 1] /\
      writes tr = []) /\
  (exists tr w',
      runs (main (plain_host []) ["ft5x06-tool"; "-c"; "99"]%string)
           (boot (good_ft5x06 0)) 0 tr w' /\
      ops tr = []).
Proof.
  split.
  - destruct (main_without_work_only_reads (fake_chip (good_ft5x06 0))
                (plain_host []) ["ft5x06-tool"%string] default_options
                (boot (good_ft5x06 0)))
      as (tr & w' & Hrun & Hops & _ & Hw & _);
      try reflexivity; try (simpl; lia).
    exists tr, w'. split; [exact Hrun |]. split; [exact Hops | exact Hw].
  - destruct (main_without_work_only_reads (fake_chip (good_ft5x06 0))
                (plain_host []) ["ft5x06-tool"; "-c"; "99"]%string
                (mkOptions None None 2 0x38 0x99)
                (boot (good_ft5x06 0)))
      as (tr & w' & Hrun & Hops & _);
      try reflexivity; try (simpl; lia).
    exists tr, w'. split; [exact Hrun | exact Hops].
Defined.

(** ** Undefined behaviour *)

Section Defined.

Context {T : transport}.










End Defined.



(** X14.  For a chip id outside the registry, [ft5x06_fw_upgrade] returns
    [-ENODEV] without touching the bus, whereas [ft5x06_init_upgrade] and
    [ft5x06_fw_read], which have no such check, dereference the [NULL]
    record; for a registered id [ft5x06_fw_upgrade] never returns
    [-ENODEV] and always uses the bus, its first operation being the
    reset write [{0xFC, 0xAA}]. *)
Theorem unregistered_chip (T : transport) (addr id : Z) (data : list Z)
        (w : world T) :
  (ft5x06_get_info id = None ->
   ft5x06_fw_upgrade addr id data (Z.of_nat (List.length data)) w
   = Some (- ENODEV, w) /\
   ft5x06_init_upgrade addr id w = None /\
   ft5x06_fw_read addr id w = None) /\
  (forall info,
      ft5x06_get_info id = Some info ->
      Forall is_byte data ->
      Z.of_nat (List.length data) <= INT_MAX - 127 ->
      exists r tr w' rest,
        runs (ft5x06_fw_upgrade addr id data (Z.of_nat (List.length data)))
             w r tr w' /\
        r <> - ENODEV /\
        ops tr = OpWrite [FT_RST_CMD_REG1; FT_UPGRADE_AA] :: rest).
Proof.
  split.
  - intros Hnone.
    assert (Hinit : ft5x06_init_upgrade addr id w = None).
    { unfold ft5x06_init_upgrade, bind. cbn [Z.to_nat FT_UPGRADE_LOOP].
      replace (Pos.to_nat 30) with 30%nat by reflexivity.
      cbn [init_upgrade_loop]. change (0 <? FT_UPGRADE_LOOP) with true.
      cbv iota. unfold bind at 1. unfold init_upgrade_iter.
      unfold bind at 1. unfold LOG at 1, emit at 1. cbv beta iota.
      unfold bind at 1. unfold ft5x06_reset_ctpm. rewrite Hnone.
      reflexivity. }
    split; [| split; [exact Hinit |]].
    + unfold ft5x06_fw_upgrade. now rewrite Hnone.
    + unfold ft5x06_fw_read, bind. now rewrite Hinit.
  - intros info Hinfo Hbytes HL.
    destruct (fw_upgrade_writes addr id info data Hinfo Hbytes HL w)
      as (r0 & w0 & t0 & H0 & Hc0 & r & w' & t & Hrun & Hcase).
    destruct (init_upgrade_first_op addr id info w r0 t0 w0 Hinfo H0)
      as (rest & Hrest).
    exists r, (t0 ++ t), w', (rest ++ ops t). split; [exact Hrun |]. split.
    + destruct Hcase as [(_ & -> & _) | (_ & [-> | ->] & _)]; discriminate.
    + now rewrite ops_app, Hrest.
Qed.

(** X15.  What [main] can return: 1 after the usage text, the negative
    descriptor when the bus device cannot be opened, -1 when the slave
    address cannot be set, and 0 in every other case; in the first three
    cases nothing has been put on the bus. *)
Theorem main_return_values (T : transport) (H : host) (argv : list string)
        (w : world T) (code : Z) (w' : world T) :
  main H argv w = Some (code, w') ->
  (parse_args (tl argv) default_options = Usage /\ code = 1 /\
   trace w' = trace w ++ [Log (M_usage (hd EmptyString argv))])
  \/
  exists o,
    parse_args (tl argv) default_options = Parsed o /\
    ((open_i2c H (o_bus o) < 0 /\ code = open_i2c H (o_bus o) /\
      trace w' = trace w ++ [Log (M_opening (o_bus o));
                             Log (M_open_failed (o_bus o))])
     \/
     (0 <= open_i2c H (o_bus o) /\ set_slave H (o_addr o) <> 0 /\ code = -1 /\
      trace w' = trace w ++ [Log (M_opening (o_bus o));
                             Log (M_setting_addr (o_addr o));
                             Log M_slave_addr_failed])
     \/
     (0 <= open_i2c H (o_bus o) /\ set_slave H (o_addr o) = 0 /\ code = 0)).
Proof.
  intros Hrun. pose proof Hrun as Hrun0. unfold main in Hrun.
  destruct (parse_args (tl argv) default_options) as [o | |] eqn:Hparse.
  - right. exists o. split; [reflexivity |].
    destruct ((o_bus o <? -99999) || (999999 <? o_bus o)); [discriminate Hrun |].
    unfold bind at 1, LOG at 1, emit at 1 in Hrun. cbv beta iota zeta in Hrun.
    destruct (open_i2c H (o_bus o) <? 0) eqn:Hfd.
    + left. apply Z.ltb_lt in Hfd.
      unfold bind, LOG, emit, ret in Hrun. simpl in Hrun.
      inversion Hrun; subst. simpl. rewrite <- app_assoc. auto.
    + apply Z.ltb_ge in Hfd. right.
      destruct (Z.eq_dec (set_slave H (o_addr o)) 0) as [Hs | Hs].
      * right. repeat split; try assumption.
        exact (main_zero_past_setup T H argv o w code w' Hparse Hfd Hs Hrun0).
      * left. apply Z.eqb_neq in Hs. rewrite Hs in Hrun.
        unfold bind, LOG, emit, ret in Hrun. simpl in Hrun.
        inversion Hrun; subst. simpl. rewrite <- !app_assoc.
        apply Z.eqb_neq in Hs. auto.
  - left. unfold bind, LOG, emit, ret in Hrun. simpl in Hrun.
    inversion Hrun; subst. auto.
  - discriminate Hrun.
Qed.

(** X15 on a host without the bus device. *)
Lemma main_return_values_witness :
  exists w',
    main no_bus_host ["ft5x06-tool"%string] (boot (good_ft5x06 0))
    = Some (-1, w') /\
    trace w' = [Log (M_opening 2); Log (M_open_failed 2)].
Proof.
  assert (Hrun : main no_bus_host ["ft5x06-tool"%string] (boot (good_ft5x06 0))
                 = Some (-1, mkWorld (dev (boot (good_ft5x06 0)))
                                     [Log (M_opening 2); Log (M_open_failed 2)]))
    by reflexivity.
  destruct (main_return_values (fake_chip (good_ft5x06 0)) no_bus_host
              _ _ _ _ Hrun)
    as [(Habs & _) | (o & Hparse & Hcase)]; [discriminate Habs |].
  eexists. split; [exact Hrun | reflexivity].
Defined.

(** X16.  What bootloader entry puts on the bus: between one and thirty
    attempts and nothing else, each attempt being the CTPM reset (0xFC
    <- 0xAA, the variant's [delay_aa], 0xFC <- 0x55, the variant's
    [delay_55]), for chip id 0x54 the bridge command followed by a
    three-byte read without a write part and 10 ms, then the two bytes
    [{0x55, 0xAA}], and in the attempts that go on to the check, the
    variant's [delay_readid] and the read-ID command with its two-byte
    read. *)
Theorem bootloader_entry_sequence (T : transport) (addr id : Z)
        (info : ft5x06_fw_update_info) (w : world T) :
  ft5x06_get_info id = Some info ->
  exists r w' tr flags,
    runs (ft5x06_init_upgrade addr id) w r tr w' /\
    ops tr = flat_map (iter_ops info id) flags /\
    (1 <= List.length flags <= 30)%nat /\
    (forall checked,
        iter_ops info id checked
        = [OpWrite [0xFC; 0xAA]; OpSleep (delay_aa info);
           OpWrite [0xFC; 0x55]; OpSleep (delay_55 info)]
          ++ (if id =? 0x54
              then [OpWrite [0xeb; 0xaa; 0x09]; OpRead [] 3; OpSleep 10]
              else [])
          ++ [OpWrite [0x55; 0xAA]]
          ++ (if checked
              then [OpSleep (delay_readid info); OpRead [0x90; 0; 0; 0] 2]
              else [])).
Proof.
  intros Hinfo.
  destruct (runs_init_upgrade T addr id info w Hinfo)
    as (r & w' & tr & n & Hrun & Ha & _ & Hn & _).
  assert (Hloop : exists tr' flags,
             trace w' = trace w ++ tr' /\
             ops tr' = flat_map (iter_ops info id) flags).
  { destruct Hrun as [Hc _]. unfold ft5x06_init_upgrade in Hc.
    unfold bind at 1 in Hc.
    destruct (init_upgrade_loop _ addr id 0 w) as [[i' w1] |] eqn:Hl;
      [| discriminate].
    destruct (init_upgrade_loop_ops addr id info _ Hinfo _ _ _ _ Hl)
      as (tr' & flags & Ht & Ho).
    assert (w1 = w') as ->
      by (destruct (i' >=? FT_UPGRADE_LOOP); now inversion Hc).
    now exists tr', flags. }
  destruct Hloop as (tr' & flags & Ht & Ho).
  destruct Hrun as [Hc Htr].
  assert (tr' = tr) as -> by exact (trace_delta _ _ _ _ Ht Htr).
  exists r, w', tr, flags. split; [now split |]. split; [exact Ho |].
  split; [| reflexivity].
  unfold count_write in Ha. rewrite Ho, op_count_attempts in Ha. lia.
Qed.

(** X16 on an FT5x26 that always works. *)
Lemma bootloader_entry_sequence_witness :
  exists r w' tr flags,
    runs (ft5x06_init_upgrade 0x38 FT5x26_ID) (boot (good_ft5x26 0)) r tr w' /\
    ops tr = flat_map (iter_ops
                         (Build_ft5x06_fw_update_info FT5x26_ID "ft5x26" 5 0 4
                                                      250 0x54 0x2c 10 3000 0x1800)
                         FT5x26_ID) flags.
Proof.
  destruct (bootloader_entry_sequence (fake_chip (good_ft5x26 0)) 0x38
              FT5x26_ID _ (boot (good_ft5x26 0)) eq_refl)
    as (r & w' & tr & flags & Hrun & Ho & _).
  exists r, w', tr, flags. now split.
Defined.
